(** * Fruit-Detection: local visual analysis and result fusion

    A shallow embedding of the analysis core of the fruit quality analyzer,
    advance_Fruit-Detection.py, with the older goodUI.py where the two
    differ, and the properties of its fusion policy, its keyword fallback
    classifier, its defect detectors and its overlay renderer.

    Conventions of the embedding.
    - Python numbers are rationals ([Q]): every finite float is a rational.
      The sums and products that decide a branch of the fusion (the badness
      scores, the boosted confidence) are float operations: the exact result
      rounded to the nearest double ([Py.fadd], [Py.fmul]).  The means,
      ratios and blends of the detectors are taken exact; they are rounded
      to two decimals before they are used.  [round(x, n)] rounds half to
      even at [n] decimals.
    - A Python [str] is a [string] of bytes (UTF-8); its length and its
      slices count characters, and [lower()] is the library's.
    - A Python [dict] decoded from JSON is an association list from keys
      to values; a raised exception is [None] in the [option] monad.
    - A NumPy array is the list of its rows.  The operations of OpenCV with a
      closed form (thresholds, bitwise operations, erosion and dilation,
      counting, blending) are functions; the colour conversions, the filters
      and the contour functions are the fields of the class [OpenCV], and the
      facts the proofs take from them are stated as laws. *)

From Stdlib Require Import ZArith QArith Qpower Qround Qabs Lia Lqa List String Ascii Bool.
Import ListNotations.

Open Scope string_scope.
Open Scope list_scope.
Open Scope Q_scope.

(** ** Python arithmetic *)

Module Py.

(** [max(a, b)] and [min(a, b)]: the first argument wins a tie. *)
Definition max (a b : Q) : Q :=
  match a ?= b with Lt => b | _ => a end.

Definition min (a b : Q) : Q :=
  match b ?= a with Lt => b | _ => a end.

(** [a < b] *)
Definition ltb (a b : Q) : bool :=
  match a ?= b with Lt => true | _ => false end.

(** Nearest integer, ties to the even one. *)
Definition round_half_even (x : Q) : Z :=
  let f := Qfloor x in
  match (x - inject_Z f ?= 1 # 2)%Q with
  | Lt => f
  | Gt => (f + 1)%Z
  | Eq => if Z.even f then f else (f + 1)%Z
  end.

Definition pow10 (n : nat) : Q := inject_Z (10 ^ Z.of_nat n).

(** [round(x, ndigits)] *)
Definition round (x : Q) (ndigits : nat) : Q :=
  inject_Z (round_half_even (x * pow10 ndigits)) / pow10 ndigits.

(** Floor of the binary logarithm of a positive number. *)
Definition ilog2 (x : Q) : Z :=
  let e0 := (Z.log2 (Qnum x) - Z.log2 (Zpos (Qden x)))%Z in
  if Qle_bool (2 ^ e0) x then e0 else (e0 - 1)%Z.

(** The double nearest to a positive number, ties to the even significand:
    53 binary digits from the leading one. *)
Definition fl_pos (x : Q) : Q :=
  let ulp := 2 ^ (ilog2 x - 52) in
  inject_Z (round_half_even (x / ulp)) * ulp.

(** The double nearest to [x]: the result of one float operation whose exact
    value is [x].  Underflow and overflow are left out: the magnitudes of the
    program lie far inside the range of doubles. *)
Definition fl (x : Q) : Q :=
  match x ?= 0 with
  | Eq => 0
  | Gt => fl_pos x
  | Lt => - fl_pos (- x)
  end.

(** [a + b] and [a * b] on floats. *)
Definition fadd (a b : Q) : Q := fl (a + b).
Definition fmul (a b : Q) : Q := fl (a * b).

(** [a / b] on numbers: [ZeroDivisionError] when [b] is zero. *)
Definition div (a b : Q) : option Q :=
  if Qeq_bool b 0 then None else Some (a / b).

End Py.

(** The error monad of raised exceptions. *)
Definition bind {A B : Type} (m : option A) (k : A -> option B) : option B :=
  match m with Some a => k a | None => None end.

Notation "x <- m ;; k" := (bind m (fun x => k))
  (at level 61, m at next level, right associativity).

(** ** Python strings, values and dictionaries *)


(** [sub in s] on strings. *)
Fixpoint contains (sub s : string) : bool :=
  String.prefix sub s ||
  match s with
  | EmptyString => false
  | String _ s' => contains sub s'
  end.

Definition lower_ascii (c : ascii) : ascii :=
  let n := N_of_ascii c in
  if ((65 <=? n) && (n <=? 90))%N then ascii_of_N (n + 32) else c.

(** The lower-case form of a text of ASCII characters. *)
Fixpoint lower (s : string) : string :=
  match s with
  | EmptyString => EmptyString
  | String c s' => String (lower_ascii c) (lower s')
  end.

(** A [str] is held as the bytes of its UTF-8 form, in which a byte
    [10xxxxxx] continues a character and any other byte starts one; so
    [sub in s] is the search of a run of bytes, and lengths and slices count
    the bytes that start a character. *)
Definition continuation (c : ascii) : bool :=
  let n := N_of_ascii c in ((128 <=? n) && (n <? 192))%N.

(** [len(s)] *)
Fixpoint len (s : string) : nat :=
  match s with
  | EmptyString => 0
  | String c s' => if continuation c then len s' else S (len s')
  end.

(** [s[:n]] *)
Fixpoint take (n : nat) (s : string) : string :=
  match s with
  | EmptyString => EmptyString
  | String c s' =>
      if continuation c then String c (take n s')
      else match n with
           | O => EmptyString
           | S n' => String c (take n' s')
           end
  end.

(** [s.lower()] follows the case mappings of Unicode; it is taken from the
    library. *)
Class Unicode : Type := {
  str_lower : string -> string
}.

(** A keyword of the program: ASCII characters, none of them a capital. *)
Definition plain (keyword : string) : bool :=
  forallb (fun c => let n := N_of_ascii c in ((n <? 65) || ((90 <? n) && (n <? 128)))%N)
    (list_ascii_of_string keyword).

(** What the proofs take from [str.lower()]: it works character by
    character and keeps the characters that are not capitals, so a keyword
    of the text stays where it is; and two texts that differ in the case of
    ASCII letters only have the same lower-case form. *)
Class UnicodeLaws (u : Unicode) : Prop := {
  lower_keeps_keywords :
    forall keyword text,
      plain keyword = true -> contains keyword text = true ->
      contains keyword (str_lower text) = true;
  lower_ascii_case :
    forall text1 text2, lower text1 = lower text2 -> str_lower text1 = str_lower text2
}.

(** [any(keyword in text for keyword in keywords)] *)
Definition any_in (keywords : list string) (text : string) : bool :=
  existsb (fun keyword => contains keyword text) keywords.

Inductive pyval : Type :=
| PNone
| PStr (s : string)
| PNum (q : Q)
| PList (l : list string).

(** A JSON object: keys in insertion order. *)
Definition dict : Type := list (string * pyval).

Fixpoint dict_lookup (d : dict) (k : string) : option pyval :=
  match d with
  | [] => None
  | (k', v) :: d' => if String.eqb k' k then Some v else dict_lookup d' k
  end.

(** [d.get(k, default)] *)
Definition dict_get (d : dict) (k : string) (default : pyval) : pyval :=
  match dict_lookup d k with Some v => v | None => default end.

(** A table keyed by strings, [table.get(key, default)] with a key that may
    be any value: only a string can be found, a list is unhashable. *)
Fixpoint table_lookup {A : Type} (t : list (string * A)) (k : string) : option A :=
  match t with
  | [] => None
  | (k', v) :: t' => if String.eqb k' k then Some v else table_lookup t' k
  end.

Definition table_get {A : Type} (t : list (string * A)) (key : pyval) (default : A)
  : option A :=
  match key with
  | PStr k => Some (match table_lookup t k with Some v => v | None => default end)
  | PList _ => None
  | _ => Some default
  end.

(** [v in [s1, ..., sn]] for a list of string literals. *)
Definition in_strs (v : pyval) (l : list string) : bool :=
  match v with
  | PStr s => existsb (String.eqb s) l
  | _ => false
  end.

(** The number held by a value; arithmetic on anything else is a [TypeError]. *)
Definition as_num (v : pyval) : option Q :=
  match v with PNum q => Some q | _ => None end.

(** Truth value of [gemini_result]: [None] and the empty dict are false. *)
Definition truthy (g : option dict) : option dict :=
  match g with
  | Some (kv :: d) => Some (kv :: d)
  | _ => None
  end.

(** ** The data model *)

(** The dictionary returned by [perform_local_analysis]. *)
Record LocalMetrics : Type := mkLocalMetrics {
  brown_rot_percentage : Q;
  black_spots_percentage : Q;
  color_variance : Q;
  texture_score : Q;
  shape_integrity : Q;
  freshness_score : Q
}.

(** The dictionary returned by [combine_analysis_results]. *)
Record AnalysisResult : Type := mkAnalysisResult {
  condition : string;
  confidence : Q;
  description : pyval;
  color : string;
  local_analysis : LocalMetrics;
  gemini_analysis : option dict;
  fruit_type : pyval;
  primary_source : string;
  prevention_tips : pyval;
  action_required : pyval;
  storage_advice : pyval;
  shelf_life : pyval;
  health_risks : pyval;
  disease_identification : pyval
}.

(** ** Images as NumPy arrays *)

(** A two-dimensional array is the list of its rows; a colour image holds a
    triple of channels at each place ([uint8] values), a mask or a grey
    image one [uint8] value, a filter response one number. *)
Definition Grid (A : Type) : Type := list (list A).
Definition Pixel : Type := (Z * Z * Z)%type.
Definition Image : Type := Grid Pixel.

Section Grids.

Context {A B : Type}.

(** The lengths of the rows. *)
Definition shape (g : Grid A) : list nat := map (@Datatypes.length A) g.

(** [g.shape[0]], [g.shape[1]] and [g.size] *)
Definition rows (g : Grid A) : nat := Datatypes.length g.
Definition cols (g : Grid A) : nat := Datatypes.length (hd [] g).
Definition gsize (g : Grid A) : nat := list_sum (shape g).

(** An array of [h] rows and [w] columns. *)
Definition has_shape (h w : nat) (g : Grid A) : Prop := shape g = repeat w h.

(** The entry at row [r], column [c], and [d] outside of the array. *)
Definition gget (d : A) (g : Grid A) (r c : Z) : A :=
  if ((r <? 0) || (c <? 0))%Z then d
  else nth (Z.to_nat c) (nth (Z.to_nat r) g []) d.

(** Whether row [r], column [c] is a place of the array. *)
Definition inb (g : Grid A) (r c : Z) : bool :=
  ((0 <=? r)%Z && (0 <=? c)%Z &&
   (Z.to_nat c <? nth (Z.to_nat r) (shape g) 0)%nat)%bool.

Fixpoint mapi_from (i : Z) (f : Z -> A -> B) (l : list A) : list B :=
  match l with
  | [] => []
  | a :: l' => f i a :: mapi_from (i + 1)%Z f l'
  end.

Definition gmap (f : A -> B) (g : Grid A) : Grid B := map (map f) g.

Definition gflat (g : Grid A) : list A := List.concat g.

End Grids.

(** The array of the shape of [g] with [f r c] at row [r], column [c]. *)
Definition gtab {A B : Type} (f : Z -> Z -> B) (g : Grid A) : Grid B :=
  mapi_from 0 (fun r row => mapi_from 0 (fun c _ => f r c) row) g.

(** An elementwise operation on two arrays of one shape. *)
Definition gmap2 {A B C : Type} (da : A) (db : B) (f : A -> B -> C)
  (g1 : Grid A) (g2 : Grid B) : Grid C :=
  gtab (fun r c => f (gget da g1 r c) (gget db g2 r c)) g1.

(** Whether [check] holds at every place of [g]. *)
Definition at_every_place {A : Type} (g : Grid A) (check : Z -> Z -> bool) : bool :=
  forallb (fun i =>
    forallb (fun j => check (Z.of_nat i) (Z.of_nat j))
      (seq 0 (nth i (shape g) 0%nat)))
    (seq 0 (rows g)).

Definition pixel_eqb (p q : Pixel) : bool :=
  let '(a, b, c) := p in
  let '(x, y, z) := q in
  ((a =? x) && (b =? y) && (c =? z))%Z.

Definition channel0 (img : Image) : Grid Z := gmap (fun '(x, _, _) => x) img.
Definition channel1 (img : Image) : Grid Z := gmap (fun '(_, y, _) => y) img.
Definition channel2 (img : Image) : Grid Z := gmap (fun '(_, _, z) => z) img.

(** ** NumPy and OpenCV operations with a closed form *)

Module np.

Definition sum (l : list Q) : Q := fold_right Qplus 0 l.

(** [np.mean]: not a number on an empty array, which is 0 here. *)
Definition mean (l : list Q) : Q := sum l / inject_Z (Z.of_nat (Datatypes.length l)).

(** [x.var()]: the mean of the squared deviations. *)
Definition var (l : list Q) : Q :=
  let m := mean l in mean (map (fun x => (x - m) * (x - m)) l).

Definition of_plane (g : Grid Z) : list Q := map inject_Z (gflat g).

Definition abs (g : Grid Q) : Grid Q := gmap Qabs g.

(** [np.pi], the double nearest to pi. *)
Definition pi : Q := 884279719003555 # 281474976710656.

End np.

Module cv2.

Definition in_range (lowerb upperb p : Pixel) : bool :=
  let '(l0, l1, l2) := lowerb in
  let '(u0, u1, u2) := upperb in
  let '(p0, p1, p2) := p in
  ((l0 <=? p0) && (p0 <=? u0) && (l1 <=? p1) && (p1 <=? u1) &&
   (l2 <=? p2) && (p2 <=? u2))%Z.

(** [cv2.inRange]: 255 where every channel lies within its bounds. *)
Definition inRange (src : Image) (lowerb upperb : Pixel) : Grid Z :=
  gmap (fun p => if in_range lowerb upperb p then 255 else 0)%Z src.

(** [cv2.threshold(src, thresh, maxval, cv2.THRESH_BINARY_INV)] *)
Definition threshold_BINARY_INV (src : Grid Z) (thresh maxval : Z) : Grid Z :=
  gmap (fun v => if (v >? thresh)%Z then 0 else maxval)%Z src.

Definition bitwise_and (m1 m2 : Grid Z) : Grid Z := gmap2 0%Z 0%Z Z.land m1 m2.
Definition bitwise_or (m1 m2 : Grid Z) : Grid Z := gmap2 0%Z 0%Z Z.lor m1 m2.

Definition nonzero (v : Z) : bool := negb (v =? 0)%Z.

Definition countNonZero (m : Grid Z) : Z :=
  Z.of_nat (Datatypes.length (filter nonzero (gflat m))).

(** [cv2.getStructuringElement(cv2.MORPH_ELLIPSE, (3,3))] and [(5,5)] *)
Definition MORPH_ELLIPSE_3x3 : Grid Z :=
  [ [0; 1; 0];
    [1; 1; 1];
    [0; 1; 0] ]%Z.

Definition MORPH_ELLIPSE_5x5 : Grid Z :=
  [ [0; 0; 1; 0; 0];
    [1; 1; 1; 1; 1];
    [1; 1; 1; 1; 1];
    [1; 1; 1; 1; 1];
    [0; 0; 1; 0; 0] ]%Z.

(** The places of the non-zero entries of a kernel, from its centre. *)
Definition offsets (kernel : Grid Z) : list (Z * Z) :=
  let ar := (Z.of_nat (rows kernel) / 2)%Z in
  let ac := (Z.of_nat (cols kernel) / 2)%Z in
  List.concat (mapi_from 0%Z (fun i row =>
    List.concat (mapi_from 0%Z (fun j v =>
      if (v =? 0)%Z then [] else [((i - ar)%Z, (j - ac)%Z)]) row)) kernel).

(** [cv2.erode] and [cv2.dilate] with the default border: places outside of
    the image do not take part in the minimum, or the maximum. *)
Definition erode (src : Grid Z) (kernel : Grid Z) : Grid Z :=
  gtab (fun r c =>
    fold_right Z.min 255%Z
      (map (fun '(dr, dc) => gget 255%Z src (r + dr) (c + dc)) (offsets kernel))) src.

Definition dilate (src : Grid Z) (kernel : Grid Z) : Grid Z :=
  gtab (fun r c =>
    fold_right Z.max 0%Z
      (map (fun '(dr, dc) => gget 0%Z src (r + dr) (c + dc)) (offsets kernel))) src.

(** [cv2.morphologyEx] with [MORPH_OPEN] and [MORPH_CLOSE] *)
Definition morphologyEx_OPEN (src kernel : Grid Z) : Grid Z :=
  dilate (erode src kernel) kernel.

Definition morphologyEx_CLOSE (src kernel : Grid Z) : Grid Z :=
  erode (dilate src kernel) kernel.

Definition zeros_like (m : Grid Z) : Grid Z := gmap (fun _ => 0%Z) m.

(** [saturate_cast<uchar>] of a number: the nearest integer, kept in 0..255. *)
Definition saturate (x : Q) : Z :=
  Z.max 0 (Z.min 255 (Py.round_half_even x)).

(** [cv2.addWeighted(src1, alpha, src2, beta, gamma)] *)
Definition addWeighted (src1 : Image) (alpha : Q) (src2 : Image) (beta gamma : Q)
  : Image :=
  gmap2 (0, 0, 0)%Z (0, 0, 0)%Z
    (fun '(a0, a1, a2) '(b0, b1, b2) =>
       (saturate (inject_Z a0 * alpha + inject_Z b0 * beta + gamma),
        saturate (inject_Z a1 * alpha + inject_Z b1 * beta + gamma),
        saturate (inject_Z a2 * alpha + inject_Z b2 * beta + gamma)))
    src1 src2.

End cv2.

(** ** The rest of OpenCV, as an interface *)

(** The colour conversions, the filters and the contour functions are taken
    as they are, with the arguments the program gives them. *)
Class OpenCV : Type := {
  (** [cv2.cvtColor(image, cv2.COLOR_BGR2HSV)], [..2LAB], [..2GRAY] *)
  cvtColor_BGR2HSV : Image -> Image;
  cvtColor_BGR2LAB : Image -> Image;
  cvtColor_BGR2GRAY : Image -> Grid Z;
  (** [cv2.GaussianBlur(gray, (5, 5), 0)] *)
  GaussianBlur : Grid Z -> Grid Z;
  (** [cv2.adaptiveThreshold(blurred, 255, ADAPTIVE_THRESH_GAUSSIAN_C,
      THRESH_BINARY_INV, 11, 2)] *)
  adaptiveThreshold : Grid Z -> Grid Z;
  (** [cv2.Canny(gray, 50, 150)] *)
  Canny : Grid Z -> Grid Z;
  (** [cv2.Laplacian(gray, cv2.CV_64F)] *)
  Laplacian : Grid Z -> Grid Q;
  (** [cv2.Sobel(gray, cv2.CV_32F, dx, dy, ksize=3)] *)
  Sobel : Grid Z -> Z -> Z -> Grid Q;
  (** [cv2.filter2D(gray, cv2.CV_32F, kernel)] *)
  filter2D : Grid Z -> Grid Z -> Grid Q;
  (** the square root of [np.sqrt] and [np.std] *)
  sqrt : Q -> Q;
  (** a contour, and [cv2.findContours(mask, RETR_EXTERNAL, CHAIN_APPROX_SIMPLE)] *)
  Contour : Type;
  findContours : Grid Z -> list Contour;
  contourArea : Contour -> Q;
  (** [cv2.arcLength(contour, True)] *)
  arcLength : Contour -> Q;
  convexHull : Contour -> Contour;
  (** the places [cv2.drawContours(mask, [contour], -1, 255, -1)] paints *)
  filled : Contour -> Z -> Z -> bool
}.

(** [np.std] *)
Definition np_std {cv : OpenCV} (l : list Q) : Q := sqrt (np.var l).

(** [cv2.drawContours(mask, [contour], -1, 255, -1)] *)
Definition drawContours_filled {cv : OpenCV} (mask : Grid Z) (contour : Contour)
  : Grid Z :=
  gtab (fun r c => if filled contour r c then 255%Z else gget 0%Z mask r c) mask.

(** A mask [m1] lies under [m2]: one shape, and entry by entry at most. *)
Definition mask_le (m1 m2 : Grid Z) : Prop :=
  shape m1 = shape m2 /\
  forall r c, (gget 0 m1 r c <= gget 0 m2 r c)%Z.

(** A binary mask, as [cv2.inRange] and [cv2.threshold] give them. *)
Definition binary (m : Grid Z) : Prop :=
  forall r c, gget 0%Z m r c = 0%Z \/ gget 0%Z m r c = 255%Z.

(** An image of [uint8] channels. *)
Definition uint8 (p : Pixel) : Prop :=
  let '(x, y, z) := p in (0 <= x <= 255 /\ 0 <= y <= 255 /\ 0 <= z <= 255)%Z.

Definition uint8_image (img : Image) : Prop :=
  forall r c, uint8 (gget (0, 0, 0)%Z img r c).

(** What the program relies on. *)
Class OpenCVLaws (cv : OpenCV) : Prop := {
  (** a conversion keeps the shape and gives [uint8] values *)
  hsv_shape : forall img, shape (cvtColor_BGR2HSV img) = shape img;
  lab_shape : forall img, shape (cvtColor_BGR2LAB img) = shape img;
  gray_shape : forall img, shape (cvtColor_BGR2GRAY img) = shape img;
  hsv_uint8 : forall img, uint8_image (cvtColor_BGR2HSV img);
  lab_uint8 : forall img, uint8_image (cvtColor_BGR2LAB img);
  (** the filters keep the shape *)
  canny_shape : forall g, shape (Canny g) = shape g;
  (** a square root and an area are not negative *)
  sqrt_nonneg : forall x, 0 <= x -> 0 <= sqrt x;
  area_nonneg : forall k, 0 <= contourArea k
}.

(** [cv2.cvtColor] raises on an image without pixels. *)
Definition cvtColor {B : Type} (conversion : Image -> B) (image : Image) : option B :=
  if (gsize image =? 0)%nat then None else Some (conversion image).

(** ** advance_Fruit-Detection.py *)

Module Advance.

(** *** Local analysis *)

Section LocalAnalysis.

Context {cv : OpenCV}.

Definition brown_lower1 : Pixel := (8, 50, 20)%Z.
Definition brown_upper1 : Pixel := (20, 255, 200)%Z.

(** [((l_channel < 150) & (a_channel > 5) & (a_channel < 30) &
     (b_channel > 10) & (b_channel < 40)).astype(np.uint8) * 255] *)
Definition brown_mask_lab (lab_image : Image) : Grid Z :=
  gmap (fun '(l, a, b) =>
          if ((l <? 150) && (5 <? a) && (a <? 30) && (10 <? b) && (b <? 40))%Z
          then 255%Z else 0%Z) lab_image.

(** The mask [detect_brown_rot_enhanced] counts. *)
Definition brown_rot_mask (hsv_image lab_image : Image) : Grid Z :=
  let brown_mask_hsv := cv2.inRange hsv_image brown_lower1 brown_upper1 in
  let brown_mask_lab := brown_mask_lab lab_image in
  let combined_mask := cv2.bitwise_or brown_mask_hsv brown_mask_lab in
  let kernel := cv2.MORPH_ELLIPSE_5x5 in
  let combined_mask := cv2.morphologyEx_OPEN combined_mask kernel in
  let combined_mask := cv2.morphologyEx_CLOSE combined_mask kernel in
  combined_mask.

Definition detect_brown_rot_enhanced (hsv_image lab_image : Image) : option Q :=
  let combined_mask := brown_rot_mask hsv_image lab_image in
  let total_pixels := (Z.of_nat (rows hsv_image) * Z.of_nat (cols hsv_image))%Z in
  let brown_pixels := cv2.countNonZero combined_mask in
  ratio <- Py.div (inject_Z brown_pixels) (inject_Z total_pixels) ;;
  let brown_percentage := ratio * 100 in
  Some (Py.round brown_percentage 2).

Definition black_lower : Pixel := (0, 0, 0)%Z.
Definition black_upper : Pixel := (180, 255, 50)%Z.

(** The test of a dark pixel: within the HSV band and not above the grey
    threshold. *)
Definition dark_pixel (hsv : Pixel) (gray : Z) : bool :=
  cv2.in_range black_lower black_upper hsv && negb (gray >? 30)%Z.

(** The two dark masks joined, before the noise is removed. *)
Definition black_combined_mask (hsv_image : Image) (gray_image : Grid Z) : Grid Z :=
  let black_mask_hsv := cv2.inRange hsv_image black_lower black_upper in
  let black_mask_gray := cv2.threshold_BINARY_INV gray_image 30 255 in
  cv2.bitwise_and black_mask_hsv black_mask_gray.

(** The loop over the contours: those of an area above 20 are drawn, filled,
    on the mask. *)
Definition draw_significant (contours : list Contour) (significant_mask : Grid Z)
  : Grid Z :=
  fold_left
    (fun mask contour =>
       let area := contourArea contour in
       if Py.ltb 20 area then drawContours_filled mask contour else mask)
    contours significant_mask.

(** The mask [detect_black_spots_enhanced] counts. *)
Definition black_spots_mask (hsv_image : Image) (gray_image : Grid Z) : Grid Z :=
  let combined_mask := black_combined_mask hsv_image gray_image in
  let kernel := cv2.MORPH_ELLIPSE_3x3 in
  let combined_mask := cv2.morphologyEx_OPEN combined_mask kernel in
  let contours := findContours combined_mask in
  let significant_mask := cv2.zeros_like combined_mask in
  draw_significant contours significant_mask.

Definition detect_black_spots_enhanced (hsv_image : Image) (gray_image : Grid Z)
  : option Q :=
  let significant_mask := black_spots_mask hsv_image gray_image in
  let total_pixels := (Z.of_nat (rows hsv_image) * Z.of_nat (cols hsv_image))%Z in
  let black_pixels := cv2.countNonZero significant_mask in
  ratio <- Py.div (inject_Z black_pixels) (inject_Z total_pixels) ;;
  let black_percentage := ratio * 100 in
  Some (Py.round black_percentage 2).

Definition analyze_color_uniformity (image : Image) : Q :=
  let lab := cvtColor_BGR2LAB image in
  let l_std := np_std (np.of_plane (channel0 lab)) in
  let a_std := np_std (np.of_plane (channel1 lab)) in
  let b_std := np_std (np.of_plane (channel2 lab)) in
  let color_variance := l_std * (5 # 10) + a_std * (25 # 100) + b_std * (25 # 100) in
  Py.round color_variance 2.

Definition sharpen_kernel : Grid Z :=
  [ [-1; -1; -1];
    [-1;  8; -1];
    [-1; -1; -1] ]%Z.

Definition analyze_texture_quality (image : Image) : Q :=
  let gray := cvtColor_BGR2GRAY image in
  let laplacian := Laplacian gray in
  let texture_score1 := np.var (gflat laplacian) in
  let grad_x := Sobel gray 1 0 in
  let grad_y := Sobel gray 0 1 in
  let magnitude := gmap2 0 0 (fun x y => sqrt (x * x + y * y)) grad_x grad_y in
  let texture_score2 := np.mean (gflat magnitude) in
  let texture_response := filter2D gray sharpen_kernel in
  let texture_score3 := np.mean (gflat (np.abs texture_response)) in
  let texture_score :=
    texture_score1 * (3 # 10) + texture_score2 * (3 # 10) + texture_score3 * (4 # 10) in
  Py.round (Py.min 100 texture_score) 2.

(** [max(contours, key=cv2.contourArea)]: the first contour of the largest
    area. *)
Definition largest (c0 : Contour) (contours : list Contour) : Contour :=
  fold_left
    (fun best c => if Py.ltb (contourArea best) (contourArea c) then c else best)
    contours c0.

(** [analyze_fruit_shape] from the contours on. *)
Definition shape_of_contours (contours : list Contour) : option Q :=
  match contours with
  | [] => Some 50
  | c0 :: contours' =>
      let largest_contour := largest c0 contours' in
      let area := contourArea largest_contour in
      let perimeter := arcLength largest_contour in
      if Py.ltb 0 perimeter then
        circularity <- Py.div (4 * np.pi * area) (perimeter * perimeter) ;;
        let hull := convexHull largest_contour in
        let hull_area := contourArea hull in
        convexity <- (if Py.ltb 0 hull_area then Py.div area hull_area else Some 0) ;;
        let shape_score := (circularity * (6 # 10) + convexity * (4 # 10)) * 100 in
        Some (Py.min 100 (Py.round shape_score 2))
      else Some 50
  end.

(** The score of a contour of positive perimeter, before it is rounded. *)
Definition blend (area perimeter hull_area : Q) : Q :=
  let circularity := 4 * np.pi * area / (perimeter * perimeter) in
  let convexity := if Py.ltb 0 hull_area then area / hull_area else 0 in
  (circularity * (6 # 10) + convexity * (4 # 10)) * 100.

Definition analyze_fruit_shape (image : Image) : option Q :=
  gray <- cvtColor cvtColor_BGR2GRAY image ;;
  let blurred := GaussianBlur gray in
  let edges := adaptiveThreshold blurred in
  let contours := findContours edges in
  shape_of_contours contours.

Definition calculate_freshness_score_enhanced
  (hsv_image lab_image bgr_image : Image) : option Q :=
  let brightness := np.mean (np.of_plane (channel0 lab_image)) in
  let brightness_score := Py.min 100 ((brightness / 255) * 120) in
  let saturation := np.mean (np.of_plane (channel1 hsv_image)) in
  let saturation_score := Py.min 100 ((saturation / 255) * 110) in
  let b := channel0 bgr_image in
  let g := channel1 bgr_image in
  let r := channel2 bgr_image in
  let color_vibrancy :=
    np_std (np.of_plane r) + np_std (np.of_plane g) + np_std (np.of_plane b) in
  let vibrancy_score := Py.min 100 (color_vibrancy * (7 # 10)) in
  let gray := cvtColor_BGR2GRAY bgr_image in
  let edges := Canny gray in
  ratio <- Py.div (inject_Z (cv2.countNonZero edges))
             (inject_Z (Z.of_nat (gsize edges))) ;;
  let edge_density := ratio * 100 in
  let sharpness_score := Py.min 100 (edge_density * 10) in
  let freshness :=
    brightness_score * (25 # 100) + saturation_score * (35 # 100) +
    vibrancy_score * (25 # 100) + sharpness_score * (15 # 100) in
  Some (Py.round freshness 2).

Definition perform_local_analysis (image : Image) : option LocalMetrics :=
  let hsv := cvtColor_BGR2HSV image in
  let lab := cvtColor_BGR2LAB image in
  let gray := cvtColor_BGR2GRAY image in
  brown_rot_analysis <- detect_brown_rot_enhanced hsv lab ;;
  black_spot_analysis <- detect_black_spots_enhanced hsv gray ;;
  let color_variance := analyze_color_uniformity image in
  let texture_analysis := analyze_texture_quality image in
  contour_analysis <- analyze_fruit_shape image ;;
  freshness_score <- calculate_freshness_score_enhanced hsv lab image ;;
  Some {|
    brown_rot_percentage := brown_rot_analysis;
    black_spots_percentage := black_spot_analysis;
    color_variance := color_variance;
    texture_score := texture_analysis;
    shape_integrity := contour_analysis;
    freshness_score := freshness_score
  |}.

(** *** The overlay *)

Definition ORANGE : Pixel := (0, 165, 255)%Z.
Definition RED : Pixel := (0, 0, 255)%Z.

(** [overlay[mask > 0] = colour] *)
Definition paint (overlay : Image) (mask : Grid Z) (colour : Pixel) : Image :=
  gtab (fun r c =>
          if (gget 0 mask r c >? 0)%Z then colour
          else gget (0, 0, 0)%Z overlay r c) overlay.

Definition overlay_brown_mask (image : Image) : Grid Z :=
  cv2.inRange (cvtColor_BGR2HSV image) (8, 50, 20)%Z (20, 255, 200)%Z.

Definition overlay_black_mask (image : Image) : Grid Z :=
  cv2.inRange (cvtColor_BGR2HSV image) (0, 0, 0)%Z (180, 255, 30)%Z.

(** The image with the defects painted, before it is blended. *)
Definition highlighted (image : Image) (result : AnalysisResult) : Image :=
  let overlay := image in
  let local_analysis := local_analysis result in
  let brown_mask := overlay_brown_mask overlay in
  let black_mask := overlay_black_mask overlay in
  let overlay :=
    if Py.ltb 0 (brown_rot_percentage local_analysis)
    then paint overlay brown_mask ORANGE else overlay in
  let overlay :=
    if Py.ltb 0 (black_spots_percentage local_analysis)
    then paint overlay black_mask RED else overlay in
  overlay.

(** [create_enhanced_analysis_overlay] up to [result_image], the blended
    image on top of which the banner and the texts are then put. *)
Definition create_enhanced_analysis_overlay (image : Image) (result : AnalysisResult)
  : Image :=
  let overlay := highlighted image result in
  cv2.addWeighted image (6 # 10) overlay (4 # 10) 0.

End LocalAnalysis.

(** *** Result fusion *)

Definition condition_mapping : list (string * string) :=
  [ ("EXCELLENT", "🌟 EXCELLENT CONDITION - PREMIUM QUALITY");
    ("GOOD", "✅ GOOD CONDITION - FRESH & HEALTHY");
    ("FAIR", "⚠️ FAIR CONDITION - MONITOR CLOSELY");
    ("POOR", "⚠️ POOR CONDITION - USE IMMEDIATELY");
    ("BAD", "🚫 BAD CONDITION - DO NOT CONSUME");
    ("INSECT_DAMAGED", "🐛 INSECT DAMAGE - REMOVE FROM BATCH") ].

Definition color_mapping : list (string * string) :=
  [ ("EXCELLENT", "#00ff00"); ("GOOD", "#32cd32"); ("FAIR", "#ffa500");
    ("POOR", "#ff6347"); ("BAD", "#ff0000"); ("INSECT_DAMAGED", "#8b0000") ].

Definition CONFLICTING : string := "⚠️ CONFLICTING RESULTS - MANUAL CHECK NEEDED".

Definition default_tips : list (string * list string) :=
  [ ("EXCELLENT",
     [ "Continue current storage practices"; "Maintain stable temperature";
       "Handle gently to preserve quality"; "Keep away from ethylene producers";
       "Use within optimal timeframe" ]);
    ("GOOD",
     [ "Store in proper conditions"; "Check daily for changes";
       "Maintain good air circulation"; "Keep dry to prevent mold";
       "Separate from overripe fruits" ]);
    ("FAIR",
     [ "Improve storage conditions immediately"; "Increase monitoring frequency";
       "Consider refrigeration if applicable"; "Remove any damaged portions";
       "Use within 2-3 days maximum" ]);
    ("POOR",
     [ "Use immediately or process"; "Separate from healthy fruits";
       "Consider cooking or juicing"; "Check for spread to other fruits";
       "Improve storage for future" ]);
    ("BAD",
     [ "Dispose of properly in compost"; "Sanitize storage area";
       "Check all nearby fruits"; "Review storage practices";
       "Purchase fresher produce" ]);
    ("INSECT",
     [ "Inspect all fruits carefully"; "Use protective coverings";
       "Apply organic deterrents"; "Clean storage thoroughly";
       "Consider professional pest control" ]) ].

Definition default_actions : list (string * string) :=
  [ ("EXCELLENT", "Enjoy at your convenience - peak quality");
    ("GOOD", "Consume normally - good for several days");
    ("FAIR", "Use within 2-3 days - quality declining");
    ("POOR", "Use immediately - process if needed");
    ("BAD", "Discard immediately - health risk");
    ("INSECT", "Remove from batch - check others") ].

(** [for key in table: if key in condition: return table[key]] *)
Fixpoint first_key_in {A : Type} (t : list (string * A)) (condition : string)
  : option A :=
  match t with
  | [] => None
  | (key, v) :: t' =>
      if contains key condition then Some v else first_key_in t' condition
  end.

Definition get_default_prevention_tips (condition : string) : list string :=
  match first_key_in default_tips condition with
  | Some tips => tips
  | None =>
      match table_lookup default_tips "FAIR" with Some tips => tips | None => [] end
  end.

Definition get_default_action (condition : string) : string :=
  match first_key_in default_actions condition with
  | Some a => a
  | None => "Monitor condition closely"
  end.

(** The local badness score of the branch with a remote verdict:
    [brown * 2.5 + black * 3.5], two float products and their float sum. *)
Definition local_bad_score (l : LocalMetrics) : Q :=
  Py.fadd (Py.fmul (brown_rot_percentage l) (25 # 10))
          (Py.fmul (black_spots_percentage l) (35 # 10)).

(** The heavier score of the branch without one: [brown * 3 + black * 4]. *)
Definition local_bad_score_fallback (l : LocalMetrics) : Q :=
  Py.fadd (Py.fmul (brown_rot_percentage l) 3)
          (Py.fmul (black_spots_percentage l) 4).

(** In [max(c - 15, 50)] and [max(c - 10, 60)] the difference is written
    exact: where the maximum picks it the difference of the two doubles is a
    double, and below the floor the maximum is the floor either way. *)
Definition combine_analysis_results
  (gemini_result : option dict) (local_analysis : LocalMetrics)
  : option AnalysisResult :=
  match truthy gemini_result with
  | Some g =>
      let ai_condition := dict_get g "condition_category" (PStr "FAIR") in
      let ai_confidence := dict_get g "confidence_score" (PNum 50) in
      condition0 <- table_get condition_mapping ai_condition
                      "❓ UNCLEAR - CHECK MANUALLY" ;;
      color0 <- table_get color_mapping ai_condition "#808080" ;;
      let local_bad_score := local_bad_score local_analysis in
      c <- as_num ai_confidence ;;
      let '(confidence, condition, color) :=
        if Py.ltb 20 local_bad_score &&
           in_strs ai_condition ["EXCELLENT"; "GOOD"]
        then (Py.max (c - 15) 50, CONFLICTING, "#ff6347")
        else if Py.ltb local_bad_score 5 &&
                in_strs ai_condition ["BAD"; "POOR"]
        then (Py.max (c - 10) 60, condition0, color0)
        else (Py.min (Py.fadd c 5) 95, condition0, color0) in
      let description := dict_get g "detailed_analysis" (PStr "AI analysis completed") in
      Some {|
        condition := condition;
        confidence := Py.round confidence 1;
        description := description;
        color := color;
        local_analysis := local_analysis;
        gemini_analysis := gemini_result;
        fruit_type := dict_get g "fruit_type" (PStr "Unknown");
        primary_source := "AI Expert Analysis";
        prevention_tips :=
          dict_get g "prevention_tips" (PList (get_default_prevention_tips condition));
        action_required :=
          dict_get g "action_required" (PStr (get_default_action condition));
        storage_advice := dict_get g "storage_method" (PStr "Store in cool, dry place");
        shelf_life := dict_get g "shelf_life" (PStr "Check daily");
        health_risks := dict_get g "health_risks" (PList []);
        disease_identification :=
          dict_get g "disease_identification" (PStr "None detected")
      |}
  | None =>
      let local_bad_score := local_bad_score_fallback local_analysis in
      let freshness := freshness_score local_analysis in
      let '(condition, confidence, color, description) :=
        if Py.ltb 25 local_bad_score || Py.ltb freshness 30
        then ("🚫 BAD CONDITION - DO NOT CONSUME", 75, "#ff0000",
              "Significant decay and quality issues detected.")
        else if Py.ltb 15 local_bad_score || Py.ltb freshness 50
        then ("⚠️ POOR CONDITION - USE IMMEDIATELY", 70, "#ff6347",
              "Quality declining rapidly. Use within 24 hours.")
        else if Py.ltb 8 local_bad_score || Py.ltb freshness 70
        then ("⚠️ FAIR CONDITION - MONITOR CLOSELY", 65, "#ffa500",
              "Some quality concerns. Monitor daily.")
        else if Py.ltb 85 freshness && Py.ltb local_bad_score 3
        then ("🌟 EXCELLENT CONDITION - PREMIUM QUALITY", 80, "#00ff00",
              "Outstanding quality fruit.")
        else ("✅ GOOD CONDITION - FRESH & HEALTHY", 75, "#32cd32",
              "Good quality fruit suitable for consumption.") in
      Some {|
        condition := condition;
        confidence := Py.round confidence 1;
        description := PStr description;
        color := color;
        local_analysis := local_analysis;
        gemini_analysis := gemini_result;
        fruit_type := PStr "Unknown";
        primary_source := "Computer Vision Analysis";
        prevention_tips := PList (get_default_prevention_tips condition);
        action_required := PStr (get_default_action condition);
        storage_advice := PStr "Store appropriately";
        shelf_life := PStr "Monitor condition";
        health_risks := PList [];
        disease_identification := PStr "Visual inspection needed"
      |}
  end.

(** *** The keyword fallback classifier *)

(** The keyword sets, in the order the dictionary is written, which is the
    order [conditions.items()] yields them. *)
Definition conditions : list (string * list string) :=
  [ ("BAD", ["rotten"; "spoiled"; "moldy"; "decay"; "inedible"; "toxic"; "dangerous"]);
    ("INSECT_DAMAGED", ["insect"; "bug"; "worm"; "pest"; "holes"; "tunnels"; "larvae"]);
    ("POOR", ["poor"; "bad quality"; "deteriorating"; "declining"]);
    ("FAIR", ["fair"; "moderate"; "acceptable"; "okay"]);
    ("GOOD", ["good"; "fresh"; "healthy"; "nice"]);
    ("EXCELLENT", ["excellent"; "perfect"; "pristine"; "ideal"; "premium"]) ].

Definition actions : list (string * string) :=
  [ ("BAD", "discard immediately");
    ("INSECT_DAMAGED", "remove from batch");
    ("POOR", "use within 24 hours");
    ("FAIR", "use within 2-3 days");
    ("GOOD", "consume normally");
    ("EXCELLENT", "enjoy at your leisure") ].

Definition fallback_tips_default : list string :=
  [ "Store at proper temperature"; "Handle with care"; "Check regularly";
    "Maintain cleanliness"; "Use first-in-first-out rotation" ].

Definition fallback_tips : list (string * list string) :=
  [ ("BAD",
     [ "Store fruits in cool, dry place"; "Check daily for spoilage";
       "Remove bad fruits immediately"; "Improve air circulation";
       "Use within optimal timeframe" ]);
    ("INSECT_DAMAGED",
     [ "Use protective mesh covers"; "Apply organic pest deterrents";
       "Inspect fruits before storage"; "Keep storage area clean";
       "Use pheromone traps" ]);
    ("default", fallback_tips_default) ].

(** The loop over the keyword sets: it stops at the first set with a keyword
    in the text. *)
Fixpoint first_match (conds : list (string * list string)) (text_lower : string)
  : option string :=
  match conds with
  | [] => None
  | (cond, keywords) :: conds' =>
      if any_in keywords text_lower then Some cond
      else first_match conds' text_lower
  end.

Definition orelse {A : Type} (o : option A) (d : A) : A :=
  match o with Some a => a | None => d end.

Definition create_fallback_analysis {u : Unicode} (response_text : string) : dict :=
  let text_lower := str_lower response_text in
  let '(condition, confidence) :=
    match first_match conditions text_lower with
    | Some cond =>
        (cond, if existsb (String.eqb cond) ["FAIR"; "POOR"] then 70 else 85)
    | None => ("FAIR", 60)
    end in
  [ ("fruit_type", PStr "unknown fruit");
    ("condition_category", PStr condition);
    ("confidence_score", PNum confidence);
    ("detailed_analysis", PStr (String.append (take 200 response_text) "..."));
    ("defects_found", PList []);
    ("ripeness", PStr "unknown");
    ("freshness_score", PNum 50);
    ("recommendations",
     PStr (String.append "Based on visual analysis: "
             (orelse (table_lookup actions condition) "monitor closely")));
    ("key_observations", PList ["AI analysis incomplete - based on limited data"]);
    ("safety_assessment",
     PStr (if existsb (String.eqb condition) ["BAD"; "POOR"]
           then "questionable" else "likely safe"));
    ("prevention_tips",
     PList (orelse (table_lookup fallback_tips condition) fallback_tips_default));
    ("storage_advice", PStr "Store properly based on fruit type");
    ("action_required",
     PStr (orelse (table_lookup actions condition) "check manually")) ].


(** What the three-way adjustment of the branch with a remote verdict
    computes from the badness score, the remote category and the remote
    confidence. *)
Definition adjusted_confidence (score : Q) (cat : string) (c : Q) : Q :=
  if Py.ltb 20 score && in_strs (PStr cat) ["EXCELLENT"; "GOOD"]
  then Py.max (c - 15) 50
  else if Py.ltb score 5 && in_strs (PStr cat) ["BAD"; "POOR"]
  then Py.max (c - 10) 60
  else Py.min (Py.fadd c 5) 95.

Definition adjusted_condition (score : Q) (cat : string) : string :=
  if Py.ltb 20 score && in_strs (PStr cat) ["EXCELLENT"; "GOOD"]
  then CONFLICTING
  else match table_lookup condition_mapping cat with
       | Some s => s
       | None => "❓ UNCLEAR - CHECK MANUALLY"
       end.

(** *** What is shown of a result *)

(** The fill colour and the text colour of the banner that
    [create_enhanced_analysis_overlay] puts on top of the blended image. *)
Definition banner_colors (condition : string) : Pixel * Pixel :=
  if contains "BAD" condition || contains "DISCARD" condition
  then ((0, 0, 255)%Z, (255, 255, 255)%Z)
  else if contains "POOR" condition
  then ((0, 100, 255)%Z, (255, 255, 255)%Z)
  else if contains "FAIR" condition
  then ((0, 165, 255)%Z, (0, 0, 0)%Z)
  else if contains "GOOD" condition
  then ((0, 255, 0)%Z, (0, 0, 0)%Z)
  else if contains "EXCELLENT" condition
  then ((0, 255, 127)%Z, (0, 0, 0)%Z)
  else ((128, 128, 128)%Z, (255, 255, 255)%Z).

(** The notification at the end of [display_analysis_results]: its text and
    its kind, or none. *)
Definition notification (condition : string) : option (string * string) :=
  if contains "EXCELLENT" condition
  then Some ("🎉 Excellent quality fruit detected!", "success")
  else if contains "GOOD" condition
  then Some ("✅ Good quality fruit!", "success")
  else if contains "FAIR" condition
  then Some ("⚠️ Fair quality - monitor closely", "warning")
  else if contains "POOR" condition
  then Some ("⚠️ Poor quality - use immediately", "warning")
  else if contains "BAD" condition || contains "DISCARD" condition
  then Some ("🚨 Bad condition - DO NOT CONSUME!", "error")
  else if contains "INSECT" condition
  then Some ("🐛 Insect damage detected - remove from batch", "error")
  else None.

(** The truth value of a value. *)
Definition truth (v : pyval) : bool :=
  match v with
  | PNone => false
  | PStr s => negb (String.eqb s EmptyString)
  | PNum q => negb (Qeq_bool q 0)
  | PList l => match l with [] => false | _ => true end
  end.

(** [for defect in defects]: the items of a list, the characters of a
    string (of ASCII letters); a number cannot be iterated. *)
Definition items (v : pyval) : option (list string) :=
  match v with
  | PList l => Some l
  | PStr s => Some (map (fun c => String c EmptyString) (list_ascii_of_string s))
  | _ => None
  end.

(** What [create_defects_section] shows: the labels of the listed defects
    and the rows of the severity indicators (name, value, level). *)
Record DefectsSection : Type := mkDefectsSection {
  defect_labels : list string;
  severity_data : list (string * Q * string)
}.

(** [create_defects_section]: the section shown, if any.  The stored
    [gemini_analysis] is read with [result.get('gemini_analysis', {})], which
    gives the stored [None] of a result without a remote verdict, and
    [None.get] raises. *)
Definition create_defects_section (result : AnalysisResult)
  : option (option DefectsSection) :=
  gemini_data <- gemini_analysis result ;;
  let defects := dict_get gemini_data "defects_found" (PList []) in
  if truth defects ||
     Py.ltb 5 (brown_rot_percentage (local_analysis result)) ||
     Py.ltb 2 (black_spots_percentage (local_analysis result))
  then
    labels <-
      (if truth defects
       then ds <- items defects ;; Some (map (String.append "⚠️ ") ds)
       else Some []) ;;
    let local := local_analysis result in
    let severity_data :=
      [ ("Brown/Rot Areas", brown_rot_percentage local,
         if Py.ltb (brown_rot_percentage local) 5 then "Low"
         else if Py.ltb (brown_rot_percentage local) 15 then "Medium" else "High");
        ("Black Spots", black_spots_percentage local,
         if Py.ltb (black_spots_percentage local) 2 then "Low"
         else if Py.ltb (black_spots_percentage local) 10 then "Medium" else "High") ] in
    Some (Some {| defect_labels := labels; severity_data := severity_data |})
  else Some None.

End Advance.
(** ** goodUI.py *)

Module GoodUI.

Record AnalysisResult : Type := mkAnalysisResult {
  condition : string;
  confidence : Q;
  description : pyval;
  color : string;
  local_analysis : LocalMetrics;
  gemini_analysis : option dict;
  fruit_type : pyval;
  primary_source : string;
  prevention_tips : pyval;
  action_required : pyval;
  storage_advice : pyval
}.

Definition condition_mapping : list (string * string) :=
  [ ("EXCELLENT", "✅ EXCELLENT CONDITION");
    ("GOOD", "✅ GOOD CONDITION");
    ("FAIR", "⚠️ FAIR CONDITION");
    ("POOR", "⚠️ POOR CONDITION");
    ("BAD", "🚫 BAD CONDITION - DISCARD");
    ("INSECT_DAMAGED", "🐛 INSECT DAMAGE - REMOVE") ].

Definition color_mapping : list (string * string) :=
  [ ("EXCELLENT", "#00ff00"); ("GOOD", "#90ee90"); ("FAIR", "#ffa500");
    ("POOR", "#ff6347"); ("BAD", "#ff0000"); ("INSECT_DAMAGED", "#8b0000") ].

(** [brown * 2 + black * 3] and [brown * 3 + black * 4], in floats. *)
Definition local_bad_score (l : LocalMetrics) : Q :=
  Py.fadd (Py.fmul (brown_rot_percentage l) 2) (Py.fmul (black_spots_percentage l) 3).

Definition local_bad_score_fallback (l : LocalMetrics) : Q :=
  Py.fadd (Py.fmul (brown_rot_percentage l) 3) (Py.fmul (black_spots_percentage l) 4).

(** [if len(description) > 200: description = description[:200] + "..."];
    a number has no [len], and a long list cannot be joined to a string. *)
Definition shorten (description : pyval) : option pyval :=
  match description with
  | PStr s =>
      Some (PStr (if (200 <? len s)%nat
                  then String.append (take 200 s) "..." else s))
  | PList l => if (200 <? Datatypes.length l)%nat then None else Some description
  | _ => None
  end.

Definition make_final_decision_gemini_priority
  (gemini_result : option dict) (local_analysis : LocalMetrics)
  : option AnalysisResult :=
  match truthy gemini_result with
  | Some g =>
      let ai_condition := dict_get g "condition_category" (PStr "FAIR") in
      let ai_confidence := dict_get g "confidence_score" (PNum 50) in
      condition <- table_get condition_mapping ai_condition "❓ UNCLEAR" ;;
      color <- table_get color_mapping ai_condition "#808080" ;;
      let local_bad_score := local_bad_score local_analysis in
      confidence <-
        (if Py.ltb 15 local_bad_score && in_strs ai_condition ["EXCELLENT"; "GOOD"]
         then c <- as_num ai_confidence ;; Some (Py.max (c - 10) 60)
         else as_num ai_confidence) ;;
      description <-
        shorten (dict_get g "detailed_analysis" (PStr "AI analysis completed")) ;;
      Some {|
        condition := condition;
        confidence := Py.round confidence 1;
        description := description;
        color := color;
        local_analysis := local_analysis;
        gemini_analysis := gemini_result;
        fruit_type := dict_get g "fruit_type" (PStr "unknown");
        primary_source := "Advanced AI";
        prevention_tips := dict_get g "prevention_tips" (PList []);
        action_required := dict_get g "action_required" (PStr "unknown");
        storage_advice := dict_get g "storage_advice" (PStr EmptyString)
      |}
  | None =>
      let local_bad_score := local_bad_score_fallback local_analysis in
      let '(condition, confidence, color, description) :=
        if Py.ltb 20 local_bad_score
        then ("🚫 BAD CONDITION - DISCARD", 75, "#ff0000",
              "Local analysis detected significant defects. This fruit should be discarded.")
        else if Py.ltb 10 local_bad_score
        then ("⚠️ FAIR CONDITION", 65, "#ffa500",
              "Local analysis shows some quality issues. Use soon.")
        else ("✅ GOOD CONDITION", freshness_score local_analysis, "#90ee90",
              "Local analysis shows good quality") in
      Some {|
        condition := condition;
        confidence := Py.round confidence 1;
        description := PStr description;
        color := color;
        local_analysis := local_analysis;
        gemini_analysis := gemini_result;
        fruit_type := PStr "unknown";
        primary_source := "Local Analysis";
        prevention_tips := PList [];
        action_required := PStr "check manually";
        storage_advice := PStr EmptyString
      |}
  end.

Definition combine_analysis_results := make_final_decision_gemini_priority.

(** *** The keyword fallback classifier *)

Definition create_fallback_analysis {u : Unicode} (response_text : string) : dict :=
  let text_lower := str_lower response_text in
  let '(condition, confidence, action, prevention) :=
    if any_in ["rotten"; "spoiled"; "moldy"; "severely damaged"; "bad condition";
               "unsafe"; "decay"] text_lower
    then ("BAD", 85, "discard",
          ["Store in cool, dry place"; "Check fruits regularly";
           "Remove damaged fruits immediately"])
    else if any_in ["insect"; "holes"; "bite marks"; "pest damage"; "chewed";
                    "puncture"] text_lower
    then ("INSECT_DAMAGED", 80, "remove from batch",
          ["Use mesh covers"; "Regular inspection"; "Natural pest repellents"])
    else if any_in ["excellent"; "perfect"; "pristine"; "optimal"] text_lower
    then ("EXCELLENT", 90, "consume at leisure",
          ["Continue current storage"; "Maintain temperature"])
    else if any_in ["good condition"; "fresh"; "healthy"; "quality"] text_lower
    then ("GOOD", 85, "consume normally",
          ["Monitor regularly"; "Proper ventilation"])
    else if any_in ["fair"; "moderate"; "declining"; "some defects"] text_lower
    then ("FAIR", 70, "use within days",
          ["Improve storage conditions"; "Use sooner"])
    else ("POOR", 60, "consume immediately",
          ["Better selection at purchase"; "Improved storage"]) in
  [ ("fruit_type", PStr "unknown");
    ("condition_category", PStr condition);
    ("confidence_score", PNum confidence);
    ("detailed_analysis", PStr response_text);
    ("defects_found", PList []);
    ("ripeness", PStr "unknown");
    ("freshness_score", PNum confidence);
    ("recommendations", PStr "Based on AI analysis");
    ("key_observations", PList [String.append (take 100 response_text) "..."]);
    ("safety_assessment", PStr "questionable");
    ("prevention_tips", PList prevention);
    ("storage_advice", PStr "Store properly");
    ("action_required", PStr action) ].

(** *** Local analysis *)

Section LocalAnalysis.

Context {cv : OpenCV}.

(** The mask [detect_brown_rot] counts: two HSV bands, joined. *)
Definition brown_mask (hsv_image : Image) : Grid Z :=
  let brown_mask1 := cv2.inRange hsv_image (8, 50, 20)%Z (20, 255, 200)%Z in
  let brown_mask2 := cv2.inRange hsv_image (10, 30, 10)%Z (25, 255, 100)%Z in
  cv2.bitwise_or brown_mask1 brown_mask2.

Definition detect_brown_rot (hsv_image : Image) : option Q :=
  let combined_brown := brown_mask hsv_image in
  let total_pixels := (Z.of_nat (rows hsv_image) * Z.of_nat (cols hsv_image))%Z in
  let brown_pixels := cv2.countNonZero combined_brown in
  ratio <- Py.div (inject_Z brown_pixels) (inject_Z total_pixels) ;;
  let brown_percentage := ratio * 100 in
  Some (Py.round brown_percentage 2).

(** [np.ones((3,3), np.uint8)] *)
Definition ones_3x3 : Grid Z :=
  [ [1; 1; 1];
    [1; 1; 1];
    [1; 1; 1] ]%Z.

(** The mask [detect_black_spots] counts. *)
Definition black_mask (hsv_image : Image) : Grid Z :=
  let black_mask := cv2.inRange hsv_image (0, 0, 0)%Z (180, 255, 30)%Z in
  let kernel := ones_3x3 in
  cv2.morphologyEx_CLOSE black_mask kernel.

Definition detect_black_spots (hsv_image : Image) : option Q :=
  let black_mask := black_mask hsv_image in
  let total_pixels := (Z.of_nat (rows hsv_image) * Z.of_nat (cols hsv_image))%Z in
  let black_pixels := cv2.countNonZero black_mask in
  ratio <- Py.div (inject_Z black_pixels) (inject_Z total_pixels) ;;
  let black_percentage := ratio * 100 in
  Some (Py.round black_percentage 2).

Definition analyze_color_uniformity (image : Image) : Q :=
  let lab := cvtColor_BGR2LAB image in
  let l_std := np_std (np.of_plane (channel0 lab)) in
  let a_std := np_std (np.of_plane (channel1 lab)) in
  let b_std := np_std (np.of_plane (channel2 lab)) in
  let color_variance := (l_std + a_std + b_std) / 3 in
  Py.round color_variance 2.

Definition analyze_texture_quality (image : Image) : Q :=
  let gray := cvtColor_BGR2GRAY image in
  let kernel := Advance.sharpen_kernel in
  let texture_response := filter2D gray kernel in
  let texture_score := np.mean (gflat (np.abs texture_response)) in
  Py.round texture_score 2.

(** [analyze_fruit_shape] from the contours on: the circularity alone. *)
Definition shape_of_contours (contours : list Contour) : option Q :=
  match contours with
  | [] => Some 50
  | c0 :: contours' =>
      let largest_contour := Advance.largest c0 contours' in
      let area := contourArea largest_contour in
      let perimeter := arcLength largest_contour in
      if Py.ltb 0 perimeter then
        circularity <- Py.div (4 * np.pi * area) (perimeter * perimeter) ;;
        Some (Py.min 100 (Py.round (circularity * 100) 2))
      else Some 50
  end.

Definition analyze_fruit_shape (image : Image) : option Q :=
  gray <- cvtColor cvtColor_BGR2GRAY image ;;
  let blurred := GaussianBlur gray in
  let edges := Canny blurred in
  let contours := findContours edges in
  shape_of_contours contours.

Definition calculate_freshness_score (hsv_image lab_image : Image) : Q :=
  let brightness := np.mean (np.of_plane (channel0 lab_image)) in
  let saturation := np.mean (np.of_plane (channel1 hsv_image)) in
  let brightness_score := Py.min 100 ((brightness / 255) * 100) in
  let saturation_score := Py.min 100 ((saturation / 255) * 100) in
  let freshness := (brightness_score + saturation_score) / 2 in
  Py.round freshness 2.

Definition perform_local_analysis (image : Image) : option LocalMetrics :=
  let hsv := cvtColor_BGR2HSV image in
  let lab := cvtColor_BGR2LAB image in
  brown_rot_analysis <- detect_brown_rot hsv ;;
  black_spot_analysis <- detect_black_spots hsv ;;
  let color_variance := analyze_color_uniformity image in
  let texture_analysis := analyze_texture_quality image in
  contour_analysis <- analyze_fruit_shape image ;;
  let freshness_score := calculate_freshness_score hsv lab in
  Some {|
    brown_rot_percentage := brown_rot_analysis;
    black_spots_percentage := black_spot_analysis;
    color_variance := color_variance;
    texture_score := texture_analysis;
    shape_integrity := contour_analysis;
    freshness_score := freshness_score
  |}.

(** *** The overlay *)

Definition overlay_brown_mask (image : Image) : Grid Z :=
  cv2.inRange (cvtColor_BGR2HSV image) (8, 50, 20)%Z (20, 255, 200)%Z.

Definition overlay_black_mask (image : Image) : Grid Z :=
  cv2.inRange (cvtColor_BGR2HSV image) (0, 0, 0)%Z (180, 255, 30)%Z.

(** The image with the defects painted, before it is blended: both colours
    are applied whatever was measured, the red one last. *)
Definition highlighted (image : Image) : Image :=
  let overlay := image in
  let overlay := Advance.paint overlay (overlay_brown_mask image) Advance.ORANGE in
  let overlay := Advance.paint overlay (overlay_black_mask image) Advance.RED in
  overlay.

(** [create_enhanced_analysis_overlay] up to the blended image, on which
    the texts are then written. *)
Definition create_enhanced_analysis_overlay (image : Image) : Image :=
  let overlay := highlighted image in
  cv2.addWeighted image (6 # 10) overlay (4 # 10) 0.

End LocalAnalysis.

End GoodUI.
(** The verdicts and measurements used as examples. *)
Definition verdict (cat : string) (c : Q) : dict :=
  [ ("fruit_type", PStr "apple");
    ("condition_category", PStr cat);
    ("confidence_score", PNum c) ].

Definition measured (brown black fresh : Q) : LocalMetrics :=
  mkLocalMetrics brown black 12 40 80 fresh.

(** A result of the analysis that holds the measurements [l]. *)
Definition report (l : LocalMetrics) : AnalysisResult := {|
  condition := "✅ GOOD CONDITION - FRESH & HEALTHY";
  confidence := 75;
  description := PStr "Good quality fruit suitable for consumption.";
  color := "#32cd32";
  local_analysis := l;
  gemini_analysis := None;
  fruit_type := PStr "Unknown";
  primary_source := "Computer Vision Analysis";
  prevention_tips := PList [];
  action_required := PStr "Consume normally - good for several days";
  storage_advice := PStr "Store appropriately";
  shelf_life := PStr "Monitor condition";
  health_risks := PList [];
  disease_identification := PStr "Visual inspection needed"
|}.


(** ** A small stand-in for the library

    Used to run the program on examples.  The grey and HSV conversions
    follow the 8-bit integer arithmetic of OpenCV.  The contour functions
    describe the foreground of a mask by the rectangle around it, given by
    its four corners: they are exact on a mask whose foreground is one
    filled rectangle.  The Lab conversion has the lightness of the grey
    value and the neutral chroma 128 (on the colours of the examples the
    chroma of OpenCV is 128 or above, and the Lab band of the brown/rot
    detector, with a chroma below 30, is empty either way); the blur is the
    identity and the edge detectors threshold the Sobel gradient. *)

Module Sample.

Definition u8 (z : Z) : Z := Z.max 0 (Z.min 255 z).

(** [COLOR_BGR2GRAY]: the weights 0.114, 0.587, 0.299 on 14 bits. *)
Definition gray_px (p : Pixel) : Z :=
  let '(b, g, r) := p in
  u8 (Z.shiftr (b * 1868 + g * 9617 + r * 4899 + 8192) 14).

(** Division rounded to the nearest integer, ties to even, as [cvRound]. *)
Definition div_round (a b : Z) : Z := Py.round_half_even (inject_Z a / inject_Z b).

(** [COLOR_BGR2HSV] on 8 bits: hue in 0..180. *)
Definition hsv_px (p : Pixel) : Pixel :=
  let '(b, g, r) := p in
  let v := Z.max r (Z.max g b) in
  let vmin := Z.min r (Z.min g b) in
  let diff := (v - vmin)%Z in
  let sdiv := if (v =? 0)%Z then 0%Z else div_round (255 * 4096) v in
  let hdiv := if (diff =? 0)%Z then 0%Z else div_round (180 * 4096) (6 * diff) in
  let s := Z.shiftr (diff * sdiv + 2048) 12 in
  let h0 :=
    if (v =? r)%Z then (g - b)%Z
    else if (v =? g)%Z then (b - r + 2 * diff)%Z
    else (r - g + 4 * diff)%Z in
  let h1 := Z.shiftr (h0 * hdiv + 2048) 12 in
  let h := if (h1 <? 0)%Z then (h1 + 180)%Z else h1 in
  (u8 h, u8 s, u8 v).

(** A neutral Lab: the lightness of the grey value, no chroma. *)
Definition lab_px (p : Pixel) : Pixel := (gray_px p, 128%Z, 128%Z).

(** A rational square root, exact on the squares of integers. *)
Definition root (x : Q) : Q :=
  Z.sqrt (Qnum x * 100000000 / Z.pos (Qden x)) # 10000.

(** Correlation with a 3x3 kernel, the border reflected. *)
Definition reflect (n i : Z) : Z :=
  if (i <? 0)%Z then Z.min (n - 1) (- i)
  else if (n <=? i)%Z then Z.max 0 (2 * n - 2 - i) else i.

Definition correlate (kernel : Grid Z) (src : Grid Z) : Grid Q :=
  gtab (fun r c =>
    inject_Z (fold_right Z.add 0%Z
      (map (fun '(i, j) =>
              gget 0 kernel (i + 1) (j + 1) *
              gget 0 src (reflect (Z.of_nat (rows src)) (r + i))
                         (reflect (Z.of_nat (cols src)) (c + j)))%Z
           [(-1, -1); (-1, 0); (-1, 1); (0, -1); (0, 0); (0, 1);
            (1, -1); (1, 0); (1, 1)]%Z))) src.

Definition laplace_kernel : Grid Z := [[0; 1; 0]; [1; -4; 1]; [0; 1; 0]]%Z.
Definition sobel_x : Grid Z := [[-1; 0; 1]; [-2; 0; 2]; [-1; 0; 1]]%Z.
Definition sobel_y : Grid Z := [[-1; -2; -1]; [0; 0; 0]; [1; 2; 1]]%Z.

(** Edges where the horizontal or vertical gradient is strong. *)
Definition edges_above (t : Q) (src : Grid Z) : Grid Z :=
  gmap2 0 0 (fun x y => if Py.ltb t (Qabs x + Qabs y) then 255%Z else 0%Z)
    (correlate sobel_x src) (correlate sobel_y src).

(** The places of the foreground, and the rectangle around them. *)
Definition foreground (m : Grid Z) : list (Z * Z) :=
  filter (fun '(r, c) => negb (gget 0 m r c =? 0)%Z)
    (gflat (gtab (fun r c => (r, c)) m)).

Definition min_of (z : Z) (l : list Z) : Z := fold_right Z.min z l.
Definition max_of (z : Z) (l : list Z) : Z := fold_right Z.max z l.

(** A rectangle, given by its corner points [(x, y)], clockwise. *)
Definition rectangle (r0 r1 c0 c1 : Z) : list (Z * Z) :=
  [ (c0, r0); (c1, r0); (c1, r1); (c0, r1) ].

Definition contours (m : Grid Z) : list (list (Z * Z)) :=
  match foreground m with
  | [] => []
  | (r, c) :: ps =>
      [ rectangle (min_of r (map fst ps)) (max_of r (map fst ps))
                  (min_of c (map snd ps)) (max_of c (map snd ps)) ]
  end.

(** Twice the signed area, by the sum of the cross products of the sides. *)
Fixpoint cross_sum (first : Z * Z) (poly : list (Z * Z)) : Z :=
  match poly with
  | [] => 0
  | (x, y) :: rest =>
      let '(x', y') := match rest with [] => first | p :: _ => p end in
      (x * y' - x' * y + cross_sum first rest)%Z
  end.

Definition area (poly : list (Z * Z)) : Q :=
  match poly with
  | [] => 0
  | p :: _ => Z.abs (cross_sum p poly) # 2
  end.

Fixpoint side_sum (first : Z * Z) (poly : list (Z * Z)) : Q :=
  match poly with
  | [] => 0
  | (x, y) :: rest =>
      let '(x', y') := match rest with [] => first | p :: _ => p end in
      root (inject_Z ((x' - x) * (x' - x) + (y' - y) * (y' - y))) + side_sum first rest
  end.

Definition perimeter (poly : list (Z * Z)) : Q :=
  match poly with
  | [] => 0
  | p :: _ => side_sum p poly
  end.

(** The places within the rectangle around the points. *)
Definition inside (poly : list (Z * Z)) (r c : Z) : bool :=
  match poly with
  | [] => false
  | (x, y) :: rest =>
      ((min_of y (map snd rest) <=? r) && (r <=? max_of y (map snd rest)) &&
       (min_of x (map fst rest) <=? c) && (c <=? max_of x (map fst rest)))%Z
  end.

#[export] Instance cv : OpenCV := {|
  cvtColor_BGR2HSV := gmap hsv_px;
  cvtColor_BGR2LAB := gmap lab_px;
  cvtColor_BGR2GRAY := gmap gray_px;
  GaussianBlur := fun g => g;
  adaptiveThreshold := fun g => edges_above 40 g;
  Canny := fun g => edges_above 150 g;
  Laplacian := correlate laplace_kernel;
  Sobel := fun g dx dy => correlate (if (dx =? 1)%Z then sobel_x else sobel_y) g;
  filter2D := fun g kernel => correlate kernel g;
  sqrt := root;
  Contour := list (Z * Z);
  findContours := contours;
  contourArea := area;
  arcLength := perimeter;
  convexHull := fun poly => poly;
  filled := inside
|}.

(** The lower-case form on ASCII texts. *)
#[export] Instance unicode : Unicode := {| str_lower := lower |}.

(** A uniform image of [h] rows and [w] columns. *)
Definition uniform (h w : nat) (p : Pixel) : Image := repeat (repeat p w) h.

(** The image [base] with the rectangle of rows [r0..r1], columns [c0..c1]
    set to [p]. *)
Definition with_block (base : Image) (r0 r1 c0 c1 : Z) (p : Pixel) : Image :=
  gtab (fun r c =>
          if ((r0 <=? r) && (r <=? r1) && (c0 <=? c) && (c <=? c1))%Z then p
          else gget (0, 0, 0)%Z base r c) base.

Definition WHITE : Pixel := (255, 255, 255)%Z.
Definition BROWN : Pixel := (40, 80, 160)%Z.
Definition DARK : Pixel := (20, 20, 20)%Z.
Definition DIM : Pixel := (40, 20, 20)%Z.

(** A white image of 13 x 13 with a brown square of 5 x 5 in the middle. *)
Definition brown_square : Image := with_block (uniform 13 13 WHITE) 4 8 4 8 BROWN.

(** A white image of 8 x 10 whose first [n] columns are dark. *)
Definition dark_band (n : Z) : Image :=
  with_block (uniform 8 10 WHITE) 0 7 0 (n - 1) DARK.

(** The same with dim columns: a value of 40 and a grey level of 22. *)
Definition dim_band (n : Z) : Image :=
  with_block (uniform 8 10 WHITE) 0 7 0 (n - 1) DIM.

End Sample.

(** ** Labels and ranks used to state properties of the fusion *)

(** The display conditions the fusion can answer with a remote verdict. *)
Definition UNCLEAR : string := "❓ UNCLEAR - CHECK MANUALLY".

Definition remote_conditions : list string :=
  map snd Advance.condition_mapping ++ [Advance.CONFLICTING; UNCLEAR].

(** The bands of the ladder without a remote verdict: display condition,
    confidence, and the key of the default advice tables the condition
    selects. *)
Definition ladder_bands : list (string * Q * string) :=
  [ ("🚫 BAD CONDITION - DO NOT CONSUME", 75, "BAD");
    ("⚠️ POOR CONDITION - USE IMMEDIATELY", 70, "POOR");
    ("⚠️ FAIR CONDITION - MONITOR CLOSELY", 65, "FAIR");
    ("🌟 EXCELLENT CONDITION - PREMIUM QUALITY", 80, "EXCELLENT");
    ("✅ GOOD CONDITION - FRESH & HEALTHY", 75, "GOOD") ].

(** The rank of a display condition, from BAD (0) to EXCELLENT (4). *)
Definition band_rank (condition : string) : nat :=
  if contains "BAD" condition then 0
  else if contains "POOR" condition then 1
  else if contains "FAIR" condition then 2
  else if contains "GOOD" condition then 3
  else if contains "EXCELLENT" condition then 4
  else 2.

(** The Lab test of the brown/rot detector, on one pixel. *)
Definition lab_brown (p : Pixel) : bool :=
  let '(l, a, b) := p in
  ((l <? 150) && (5 <? a) && (a <? 30) && (10 <? b) && (b <? 40))%Z.

(** HSV and Lab views used as examples: a plain view of 7 x 7, the same with
    a block of pixels within the HSV band of brown, and a Lab view off the
    Lab band. *)
Definition hsv_plain : Image := Sample.uniform 7 7 (0, 0, 255)%Z.

Definition hsv_brown_block : Image :=
  Sample.with_block hsv_plain 0 5 0 6 (12, 120, 120)%Z.

Definition lab_plain : Image := Sample.uniform 7 7 (255, 128, 128)%Z.

(** The keyword sets of the older classifier, in the order of its chain of
    tests; a text that matches none of them is POOR. *)
Definition goodui_keyword_chain : list (string * list string) :=
  [ ("BAD", ["rotten"; "spoiled"; "moldy"; "severely damaged"; "bad condition";
             "unsafe"; "decay"]);
    ("INSECT_DAMAGED", ["insect"; "holes"; "bite marks"; "pest damage"; "chewed";
                        "puncture"]);
    ("EXCELLENT", ["excellent"; "perfect"; "pristine"; "optimal"]);
    ("GOOD", ["good condition"; "fresh"; "healthy"; "quality"]);
    ("FAIR", ["fair"; "moderate"; "declining"; "some defects"]) ].

(** ** Facts on Python arithmetic *)

Section PyFacts.

Lemma ltb_true (a b : Q) : a < b -> Py.ltb a b = true.
Proof.
  intros H. unfold Py.ltb. destruct (Qcompare_spec a b); [lra | reflexivity | lra].
Qed.

Lemma ltb_false (a b : Q) : b <= a -> Py.ltb a b = false.
Proof.
  intros H. unfold Py.ltb. destruct (Qcompare_spec a b); [reflexivity | lra | reflexivity].
Qed.

Lemma ltb_iff (a b : Q) : Py.ltb a b = true <-> a < b.
Proof.
  split; [| apply ltb_true].
  unfold Py.ltb. destruct (Qcompare_spec a b); intros; [discriminate | lra | discriminate].
Qed.

Lemma max_spec (a b : Q) :
  a <= Py.max a b /\ b <= Py.max a b /\ (Py.max a b == a \/ Py.max a b == b).
Proof.
  unfold Py.max. destruct (Qcompare_spec a b) as [E | L | G].
  - rewrite E. repeat split; try lra; left; reflexivity.
  - repeat split; try lra; right; reflexivity.
  - repeat split; try lra; left; reflexivity.
Qed.

Lemma min_spec (a b : Q) :
  Py.min a b <= a /\ Py.min a b <= b /\ (Py.min a b == a \/ Py.min a b == b).
Proof.
  unfold Py.min. destruct (Qcompare_spec b a) as [E | L | G].
  - rewrite E. repeat split; try lra; left; reflexivity.
  - repeat split; try lra; right; reflexivity.
  - repeat split; try lra; left; reflexivity.
Qed.

Lemma max_l (a b : Q) : b <= a -> Py.max a b == a.
Proof.
  intros H. unfold Py.max. destruct (Qcompare_spec a b); first [reflexivity | lra].
Qed.

Lemma max_r (a b : Q) : a <= b -> Py.max a b == b.
Proof.
  intros H. unfold Py.max. destruct (Qcompare_spec a b); first [reflexivity | lra].
Qed.

Lemma min_l (a b : Q) : a <= b -> Py.min a b == a.
Proof.
  intros H. unfold Py.min. destruct (Qcompare_spec b a); first [reflexivity | lra].
Qed.

Lemma min_r (a b : Q) : b <= a -> Py.min a b == b.
Proof.
  intros H. unfold Py.min. destruct (Qcompare_spec b a); first [reflexivity | lra].
Qed.

Lemma floor_bounds (x : Q) :
  inject_Z (Qfloor x) <= x /\ x < inject_Z (Qfloor x) + 1.
Proof.
  split; [apply Qfloor_le |].
  pose proof (Qlt_floor x) as H.
  rewrite inject_Z_plus in H. exact H.
Qed.

(** The rounded integer is within one half of the argument. *)
Lemma round_half_even_near (x : Q) :
  x - (1 # 2) <= inject_Z (Py.round_half_even x) <= x + (1 # 2).
Proof.
  unfold Py.round_half_even.
  destruct (floor_bounds x) as [Hlo Hhi].
  destruct (Qcompare_spec (x - inject_Z (Qfloor x)) (1 # 2)) as [E | L | G].
  - destruct (Z.even (Qfloor x)).
    + lra.
    + rewrite inject_Z_plus. change (inject_Z 1) with 1. lra.
  - lra.
  - rewrite inject_Z_plus. change (inject_Z 1) with 1. lra.
Qed.

(** An integer below (above) the argument stays below (above) its rounding. *)
Lemma round_half_even_ge (x : Q) (k : Z) :
  inject_Z k <= x -> (k <= Py.round_half_even x)%Z.
Proof.
  intros H. unfold Py.round_half_even.
  assert (Hk : (k <= Qfloor x)%Z).
  { rewrite <- (Qfloor_Z k). apply Qfloor_resp_le. exact H. }
  destruct (_ ?= _); [destruct (Z.even _) | |]; lia.
Qed.

Lemma round_half_even_le (x : Q) (k : Z) :
  x <= inject_Z k -> (Py.round_half_even x <= k)%Z.
Proof.
  intros H. unfold Py.round_half_even.
  destruct (floor_bounds x) as [Hlo Hhi].
  assert (Hk : (Qfloor x <= k)%Z).
  { rewrite <- (Qfloor_Z k). apply Qfloor_resp_le. exact H. }
  destruct (Z.eq_dec (Qfloor x) k) as [E | NE].
  - assert (Hx : x == inject_Z k) by (rewrite E in Hlo; lra).
    assert (Hd : x - inject_Z (Qfloor x) == 0) by (rewrite E; lra).
    destruct (Qcompare_spec (x - inject_Z (Qfloor x)) (1 # 2)) as [E' | L | G];
      try lra; lia.
  - destruct (_ ?= _); [destruct (Z.even _) | |]; lia.
Qed.

Lemma round_half_even_Z (k : Z) : Py.round_half_even (inject_Z k) = k.
Proof.
  apply Z.le_antisymm.
  - apply round_half_even_le. lra.
  - apply round_half_even_ge. lra.
Qed.

Lemma round_half_even_mono (x y : Q) :
  x <= y -> (Py.round_half_even x <= Py.round_half_even y)%Z.
Proof.
  intros H.
  destruct (Z_le_gt_dec (Py.round_half_even x) (Py.round_half_even y)) as [|G];
    [assumption | exfalso].
  (* two distinct roundings in the wrong order force x and y to sit at the
     same tie, and a tie rounds to one value *)
  pose proof (round_half_even_near x) as [_ Hx].
  pose proof (round_half_even_near y) as [Hy _].
  assert (Hz : inject_Z (Py.round_half_even y) + 1 <= inject_Z (Py.round_half_even x)).
  { rewrite <- (inject_Z_plus _ 1). rewrite <- Zle_Qle. lia. }
  assert (Hxy : x == y) by lra.
  assert (E : Py.round_half_even x = Py.round_half_even y).
  { unfold Py.round_half_even.
    assert (Ef : Qfloor x = Qfloor y) by (apply Qfloor_comp; exact Hxy).
    rewrite Ef.
    assert (Ec : (x - inject_Z (Qfloor y) ?= 1 # 2) = (y - inject_Z (Qfloor y) ?= 1 # 2)).
    { apply Qcompare_comp; [rewrite Hxy|]; reflexivity. }
    rewrite Ec. reflexivity. }
  lia.
Qed.

Lemma pow10_pos (n : nat) : 0 < Py.pow10 n.
Proof.
  unfold Py.pow10. change 0 with (inject_Z 0). rewrite <- Zlt_Qlt.
  apply Z.pow_pos_nonneg; lia.
Qed.

Lemma round_scaled (x : Q) (n : nat) :
  Py.round x n * Py.pow10 n == inject_Z (Py.round_half_even (x * Py.pow10 n)).
Proof.
  unfold Py.round. pose proof (pow10_pos n). field. lra.
Qed.

Lemma round_mono (x y : Q) (n : nat) : x <= y -> Py.round x n <= Py.round y n.
Proof.
  intros H. pose proof (pow10_pos n) as Hp. unfold Py.round.
  apply Qle_shift_div_l; [exact Hp |].
  unfold Qdiv. rewrite <- Qmult_assoc, (Qmult_comm (/ _)), Qmult_inv_r by lra.
  rewrite Qmult_1_r, <- Zle_Qle.
  apply round_half_even_mono. apply Qmult_le_compat_r; lra.
Qed.

(** Rounding never crosses an integer. *)
Lemma round_ge_int (x : Q) (n : nat) (k : Z) :
  inject_Z k <= x -> inject_Z k <= Py.round x n.
Proof.
  intros H. pose proof (pow10_pos n) as Hp. unfold Py.round.
  apply Qle_shift_div_l; [exact Hp |].
  unfold Py.pow10 in *. rewrite <- inject_Z_mult, <- Zle_Qle.
  apply round_half_even_ge. rewrite inject_Z_mult.
  apply Qmult_le_compat_r; lra.
Qed.

Lemma round_le_int (x : Q) (n : nat) (k : Z) :
  x <= inject_Z k -> Py.round x n <= inject_Z k.
Proof.
  intros H. pose proof (pow10_pos n) as Hp. unfold Py.round.
  apply Qle_shift_div_r; [exact Hp |].
  unfold Py.pow10 in *. rewrite <- inject_Z_mult, <- Zle_Qle.
  apply round_half_even_le. rewrite inject_Z_mult.
  apply Qmult_le_compat_r; lra.
Qed.

Lemma round_int (k : Z) (n : nat) : Py.round (inject_Z k) n == inject_Z k.
Proof.
  apply Qle_antisym; [apply round_le_int | apply round_ge_int]; lra.
Qed.

(** One and two decimals, as the program uses them. *)
Lemma round1_near (x : Q) :
  x - (1 # 20) <= Py.round x 1 <= x + (1 # 20).
Proof.
  pose proof (round_scaled x 1) as E.
  pose proof (round_half_even_near (x * Py.pow10 1)) as N.
  rewrite <- E in N. change (Py.pow10 1) with 10 in N. lra.
Qed.

Lemma round2_near (x : Q) :
  x - (1 # 200) <= Py.round x 2 <= x + (1 # 200).
Proof.
  pose proof (round_scaled x 2) as E.
  pose proof (round_half_even_near (x * Py.pow10 2)) as N.
  rewrite <- E in N. change (Py.pow10 2) with 100 in N. lra.
Qed.

Lemma round_comp (x y : Q) (n : nat) : x == y -> Py.round x n == Py.round y n.
Proof.
  intros E. apply Qle_antisym; apply round_mono; lra.
Qed.

End PyFacts.

(** ** Facts on float rounding *)

Section FloatFacts.

Lemma pow2_pos (z : Z) : 0 < 2 ^ z.
Proof. apply Qpower_0_lt. reflexivity. Qed.

Lemma pow2_mono (a b : Z) : (a <= b)%Z -> 2 ^ a <= 2 ^ b.
Proof. intros H. apply Qpower_le_compat_l; [exact H | discriminate]. Qed.

Lemma pow2_succ (z : Z) : 2 ^ (z + 1) == 2 * 2 ^ z.
Proof. rewrite Qpower_plus by discriminate. change (2 ^ 1) with 2. ring. Qed.

Lemma pow2_Z (n : Z) : (0 <= n)%Z -> inject_Z (2 ^ n) == 2 ^ n.
Proof. intros H. apply (Zpower_Qpower 2 n H). Qed.

(** The exponent of a positive number is determined by its binade. *)
Lemma binade_unique (x : Q) (a b : Z) :
  2 ^ a <= x -> x < 2 ^ (a + 1) -> 2 ^ b <= x -> x < 2 ^ (b + 1) -> a = b.
Proof.
  intros A1 A2 B1 B2.
  assert (H1 : (a < b + 1)%Z).
  { apply (Qpower_lt_compat_l_inv 2); [| reflexivity]. lra. }
  assert (H2 : (b < a + 1)%Z).
  { apply (Qpower_lt_compat_l_inv 2); [| reflexivity]. lra. }
  lia.
Qed.

Lemma div_lt_cross (x y z w : Q) : 0 < y -> 0 < w -> x * w < z * y -> x / y < z / w.
Proof.
  intros Hy Hw H. apply Qlt_shift_div_l; [exact Hw |].
  setoid_replace (x / y * w) with (x * w / y) by (field; lra).
  apply Qlt_shift_div_r; [exact Hy | exact H].
Qed.

Lemma ilog2_spec (x : Q) :
  0 < x -> 2 ^ Py.ilog2 x <= x /\ x < 2 ^ (Py.ilog2 x + 1).
Proof.
  intros Hx. destruct x as [n d]. unfold Py.ilog2. cbn [Qnum Qden].
  assert (Hn : (0 < n)%Z).
  { unfold Qlt in Hx. cbn in Hx. lia. }
  set (a := Z.log2 n). set (b := Z.log2 (Z.pos d)).
  destruct (Z.log2_spec n Hn) as [Na Nb]. fold a in Na, Nb.
  destruct (Z.log2_spec (Z.pos d) ltac:(lia)) as [Da Db]. fold b in Da, Db.
  assert (Ha : (0 <= a)%Z) by apply Z.log2_nonneg.
  assert (Hb : (0 <= b)%Z) by apply Z.log2_nonneg.
  assert (Ex : n # d == inject_Z n / inject_Z (Z.pos d)).
  { rewrite (Qmake_Qdiv n d). reflexivity. }
  assert (Hd : 0 < inject_Z (Z.pos d)) by reflexivity.
  assert (Pa := pow2_pos a). assert (Pb := pow2_pos b).
  assert (Qa : 2 ^ a <= inject_Z n) by (rewrite <- pow2_Z, <- Zle_Qle; lia).
  assert (Qa' : inject_Z n < 2 * 2 ^ a).
  { rewrite <- pow2_succ, <- pow2_Z, <- Zlt_Qlt by lia. exact Nb. }
  assert (Qb : 2 ^ b <= inject_Z (Z.pos d)) by (rewrite <- pow2_Z, <- Zle_Qle; lia).
  assert (Qb' : inject_Z (Z.pos d) < 2 * 2 ^ b).
  { rewrite <- pow2_succ, <- pow2_Z, <- Zlt_Qlt by lia. exact Db. }
  assert (E0 : 2 ^ (a - b) == 2 ^ a / 2 ^ b) by (apply Qpower_minus; discriminate).
  assert (E1 : 2 ^ (a - b - 1) == 2 ^ a / (2 * 2 ^ b)).
  { replace (a - b - 1)%Z with (a - (b + 1))%Z by lia.
    rewrite Qpower_minus by discriminate. rewrite pow2_succ. reflexivity. }
  assert (E2 : 2 ^ (a - b + 1) == 2 * 2 ^ a / 2 ^ b).
  { rewrite pow2_succ, E0. field. lra. }
  assert (Lo : 2 ^ (a - b - 1) < n # d).
  { rewrite Ex, E1. apply div_lt_cross; nra. }
  assert (Hi : n # d < 2 ^ (a - b + 1)).
  { rewrite Ex, E2. apply div_lt_cross; nra. }
  destruct (Qle_bool (2 ^ (a - b)) (n # d)) eqn:E.
  - apply Qle_bool_iff in E. split; [exact E | exact Hi].
  - assert (L : n # d < 2 ^ (a - b)).
    { destruct (Qlt_le_dec (n # d) (2 ^ (a - b))) as [L | G]; [exact L |].
      apply Qle_bool_iff in G. congruence. }
    split; [apply Qlt_le_weak, Lo |].
    replace (a - b - 1 + 1)%Z with (a - b)%Z by lia. exact L.
Qed.

Lemma ilog2_comp (x y : Q) : 0 < x -> x == y -> Py.ilog2 x = Py.ilog2 y.
Proof.
  intros Hx E. assert (Hy : 0 < y) by lra.
  destruct (ilog2_spec x Hx) as [A1 A2]. destruct (ilog2_spec y Hy) as [B1 B2].
  apply (binade_unique x); lra.
Qed.

Lemma ilog2_mono (x y : Q) : 0 < x -> x <= y -> (Py.ilog2 x <= Py.ilog2 y)%Z.
Proof.
  intros Hx L. assert (Hy : 0 < y) by lra.
  destruct (ilog2_spec x Hx) as [A1 A2]. destruct (ilog2_spec y Hy) as [B1 B2].
  assert (H : (Py.ilog2 x < Py.ilog2 y + 1)%Z).
  { apply (Qpower_lt_compat_l_inv 2); [| reflexivity]. lra. }
  lia.
Qed.

(** A positive number, counted in units of its last place, lies between
    2^52 and 2^53. *)
Lemma scaled_range (x : Q) :
  0 < x ->
  inject_Z (2 ^ 52) <= x / 2 ^ (Py.ilog2 x - 52) /\
  x / 2 ^ (Py.ilog2 x - 52) <= inject_Z (2 ^ 53).
Proof.
  intros Hx. destruct (ilog2_spec x Hx) as [A1 A2].
  pose proof (pow2_pos (Py.ilog2 x - 52)) as Pu.
  assert (E1 : 2 ^ Py.ilog2 x == inject_Z (2 ^ 52) * 2 ^ (Py.ilog2 x - 52)).
  { rewrite (pow2_Z 52) by lia. rewrite <- Qpower_plus by discriminate.
    replace (52 + (Py.ilog2 x - 52))%Z with (Py.ilog2 x) by lia. reflexivity. }
  assert (E2 : 2 ^ (Py.ilog2 x + 1) == inject_Z (2 ^ 53) * 2 ^ (Py.ilog2 x - 52)).
  { rewrite (pow2_Z 53) by lia. rewrite <- Qpower_plus by discriminate.
    replace (53 + (Py.ilog2 x - 52))%Z with (Py.ilog2 x + 1)%Z by lia. reflexivity. }
  split.
  - apply Qle_shift_div_l; [exact Pu |]. rewrite <- E1. exact A1.
  - apply Qle_shift_div_r; [exact Pu |]. rewrite <- E2. lra.
Qed.

(** The nearest double of a positive number stays in the closure of its
    binade. *)
Lemma fl_pos_range (x : Q) :
  0 < x -> 2 ^ Py.ilog2 x <= Py.fl_pos x /\ Py.fl_pos x <= 2 ^ (Py.ilog2 x + 1).
Proof.
  intros Hx. destruct (scaled_range x Hx) as [S1 S2].
  pose proof (pow2_pos (Py.ilog2 x - 52)) as Pu.
  unfold Py.fl_pos. cbv zeta.
  assert (R1 : (2 ^ 52 <= Py.round_half_even (x / 2 ^ (Py.ilog2 x - 52)))%Z)
    by (apply round_half_even_ge; exact S1).
  assert (R2 : (Py.round_half_even (x / 2 ^ (Py.ilog2 x - 52)) <= 2 ^ 53)%Z)
    by (apply round_half_even_le; exact S2).
  assert (E1 : 2 ^ Py.ilog2 x == inject_Z (2 ^ 52) * 2 ^ (Py.ilog2 x - 52)).
  { rewrite (pow2_Z 52) by lia. rewrite <- Qpower_plus by discriminate.
    replace (52 + (Py.ilog2 x - 52))%Z with (Py.ilog2 x) by lia. reflexivity. }
  assert (E2 : 2 ^ (Py.ilog2 x + 1) == inject_Z (2 ^ 53) * 2 ^ (Py.ilog2 x - 52)).
  { rewrite (pow2_Z 53) by lia. rewrite <- Qpower_plus by discriminate.
    replace (53 + (Py.ilog2 x - 52))%Z with (Py.ilog2 x + 1)%Z by lia. reflexivity. }
  rewrite E1, E2. rewrite Zle_Qle in R1, R2.
  split; apply Qmult_le_compat_r; lra.
Qed.

Lemma fl_pos_pos (x : Q) : 0 < x -> 0 < Py.fl_pos x.
Proof.
  intros Hx. destruct (fl_pos_range x Hx) as [H _].
  pose proof (pow2_pos (Py.ilog2 x)). lra.
Qed.

Lemma fl_pos_mono (x y : Q) : 0 < x -> x <= y -> Py.fl_pos x <= Py.fl_pos y.
Proof.
  intros Hx L. assert (Hy : 0 < y) by lra.
  pose proof (ilog2_mono x y Hx L) as He.
  destruct (Z.eq_dec (Py.ilog2 x) (Py.ilog2 y)) as [E | NE].
  - unfold Py.fl_pos. cbv zeta. rewrite E.
    pose proof (pow2_pos (Py.ilog2 y - 52)) as Pu.
    apply Qmult_le_compat_r; [| lra].
    rewrite <- Zle_Qle. apply round_half_even_mono.
    apply Qmult_le_compat_r; [exact L |]. apply Qinv_le_0_compat. lra.
  - destruct (fl_pos_range x Hx) as [_ X2]. destruct (fl_pos_range y Hy) as [Y1 _].
    assert (P : 2 ^ (Py.ilog2 x + 1) <= 2 ^ Py.ilog2 y) by (apply pow2_mono; lia).
    lra.
Qed.

Lemma fl_pos_comp (x y : Q) : 0 < x -> x == y -> Py.fl_pos x == Py.fl_pos y.
Proof.
  intros Hx E. assert (Hy : 0 < y) by lra.
  apply Qle_antisym; apply fl_pos_mono; lra.
Qed.

Lemma fl_mono (x y : Q) : x <= y -> Py.fl x <= Py.fl y.
Proof.
  intros L. unfold Py.fl.
  destruct (Qcompare_spec x 0) as [Ex | Lx | Gx];
    destruct (Qcompare_spec y 0) as [Ey | Ly | Gy]; try lra.
  - pose proof (fl_pos_pos y Gy). lra.
  - pose proof (fl_pos_pos (- x) ltac:(lra)). lra.
  - pose proof (fl_pos_mono (- y) (- x) ltac:(lra) ltac:(lra)). lra.
  - pose proof (fl_pos_pos (- x) ltac:(lra)). pose proof (fl_pos_pos y Gy). lra.
  - apply fl_pos_mono; lra.
Qed.

Lemma fl_comp (x y : Q) : x == y -> Py.fl x == Py.fl y.
Proof. intros E. apply Qle_antisym; apply fl_mono; lra. Qed.

Lemma round_half_even_comp (x y : Q) :
  x == y -> Py.round_half_even x = Py.round_half_even y.
Proof.
  intros E. apply Z.le_antisymm; apply round_half_even_mono; lra.
Qed.

(** A positive integer below 2^53 is a double. *)
Lemma fl_int (n : Z) : (0 < n < 2 ^ 53)%Z -> Py.fl (inject_Z n) == inject_Z n.
Proof.
  intros [Hn Hlt].
  assert (Hx : 0 < inject_Z n) by (change 0 with (inject_Z 0); rewrite <- Zlt_Qlt; lia).
  unfold Py.fl. destruct (Qcompare_spec (inject_Z n) 0) as [E | L | G]; try lra.
  destruct (ilog2_spec (inject_Z n) Hx) as [A1 A2].
  set (e := Py.ilog2 (inject_Z n)) in *.
  assert (He : (e < 53)%Z).
  { apply (Qpower_lt_compat_l_inv 2); [| reflexivity].
    rewrite <- (pow2_Z 53) by lia.
    assert (inject_Z n < inject_Z (2 ^ 53)) by (rewrite <- Zlt_Qlt; exact Hlt). lra. }
  unfold Py.fl_pos. cbv zeta. fold e.
  assert (Eu : 2 ^ (e - 52) == / inject_Z (2 ^ (52 - e))).
  { replace (e - 52)%Z with (- (52 - e))%Z by lia.
    rewrite Qpower_opp, <- pow2_Z by lia. reflexivity. }
  assert (Pk : 0 < inject_Z (2 ^ (52 - e))).
  { change 0 with (inject_Z 0). rewrite <- Zlt_Qlt. apply Z.pow_pos_nonneg; lia. }
  assert (Es : inject_Z n / 2 ^ (e - 52) == inject_Z (n * 2 ^ (52 - e))).
  { rewrite Eu, inject_Z_mult. field. lra. }
  rewrite (round_half_even_comp _ _ Es), round_half_even_Z.
  rewrite Eu, inject_Z_mult. field. lra.
Qed.

Lemma fl_0 : Py.fl 0 == 0.
Proof. reflexivity. Qed.

Lemma fl_nonneg (x : Q) : 0 <= x -> 0 <= Py.fl x.
Proof. intros H. apply (fl_mono 0 x) in H. exact H. Qed.

(** Adding 5 to a confidence between 0 and 100 gains at least a twentieth:
    an integer lies between the two, and is a double. *)
Lemma boost_ge (c : Q) : 0 <= c <= 100 -> c + (1 # 20) <= Py.fadd c 5.
Proof.
  intros [H0 H1]. set (n := Qceiling (c + (1 # 20))).
  pose proof (Qle_ceiling (c + (1 # 20))) as Lo. fold n in Lo.
  pose proof (Qceiling_lt (c + (1 # 20))) as Hi. fold n in Hi.
  assert (E : inject_Z (n - 1) == inject_Z n - 1)
    by (unfold Z.sub; rewrite inject_Z_plus; reflexivity).
  assert (Hn : (0 < n < 2 ^ 53)%Z).
  { split.
    - rewrite Zlt_Qlt. change (inject_Z 0) with 0. lra.
    - assert (H : inject_Z n < inject_Z 200).
      { change (inject_Z 200) with 200. lra. }
      rewrite <- Zlt_Qlt in H. lia. }
  pose proof (fl_mono (inject_Z n) (c + 5) ltac:(lra)) as M.
  rewrite (fl_int n Hn) in M. unfold Py.fadd. lra.
Qed.

Lemma fadd_mono (a b a' b' : Q) : a <= a' -> b <= b' -> Py.fadd a b <= Py.fadd a' b'.
Proof. intros H1 H2. apply fl_mono. lra. Qed.

Lemma fmul_mono (a a' k : Q) : 0 <= k -> a <= a' -> Py.fmul a k <= Py.fmul a' k.
Proof. intros Hk H. apply fl_mono. apply Qmult_le_compat_r; assumption. Qed.

End FloatFacts.
(** ** Facts on arrays *)

Section MapiFacts.

Context {A B : Type}.

Lemma length_mapi_from (f : Z -> A -> B) (l : list A) (i : Z) :
  Datatypes.length (mapi_from i f l) = Datatypes.length l.
Proof.
  revert i. induction l as [| a l IH]; intros i; cbn; [reflexivity |].
  rewrite IH. reflexivity.
Qed.

Lemma nth_mapi_from (f : Z -> A -> B) (l : list A) (i : Z) (n : nat) (d : B) :
  nth n (mapi_from i f l) d =
  match nth_error l n with
  | Some a => f (i + Z.of_nat n)%Z a
  | None => d
  end.
Proof.
  revert i n. induction l as [| a l IH]; intros i n.
  - destruct n; reflexivity.
  - destruct n as [| n]; cbn [mapi_from nth nth_error].
    + rewrite Z.add_0_r. reflexivity.
    + rewrite IH. destruct (nth_error l n); [| reflexivity].
      f_equal. lia.
Qed.

Lemma inb_shape (g : Grid A) (g' : Grid B) (r c : Z) :
  shape g = shape g' -> inb g r c = inb g' r c.
Proof.
  intros E. unfold inb. rewrite E. reflexivity.
Qed.

End MapiFacts.

Section GridPlaces.

Context {A : Type}.

Lemma nth_shape (g : Grid A) (n : nat) :
  nth n (shape g) 0%nat =
  match nth_error g n with
  | Some row => Datatypes.length row
  | None => 0%nat
  end.
Proof.
  unfold shape. revert n. induction g as [| row g IH]; intros [| n]; cbn; auto.
Qed.

Lemma gget_outside (d : A) (g : Grid A) (r c : Z) :
  inb g r c = false -> gget d g r c = d.
Proof.
  unfold inb, gget. intros H.
  destruct (r <? 0)%Z eqn:Hr; [reflexivity |].
  destruct (c <? 0)%Z eqn:Hc; [reflexivity |]. cbn.
  assert (Hr' : (0 <=? r)%Z = true) by lia.
  assert (Hc' : (0 <=? c)%Z = true) by lia.
  rewrite Hr', Hc' in H. cbn in H.
  apply Nat.ltb_ge in H. rewrite nth_shape in H.
  destruct (nth_error g (Z.to_nat r)) as [row |] eqn:E.
  - rewrite (nth_error_nth _ _ _ E). apply nth_overflow. exact H.
  - rewrite (nth_overflow g); [destruct (Z.to_nat c); reflexivity |].
    apply nth_error_None. exact E.
Qed.

Lemma gget_default (d d' : A) (g : Grid A) (r c : Z) :
  inb g r c = true -> gget d g r c = gget d' g r c.
Proof.
  unfold inb, gget. intros H.
  apply andb_true_iff in H as [H Hlt]. apply andb_true_iff in H as [Hr Hc].
  replace (r <? 0)%Z with false by lia. replace (c <? 0)%Z with false by lia.
  cbn. apply Nat.ltb_lt in Hlt. rewrite nth_shape in Hlt.
  destruct (nth_error g (Z.to_nat r)) as [row |] eqn:E; [| lia].
  rewrite (nth_error_nth _ _ _ E). apply nth_indep. exact Hlt.
Qed.

Lemma gget_cons (d : A) (row : list A) (g : Grid A) (r c : Z) :
  (0 <= r)%Z -> gget d (row :: g) (r + 1) c = gget d g r c.
Proof.
  intros Hr. unfold gget.
  replace (r + 1 <? 0)%Z with false by lia. replace (r <? 0)%Z with false by lia.
  replace (Z.to_nat (r + 1)) with (S (Z.to_nat r)) by lia. reflexivity.
Qed.

Lemma inb_cons (row : list A) (g : Grid A) (r c : Z) :
  (0 <= r)%Z -> inb (row :: g) (r + 1) c = inb g r c.
Proof.
  intros Hr. unfold inb.
  replace (Z.to_nat (r + 1)) with (S (Z.to_nat r)) by lia.
  replace (0 <=? r + 1)%Z with true by lia. replace (0 <=? r)%Z with true by lia.
  reflexivity.
Qed.

End GridPlaces.

Section GridFacts.

Context {A B : Type}.

Lemma shape_gtab (f : Z -> Z -> B) (g : Grid A) : shape (gtab f g) = shape g.
Proof.
  unfold gtab, shape.
  assert (H : forall i,
    map (@Datatypes.length B)
      (mapi_from i (fun r (row : list A) => mapi_from 0 (fun c _ => f r c) row) g)
    = map (@Datatypes.length A) g).
  { induction g as [| row g IH]; intros i; cbn; [reflexivity |].
    rewrite length_mapi_from, IH. reflexivity. }
  apply H.
Qed.

Lemma shape_gmap (f : A -> B) (g : Grid A) : shape (gmap f g) = shape g.
Proof.
  unfold gmap, shape. rewrite map_map. apply map_ext. intros row.
  apply length_map.
Qed.

Lemma gget_gtab (d : B) (f : Z -> Z -> B) (g : Grid A) (r c : Z) :
  gget d (gtab f g) r c = if inb g r c then f r c else d.
Proof.
  destruct (inb g r c) eqn:H.
  - unfold inb in H.
    apply andb_true_iff in H as [H Hlt]. apply andb_true_iff in H as [Hr Hc].
    unfold gget.
    replace (r <? 0)%Z with false by lia. replace (c <? 0)%Z with false by lia.
    cbn [orb]. unfold gtab. rewrite nth_mapi_from.
    apply Nat.ltb_lt in Hlt. rewrite nth_shape in Hlt.
    destruct (nth_error g (Z.to_nat r)) as [row |] eqn:E; [| lia].
    rewrite nth_mapi_from.
    destruct (nth_error row (Z.to_nat c)) eqn:E'.
    + f_equal; lia.
    + apply nth_error_None in E'. lia.
  - apply gget_outside. rewrite <- H. apply inb_shape. apply shape_gtab.
Qed.

Lemma gget_gmap (d : B) (d' : A) (f : A -> B) (g : Grid A) (r c : Z) :
  gget d (gmap f g) r c = if inb g r c then f (gget d' g r c) else d.
Proof.
  destruct (inb g r c) eqn:H.
  - rewrite (gget_default d (f d')).
    + unfold gget. destruct ((r <? 0)%Z || (c <? 0)%Z).
      * unfold inb in H. reflexivity.
      * unfold gmap.
        change (@nil B) with (map f []).
        rewrite (map_nth (map f)). rewrite map_nth. reflexivity.
    + rewrite <- H. apply inb_shape. apply shape_gmap.
  - apply gget_outside. rewrite <- H. apply inb_shape. apply shape_gmap.
Qed.

End GridFacts.

Section GridPairs.

Context {A B C : Type}.

Lemma shape_gmap2 (da : A) (db : B) (f : A -> B -> C) (g1 : Grid A) (g2 : Grid B) :
  shape (gmap2 da db f g1 g2) = shape g1.
Proof. apply shape_gtab. Qed.

Lemma gget_gmap2 (d : C) (da : A) (db : B) (f : A -> B -> C)
  (g1 : Grid A) (g2 : Grid B) (r c : Z) :
  gget d (gmap2 da db f g1 g2) r c =
  if inb g1 r c then f (gget da g1 r c) (gget db g2 r c) else d.
Proof. unfold gmap2. rewrite gget_gtab. reflexivity. Qed.

End GridPairs.

Section GridSizes.

Context {A : Type}.

Lemma gsize_shape {B : Type} (g : Grid A) (g' : Grid B) :
  shape g = shape g' -> gsize g = gsize g'.
Proof. unfold gsize. intros ->. reflexivity. Qed.

Lemma list_sum_repeat (w h : nat) : list_sum (repeat w h) = (h * w)%nat.
Proof.
  unfold list_sum. induction h as [| h IH]; cbn; [reflexivity |].
  rewrite IH. reflexivity.
Qed.

Lemma has_shape_size (h w : nat) (g : Grid A) :
  has_shape h w g -> gsize g = (h * w)%nat.
Proof. unfold has_shape, gsize. intros ->. apply list_sum_repeat. Qed.

Lemma has_shape_rows (h w : nat) (g : Grid A) : has_shape h w g -> rows g = h.
Proof.
  unfold has_shape, rows, shape. intros H.
  rewrite <- (length_map (@Datatypes.length A) g), H. apply repeat_length.
Qed.

Lemma has_shape_cols (h w : nat) (g : Grid A) :
  has_shape h w g -> (0 < h)%nat -> cols g = w.
Proof.
  unfold has_shape, cols, shape. intros H Hh.
  destruct h as [| h]; [lia |]. destruct g as [| row g]; [discriminate |].
  cbn in H. injection H as H _. exact H.
Qed.

Lemma length_gflat (g : Grid A) : Datatypes.length (gflat g) = gsize g.
Proof.
  unfold gflat, gsize, shape. induction g as [| row g IH]; cbn; [reflexivity |].
  rewrite length_app, IH. reflexivity.
Qed.

(** Entry by entry and row by row. *)
Lemma rows_Forall2 {B : Type} (R : A -> B -> Prop) (l1 : list A) (l2 : list B)
  (d1 : A) (d2 : B) :
  Datatypes.length l1 = Datatypes.length l2 ->
  (forall n, (n < Datatypes.length l1)%nat -> R (nth n l1 d1) (nth n l2 d2)) ->
  Forall2 R l1 l2.
Proof.
  revert l2. induction l1 as [| a l1 IH]; intros [| b l2] E H; try discriminate.
  - constructor.
  - constructor.
    + apply (H 0%nat). cbn. lia.
    + apply IH; [cbn in E; lia |]. intros n Hn. apply (H (S n)). cbn. lia.
Qed.

Lemma grid_Forall2 {B : Type} (R : A -> B -> Prop) (g1 : Grid A) (g2 : Grid B)
  (d1 : A) (d2 : B) :
  shape g1 = shape g2 ->
  (forall r c, inb g1 r c = true -> R (gget d1 g1 r c) (gget d2 g2 r c)) ->
  Forall2 (Forall2 R) g1 g2.
Proof.
  revert g2. induction g1 as [| row1 g1 IH]; intros [| row2 g2] E H;
    try discriminate; constructor.
  - cbn in E. injection E as E0 E.
    apply (rows_Forall2 R row1 row2 d1 d2 E0). intros n Hn.
    specialize (H 0%Z (Z.of_nat n)).
    unfold inb, gget in H. cbn in H.
    replace (Z.of_nat n <? 0)%Z with false in H by lia.
    replace (0 <=? Z.of_nat n)%Z with true in H by lia.
    rewrite Nat2Z.id in H. apply H. apply Nat.ltb_lt. exact Hn.
  - cbn in E. injection E as E0 E. apply IH; [exact E |].
    intros r c Hin.
    assert (Hr : (0 <= r)%Z).
    { unfold inb in Hin. apply andb_true_iff in Hin as [Hin _].
      apply andb_true_iff in Hin as [Hin _]. lia. }
    rewrite <- (gget_cons d1 row1 g1 r c Hr), <- (gget_cons d2 row2 g2 r c Hr).
    apply H. rewrite inb_cons; assumption.
Qed.

End GridSizes.

(** ** Facts on masks *)

Section Masks.

Lemma countNonZero_bounds (m : Grid Z) :
  (0 <= cv2.countNonZero m <= Z.of_nat (gsize m))%Z.
Proof.
  unfold cv2.countNonZero. rewrite <- length_gflat.
  pose proof (filter_length_le cv2.nonzero (gflat m)). lia.
Qed.

Lemma count_row_mono (l1 l2 : list Z) :
  Forall2 (fun a b => a <> 0%Z -> b <> 0%Z) l1 l2 ->
  (Datatypes.length (filter cv2.nonzero l1) <= Datatypes.length (filter cv2.nonzero l2))%nat.
Proof.
  induction 1 as [| a b l1 l2 Hab _ IH]; cbn [filter]; [cbn; lia |].
  destruct (cv2.nonzero a) eqn:Ea, (cv2.nonzero b) eqn:Eb; cbn [Datatypes.length];
    try lia.
  exfalso. unfold cv2.nonzero in Ea, Eb.
  apply negb_true_iff, Z.eqb_neq in Ea. apply negb_false_iff, Z.eqb_eq in Eb.
  exact (Hab Ea Eb).
Qed.

Lemma count_grid_mono (g1 g2 : Grid Z) :
  Forall2 (Forall2 (fun a b => a <> 0%Z -> b <> 0%Z)) g1 g2 ->
  (Datatypes.length (filter cv2.nonzero (gflat g1)) <=
   Datatypes.length (filter cv2.nonzero (gflat g2)))%nat.
Proof.
  unfold gflat. induction 1 as [| r1 r2 g1 g2 Hr _ IH]; cbn; [lia |].
  rewrite !filter_app, !length_app.
  pose proof (count_row_mono _ _ Hr). lia.
Qed.

(** A mask with more foreground counts more. *)
Lemma countNonZero_mono (m1 m2 : Grid Z) :
  shape m1 = shape m2 ->
  (forall r c, gget 0%Z m1 r c <> 0%Z -> gget 0%Z m2 r c <> 0%Z) ->
  (cv2.countNonZero m1 <= cv2.countNonZero m2)%Z.
Proof.
  intros E H. unfold cv2.countNonZero. apply inj_le.
  apply count_grid_mono.
  apply (grid_Forall2 _ m1 m2 0%Z 0%Z E). intros r c _. apply H.
Qed.

End Masks.

(** ** Facts on the morphological operations *)

Section Morphology.

Lemma mask_le_gget (d : Z) (m1 m2 : Grid Z) (r c : Z) :
  mask_le m1 m2 -> (gget d m1 r c <= gget d m2 r c)%Z.
Proof.
  intros [E H]. destruct (inb m1 r c) eqn:Hin.
  - rewrite (gget_default d 0%Z m1), (gget_default d 0%Z m2); [apply H | | exact Hin].
    rewrite <- (inb_shape m1 m2 r c E). exact Hin.
  - rewrite (gget_outside d m1), (gget_outside d m2); [lia | | exact Hin].
    rewrite <- (inb_shape m1 m2 r c E). exact Hin.
Qed.

Lemma mask_le_refl (m : Grid Z) : mask_le m m.
Proof. split; [reflexivity | intros; lia]. Qed.

Lemma fold_min_mono {P : Type} (f1 f2 : P -> Z) (l : list P) (d : Z) :
  (forall p, (f1 p <= f2 p)%Z) ->
  (fold_right Z.min d (map f1 l) <= fold_right Z.min d (map f2 l))%Z.
Proof.
  intros H. induction l as [| p l IH]; cbn; [lia |]. specialize (H p). lia.
Qed.

Lemma fold_max_mono {P : Type} (f1 f2 : P -> Z) (l : list P) (d : Z) :
  (forall p, (f1 p <= f2 p)%Z) ->
  (fold_right Z.max d (map f1 l) <= fold_right Z.max d (map f2 l))%Z.
Proof.
  intros H. induction l as [| p l IH]; cbn; [lia |]. specialize (H p). lia.
Qed.

Lemma shape_erode (m k : Grid Z) : shape (cv2.erode m k) = shape m.
Proof. apply shape_gtab. Qed.

Lemma shape_dilate (m k : Grid Z) : shape (cv2.dilate m k) = shape m.
Proof. apply shape_gtab. Qed.

Lemma shape_open (m k : Grid Z) : shape (cv2.morphologyEx_OPEN m k) = shape m.
Proof. unfold cv2.morphologyEx_OPEN. rewrite shape_dilate. apply shape_erode. Qed.

Lemma shape_close (m k : Grid Z) : shape (cv2.morphologyEx_CLOSE m k) = shape m.
Proof. unfold cv2.morphologyEx_CLOSE. rewrite shape_erode. apply shape_dilate. Qed.

(** Erosion and dilation are increasing, hence the opening is. *)
Lemma erode_mono (m1 m2 k : Grid Z) :
  mask_le m1 m2 -> mask_le (cv2.erode m1 k) (cv2.erode m2 k).
Proof.
  intros L. split.
  - rewrite !shape_erode. apply L.
  - intros r c. unfold cv2.erode. rewrite !gget_gtab.
    rewrite <- (inb_shape m1 m2 r c (proj1 L)).
    destruct (inb m1 r c); [| lia].
    apply fold_min_mono. intros [dr dc]. apply mask_le_gget. exact L.
Qed.

Lemma dilate_mono (m1 m2 k : Grid Z) :
  mask_le m1 m2 -> mask_le (cv2.dilate m1 k) (cv2.dilate m2 k).
Proof.
  intros L. split.
  - rewrite !shape_dilate. apply L.
  - intros r c. unfold cv2.dilate. rewrite !gget_gtab.
    rewrite <- (inb_shape m1 m2 r c (proj1 L)).
    destruct (inb m1 r c); [| lia].
    apply fold_max_mono. intros [dr dc]. apply mask_le_gget. exact L.
Qed.

Lemma open_mono (m1 m2 k : Grid Z) :
  mask_le m1 m2 -> mask_le (cv2.morphologyEx_OPEN m1 k) (cv2.morphologyEx_OPEN m2 k).
Proof.
  intros L. unfold cv2.morphologyEx_OPEN. apply dilate_mono, erode_mono, L.
Qed.

(** They keep a binary mask binary. *)
Lemma binary_gget (d : Z) (m : Grid Z) (r c : Z) :
  binary m -> d = 0%Z \/ d = 255%Z ->
  gget d m r c = 0%Z \/ gget d m r c = 255%Z.
Proof.
  intros Hb Hd. destruct (inb m r c) eqn:Hin.
  - rewrite (gget_default d 0%Z m r c Hin). apply Hb.
  - rewrite (gget_outside d m r c Hin). exact Hd.
Qed.

Lemma binary_fold_min {P : Type} (f : P -> Z) (l : list P) :
  (forall p, f p = 0%Z \/ f p = 255%Z) ->
  fold_right Z.min 255%Z (map f l) = 0%Z \/ fold_right Z.min 255%Z (map f l) = 255%Z.
Proof.
  intros H. induction l as [| p l IH]; cbn; [right; reflexivity |].
  destruct (H p), IH; lia.
Qed.

Lemma binary_fold_max {P : Type} (f : P -> Z) (l : list P) :
  (forall p, f p = 0%Z \/ f p = 255%Z) ->
  fold_right Z.max 0%Z (map f l) = 0%Z \/ fold_right Z.max 0%Z (map f l) = 255%Z.
Proof.
  intros H. induction l as [| p l IH]; cbn; [left; reflexivity |].
  destruct (H p), IH; lia.
Qed.

Lemma binary_erode (m k : Grid Z) : binary m -> binary (cv2.erode m k).
Proof.
  intros Hb r c. unfold cv2.erode. rewrite gget_gtab.
  destruct (inb m r c); [| left; reflexivity].
  apply binary_fold_min. intros [dr dc]. apply binary_gget; [exact Hb | right; reflexivity].
Qed.

Lemma binary_dilate (m k : Grid Z) : binary m -> binary (cv2.dilate m k).
Proof.
  intros Hb r c. unfold cv2.dilate. rewrite gget_gtab.
  destruct (inb m r c); [| left; reflexivity].
  apply binary_fold_max. intros [dr dc]. apply binary_gget; [exact Hb | left; reflexivity].
Qed.

Lemma binary_open (m k : Grid Z) : binary m -> binary (cv2.morphologyEx_OPEN m k).
Proof. intros Hb. apply binary_dilate, binary_erode, Hb. Qed.

(** The thresholded masks, entry by entry. *)
Lemma gget_inRange (img : Image) (lo hi : Pixel) (r c : Z) :
  gget 0%Z (cv2.inRange img lo hi) r c =
  if inb img r c
  then (if cv2.in_range lo hi (gget (0, 0, 0)%Z img r c) then 255%Z else 0%Z)
  else 0%Z.
Proof. unfold cv2.inRange. rewrite (gget_gmap _ (0, 0, 0)%Z). reflexivity. Qed.

Lemma gget_threshold (g : Grid Z) (t maxval : Z) (r c : Z) :
  gget 0%Z (cv2.threshold_BINARY_INV g t maxval) r c =
  if inb g r c then (if (gget 0%Z g r c >? t)%Z then 0%Z else maxval) else 0%Z.
Proof. unfold cv2.threshold_BINARY_INV. rewrite (gget_gmap _ 0%Z). reflexivity. Qed.

Lemma gget_bitwise_and (m1 m2 : Grid Z) (r c : Z) :
  gget 0%Z (cv2.bitwise_and m1 m2) r c =
  if inb m1 r c then Z.land (gget 0%Z m1 r c) (gget 0%Z m2 r c) else 0%Z.
Proof. unfold cv2.bitwise_and. rewrite gget_gmap2. reflexivity. Qed.

Lemma gget_bitwise_or (m1 m2 : Grid Z) (r c : Z) :
  gget 0%Z (cv2.bitwise_or m1 m2) r c =
  if inb m1 r c then Z.lor (gget 0%Z m1 r c) (gget 0%Z m2 r c) else 0%Z.
Proof. unfold cv2.bitwise_or. rewrite gget_gmap2. reflexivity. Qed.

Lemma binary_inRange (img : Image) (lo hi : Pixel) : binary (cv2.inRange img lo hi).
Proof.
  intros r c. rewrite gget_inRange.
  destruct (inb img r c); [destruct (cv2.in_range _ _ _) |]; auto.
Qed.

Lemma binary_threshold (g : Grid Z) (t : Z) :
  binary (cv2.threshold_BINARY_INV g t 255).
Proof.
  intros r c. rewrite gget_threshold.
  destruct (inb g r c); [destruct (_ >? _)%Z |]; auto.
Qed.

Lemma binary_and (m1 m2 : Grid Z) :
  binary m1 -> binary m2 -> binary (cv2.bitwise_and m1 m2).
Proof.
  intros H1 H2 r c. rewrite gget_bitwise_and.
  destruct (inb m1 r c); [| left; reflexivity].
  destruct (H1 r c) as [-> | ->], (H2 r c) as [-> | ->]; cbn; auto.
Qed.

End Morphology.

(** ** The fusion policy *)

Section Fusion.

Import Advance.

(** A verdict that carries a key is a non-empty dictionary, hence true. *)
Lemma truthy_lookup (g : dict) (k : string) (v : pyval) :
  dict_lookup g k = Some v -> truthy (Some g) = Some g.
Proof.
  destruct g as [| kv g']; [discriminate | reflexivity].
Qed.

Lemma dict_get_lookup (g : dict) (k : string) (v d : pyval) :
  dict_lookup g k = Some v -> dict_get g k d = v.
Proof.
  intros H. unfold dict_get. rewrite H. reflexivity.
Qed.

(** The branch with a remote verdict never raises on a verdict whose
    category is a string and whose confidence is a number. *)
Lemma combine_present (g : dict) (l : LocalMetrics) (cat : string) (c : Q) :
  dict_lookup g "condition_category" = Some (PStr cat) ->
  dict_lookup g "confidence_score" = Some (PNum c) ->
  exists r,
    combine_analysis_results (Some g) l = Some r /\
    condition r = adjusted_condition (local_bad_score l) cat /\
    confidence r = Py.round (adjusted_confidence (local_bad_score l) cat c) 1 /\
    local_analysis r = l /\
    gemini_analysis r = Some g.
Proof.
  intros Hcat Hconf.
  unfold combine_analysis_results.
  rewrite (truthy_lookup _ _ _ Hcat).
  rewrite (dict_get_lookup _ _ _ _ Hcat), (dict_get_lookup _ _ _ _ Hconf).
  unfold adjusted_condition, adjusted_confidence.
  cbn [table_get bind as_num].
  destruct (Py.ltb 20 (local_bad_score l) && in_strs (PStr cat) ["EXCELLENT"; "GOOD"]).
  - eexists; repeat split.
  - destruct (Py.ltb (local_bad_score l) 5 && in_strs (PStr cat) ["BAD"; "POOR"]);
      eexists; repeat split.
Qed.

End Fusion.

Import Advance.

(** C1, as stated, fails: with a remote confidence of 40 the conflict branch
    answers 50, the floor of [max(ai_confidence - 15, 50)], which is not below
    the remote's confidence. *)
Lemma conflict_rule_floor_counterexample :
  exists r,
    combine_analysis_results (Some (verdict "EXCELLENT" 40)) (measured 30 0 90)
      = Some r /\
    condition r = CONFLICTING /\
    ~ confidence r < 40.
Proof.
  eexists. split; [vm_compute; reflexivity |]. split; [reflexivity |].
  vm_compute. discriminate.
Qed.

(** C1 (amended): with [brown_rot_percentage = 30] and a remote EXCELLENT
    verdict of confidence [c] in [0,100], the fused condition is the
    synthetic conflict condition and the fused confidence is
    [max(c - 15, 50)] rounded to one decimal: never under the floor 50, and
    strictly below [c] exactly when [c] is above that floor. *)
Theorem conflict_rule (l : LocalMetrics) (g : dict) (c : Q) :
  brown_rot_percentage l == 30 ->
  0 <= black_spots_percentage l ->
  dict_lookup g "condition_category" = Some (PStr "EXCELLENT") ->
  dict_lookup g "confidence_score" = Some (PNum c) ->
  0 <= c <= 100 ->
  exists r,
    combine_analysis_results (Some g) l = Some r /\
    condition r = CONFLICTING /\
    confidence r == Py.round (Py.max (c - 15) 50) 1 /\
    50 <= confidence r /\
    (50 < c -> confidence r < c) /\
    (c <= 50 -> ~ confidence r < c).
Proof.
  intros Hbrown Hblack Hcat Hconf Hc.
  destruct (combine_present g l _ _ Hcat Hconf) as (r & Hr & Hcond & Hcf & _).
  assert (Hscore : 20 < local_bad_score l).
  { unfold local_bad_score, Py.fadd, Py.fmul.
    assert (E1 : Py.fl (brown_rot_percentage l * (25 # 10)) == 75).
    { rewrite (fl_comp _ 75) by (rewrite Hbrown; reflexivity). apply (fl_int 75). lia. }
    pose proof (fl_nonneg (black_spots_percentage l * (35 # 10)) ltac:(lra)) as E2.
    assert (E3 : Py.fl 75 <= Py.fl (Py.fl (brown_rot_percentage l * (25 # 10)) +
                                    Py.fl (black_spots_percentage l * (35 # 10))))
      by (apply fl_mono; lra).
    rewrite (fl_int 75) in E3 by lia. change (inject_Z 75) with 75 in E3. lra. }
  unfold adjusted_condition in Hcond. unfold adjusted_confidence in Hcf.
  rewrite (ltb_true _ _ Hscore) in Hcond, Hcf. cbn in Hcond, Hcf.
  exists r. split; [exact Hr |]. split; [exact Hcond |].
  rewrite Hcf. split; [reflexivity |].
  destruct (max_spec (c - 15) 50) as (M1 & M2 & M3).
  assert (Hfloor : 50 <= Py.round (Py.max (c - 15) 50) 1).
  { apply (round_ge_int _ 1 50). exact M2. }
  split; [exact Hfloor |]. split.
  - intros Hgt.
    destruct (Qlt_le_dec (c - 15) 50) as [Lo | Hi].
    + assert (E : Py.round (Py.max (c - 15) 50) 1 == 50).
      { rewrite (round_comp _ 50) by (apply max_r; lra). apply (round_int 50). }
      lra.
    + pose proof (round1_near (Py.max (c - 15) 50)) as [_ N].
      pose proof (max_l (c - 15) 50 Hi). lra.
  - intros Hle. lra.
Qed.

(** C1 at a remote confidence of 90: the fused confidence is 75. *)
Lemma conflict_rule_witness :
  exists r,
    combine_analysis_results (Some (verdict "EXCELLENT" 90)) (measured 30 2 90)
      = Some r /\
    condition r = CONFLICTING /\
    confidence r == Py.round (Py.max (90 - 15) 50) 1 /\
    50 <= confidence r /\
    (50 < 90 -> confidence r < 90) /\
    (90 <= 50 -> ~ confidence r < 90).
Proof.
  apply (conflict_rule (measured 30 2 90) (verdict "EXCELLENT" 90) 90).
  - reflexivity.
  - vm_compute. discriminate.
  - reflexivity.
  - reflexivity.
  - split; vm_compute; discriminate.
Defined.

(** The older variant has no agreement boost: below its conflict threshold
    a GOOD verdict keeps the remote's confidence, rounded to one decimal. *)
Lemma goodui_agreement (l : LocalMetrics) (g : dict) (c : Q) (s : string) :
  GoodUI.local_bad_score l <= 15 ->
  dict_lookup g "condition_category" = Some (PStr "GOOD") ->
  dict_lookup g "confidence_score" = Some (PNum c) ->
  dict_get g "detailed_analysis" (PStr "AI analysis completed") = PStr s ->
  exists r,
    GoodUI.combine_analysis_results (Some g) l = Some r /\
    GoodUI.confidence r = Py.round c 1 /\
    c - (1 # 20) <= GoodUI.confidence r <= c + (1 # 20).
Proof.
  intros Hscore Hcat Hconf Hdesc.
  unfold GoodUI.combine_analysis_results, GoodUI.make_final_decision_gemini_priority.
  rewrite (truthy_lookup _ _ _ Hcat).
  rewrite (dict_get_lookup _ _ _ _ Hcat), (dict_get_lookup _ _ _ _ Hconf).
  rewrite Hdesc, (ltb_false _ _ Hscore).
  cbn [table_get bind as_num andb GoodUI.shorten].
  eexists. split; [reflexivity |]. split; [reflexivity |].
  cbn [GoodUI.confidence]. apply round1_near.
Qed.

(** C2, as stated, fails on goodUI.py, whose agreement branch the claim
    cites too: there the remote's confidence is kept as it is, so on a clean
    image a GOOD verdict of confidence 100 is answered with 100, above the
    cap of 95. *)
Lemma agreement_no_cap_counterexample :
  exists r,
    GoodUI.combine_analysis_results (Some (verdict "GOOD" 100)) (measured 0 0 90)
      = Some r /\
    ~ GoodUI.confidence r <= 95.
Proof.
  eexists. split; [vm_compute; reflexivity |]. vm_compute. intros H. apply H. reflexivity.
Qed.

(** C2 (amended): with defect percentages whose badness score does not reach
    the conflict threshold and a remote GOOD verdict of confidence [c] in
    [0,100].  In advance_Fruit-Detection.py the fused confidence is
    [min(c + 5, 95)], the sum taken in floats, rounded to one decimal: at
    least the remote's confidence capped at 95, and never above 95.  In
    goodUI.py there is no boost and no cap: the fused confidence is [c]
    rounded to one decimal, within a twentieth of [c]. *)
Theorem agreement_rule (l : LocalMetrics) (g : dict) (c : Q) (s : string) :
  local_bad_score l <= 20 ->
  GoodUI.local_bad_score l <= 15 ->
  dict_lookup g "condition_category" = Some (PStr "GOOD") ->
  dict_lookup g "confidence_score" = Some (PNum c) ->
  dict_get g "detailed_analysis" (PStr "AI analysis completed") = PStr s ->
  0 <= c <= 100 ->
  (exists r,
     combine_analysis_results (Some g) l = Some r /\
     confidence r == Py.round (Py.min (Py.fadd c 5) 95) 1 /\
     Py.min c 95 <= confidence r /\
     confidence r <= 95 /\
     (c <= 95 -> c <= confidence r)) /\
  (exists r,
     GoodUI.combine_analysis_results (Some g) l = Some r /\
     GoodUI.confidence r = Py.round c 1 /\
     c - (1 # 20) <= GoodUI.confidence r <= c + (1 # 20)).
Proof.
  intros Hscore Hscore' Hcat Hconf Hdesc Hc.
  split; [| exact (goodui_agreement l g c s Hscore' Hcat Hconf Hdesc)].
  destruct (combine_present g l _ _ Hcat Hconf) as (r & Hr & _ & Hcf & _).
  unfold adjusted_confidence in Hcf.
  rewrite (ltb_false _ _ Hscore) in Hcf.
  replace (in_strs (PStr "GOOD") ["BAD"; "POOR"]) with false in Hcf by reflexivity.
  rewrite andb_false_r in Hcf. cbn [andb] in Hcf.
  exists r. split; [exact Hr |]. rewrite Hcf. split; [reflexivity |].
  pose proof (boost_ge c Hc) as Hb.
  destruct (min_spec (Py.fadd c 5) 95) as (M1 & M2 & M3).
  destruct (min_spec c 95) as (N1 & N2 & N3).
  assert (Hcap : Py.round (Py.min (Py.fadd c 5) 95) 1 <= 95).
  { apply (round_le_int _ 1 95). exact M2. }
  assert (Hge : c <= 95 -> c <= Py.round (Py.min (Py.fadd c 5) 95) 1).
  { intros Hle. destruct (Qlt_le_dec (Py.fadd c 5) 95) as [Lo | Hi].
    - pose proof (round1_near (Py.min (Py.fadd c 5) 95)) as [N _].
      pose proof (min_l (Py.fadd c 5) 95). lra.
    - assert (E : Py.round (Py.min (Py.fadd c 5) 95) 1 == 95).
      { rewrite (round_comp _ 95) by (apply min_r; lra). apply (round_int 95). }
      lra. }
  split; [| split; [exact Hcap | exact Hge]].
  destruct (Qlt_le_dec 95 c) as [Hi | Lo].
  - assert (E : Py.round (Py.min (Py.fadd c 5) 95) 1 == 95).
    { rewrite (round_comp _ 95) by (apply min_r; lra). apply (round_int 95). }
    lra.
  - specialize (Hge Lo). lra.
Qed.

(** C2 at a remote confidence of 88 and half a percent of brown rot: 93 in
    the newer variant, 88 in the older one. *)
Lemma agreement_rule_witness :
  (exists r,
     combine_analysis_results (Some (verdict "GOOD" 88)) (measured (1 # 2) 0 90)
       = Some r /\
     confidence r == Py.round (Py.min (Py.fadd 88 5) 95) 1 /\
     Py.min 88 95 <= confidence r /\
     confidence r <= 95 /\
     (88 <= 95 -> 88 <= confidence r)) /\
  (exists r,
     GoodUI.combine_analysis_results (Some (verdict "GOOD" 88)) (measured (1 # 2) 0 90)
       = Some r /\
     GoodUI.confidence r = Py.round 88 1 /\
     88 - (1 # 20) <= GoodUI.confidence r <= 88 + (1 # 20)).
Proof.
  apply (agreement_rule (measured (1 # 2) 0 90) (verdict "GOOD" 88) 88
           "AI analysis completed").
  - vm_compute. discriminate.
  - vm_compute. discriminate.
  - reflexivity.
  - reflexivity.
  - reflexivity.
  - split; vm_compute; discriminate.
Defined.

(** C3, as stated, fails: on a clean image and a remote BAD verdict of
    confidence 40 the fused confidence is 60, the floor of
    [max(ai_confidence - 10, 60)], which exceeds the remote's confidence. *)
Lemma negative_verdict_floor_counterexample :
  exists r,
    combine_analysis_results (Some (verdict "BAD" 40)) (measured 0 0 90) = Some r /\
    condition r = "🚫 BAD CONDITION - DO NOT CONSUME" /\
    ~ confidence r <= 40.
Proof.
  eexists. split; [vm_compute; reflexivity |]. split; [reflexivity |].
  vm_compute. intros H. apply H. reflexivity.
Qed.

(** C3 (amended): with a local badness score below 5 (the float value of
    [brown * 2.5 + black * 3.5], as the code compares it) and a remote BAD or
    POOR verdict of confidence [c] in [0,100], the fused condition is the
    display condition of the remote's category, and the fused confidence is
    [max(c - 10, 60)] rounded to one decimal: never under the floor 60, and
    not above [c] whenever [c] is at least that floor. *)
Theorem negative_verdict_rule (l : LocalMetrics) (g : dict) (cat : string) (c : Q) :
  local_bad_score l < 5 ->
  cat = "BAD" \/ cat = "POOR" ->
  dict_lookup g "condition_category" = Some (PStr cat) ->
  dict_lookup g "confidence_score" = Some (PNum c) ->
  0 <= c <= 100 ->
  exists r,
    combine_analysis_results (Some g) l = Some r /\
    table_lookup condition_mapping cat = Some (condition r) /\
    condition r <> CONFLICTING /\
    confidence r == Py.round (Py.max (c - 10) 60) 1 /\
    60 <= confidence r /\
    (60 <= c -> confidence r <= c) /\
    (c < 60 -> ~ confidence r <= c).
Proof.
  intros Hscore Hcat Hlk Hconf Hc.
  destruct (combine_present g l _ _ Hlk Hconf) as (r & Hr & Hcond & Hcf & _).
  unfold adjusted_condition in Hcond. unfold adjusted_confidence in Hcf.
  assert (Hnot : Py.ltb 20 (local_bad_score l) = false) by (apply ltb_false; lra).
  rewrite Hnot in Hcond, Hcf. rewrite (ltb_true _ _ Hscore) in Hcf.
  exists r. split; [exact Hr |].
  assert (Hcf' : confidence r = Py.round (Py.max (c - 10) 60) 1).
  { destruct Hcat; subst cat; exact Hcf. }
  split; [destruct Hcat; subst cat; rewrite Hcond; reflexivity |].
  split; [destruct Hcat; subst cat; rewrite Hcond; discriminate |].
  rewrite Hcf'. split; [reflexivity |].
  destruct (max_spec (c - 10) 60) as (M1 & M2 & M3).
  assert (Hfloor : 60 <= Py.round (Py.max (c - 10) 60) 1).
  { apply (round_ge_int _ 1 60). exact M2. }
  split; [exact Hfloor |]. split.
  - intros Hge.
    destruct (Qlt_le_dec (c - 10) 60) as [Lo | Hi].
    + assert (E : Py.round (Py.max (c - 10) 60) 1 == 60).
      { rewrite (round_comp _ 60) by (apply max_r; lra). apply (round_int 60). }
      lra.
    + pose proof (round1_near (Py.max (c - 10) 60)) as [_ N].
      pose proof (max_l (c - 10) 60 Hi). lra.
  - intros Hlt. lra.
Qed.

(** C3 at a remote POOR verdict of confidence 85: the fused confidence is 75. *)
Lemma negative_verdict_rule_witness :
  exists r,
    combine_analysis_results (Some (verdict "POOR" 85)) (measured 1 0 90) = Some r /\
    table_lookup condition_mapping "POOR" = Some (condition r) /\
    condition r <> CONFLICTING /\
    confidence r == Py.round (Py.max (85 - 10) 60) 1 /\
    60 <= confidence r /\
    (60 <= 85 -> confidence r <= 85) /\
    (85 < 60 -> ~ confidence r <= 85).
Proof.
  apply (negative_verdict_rule (measured 1 0 90) (verdict "POOR" 85) "POOR" 85).
  - vm_compute. reflexivity.
  - right. reflexivity.
  - reflexivity.
  - reflexivity.
  - split; vm_compute; discriminate.
Defined.

(** C4: without a remote verdict, measurements with no brown rot, no black
    spots and a freshness of 90 fall in the top band of the ladder: the
    condition is the EXCELLENT one (not BAD, POOR or FAIR) with that band's
    fixed confidence 80. *)
Theorem local_only_excellent (l : LocalMetrics) :
  brown_rot_percentage l == 0 ->
  black_spots_percentage l == 0 ->
  freshness_score l == 90 ->
  exists r,
    combine_analysis_results None l = Some r /\
    condition r = "🌟 EXCELLENT CONDITION - PREMIUM QUALITY" /\
    confidence r == 80 /\
    gemini_analysis r = None.
Proof.
  intros Hbrown Hblack Hfresh.
  unfold combine_analysis_results. cbn [truthy].
  assert (Hs : local_bad_score_fallback l == 0).
  { unfold local_bad_score_fallback, Py.fadd, Py.fmul.
    assert (E1 : Py.fl (brown_rot_percentage l * 3) == 0).
    { rewrite (fl_comp _ 0) by (rewrite Hbrown; reflexivity). apply fl_0. }
    assert (E2 : Py.fl (black_spots_percentage l * 4) == 0).
    { rewrite (fl_comp _ 0) by (rewrite Hblack; reflexivity). apply fl_0. }
    rewrite (fl_comp _ 0) by lra. apply fl_0. }
  rewrite (ltb_false 25), (ltb_false _ 30), (ltb_false 15), (ltb_false _ 50),
    (ltb_false 8), (ltb_false _ 70), (ltb_true 85), (ltb_true _ 3) by lra.
  cbn [orb andb].
  eexists. split; [reflexivity |]. cbn [condition confidence gemini_analysis].
  split; [reflexivity |]. split; [| reflexivity].
  apply (round_int 80).
Qed.

(** C4 at the measurements of the claim. *)
Lemma local_only_excellent_witness :
  exists r,
    combine_analysis_results None (measured 0 0 90) = Some r /\
    condition r = "🌟 EXCELLENT CONDITION - PREMIUM QUALITY" /\
    confidence r == 80 /\
    gemini_analysis r = None.
Proof.
  apply (local_only_excellent (measured 0 0 90)); reflexivity.
Defined.

(** ** The keyword fallback classifier *)

Section Classifier.

Lemma lower_ascii_idem (c : ascii) : lower_ascii (lower_ascii c) = lower_ascii c.
Proof.
  destruct c as [[] [] [] [] [] [] [] []]; reflexivity.
Qed.

(** A prefix stays a prefix under [lower]. *)
Lemma prefix_lower (sub s : string) :
  String.prefix sub s = true -> String.prefix (lower sub) (lower s) = true.
Proof.
  revert s. induction sub as [| a sub IH]; intros s H; [destruct s; reflexivity |].
  destruct s as [| b s]; [discriminate |].
  cbn in H |- *.
  destruct (ascii_dec a b) as [-> | NE]; [| discriminate].
  destruct (ascii_dec (lower_ascii b) (lower_ascii b)) as [_ | NE]; [| congruence].
  apply IH. exact H.
Qed.

Lemma contains_lower (sub s : string) :
  contains sub s = true -> contains (lower sub) (lower s) = true.
Proof.
  induction s as [| b s IH]; intros H.
  - change (contains sub EmptyString)
      with (String.prefix sub EmptyString || false) in H.
    rewrite orb_false_r in H.
    change (contains (lower sub) (lower EmptyString))
      with (String.prefix (lower sub) (lower EmptyString) || false).
    rewrite (prefix_lower _ _ H). reflexivity.
  - change (contains sub (String b s))
      with (String.prefix sub (String b s) || contains sub s) in H.
    change (contains (lower sub) (lower (String b s)))
      with (String.prefix (lower sub) (lower (String b s)) || contains (lower sub) (lower s)).
    apply orb_true_iff in H as [H | H].
    + rewrite (prefix_lower _ _ H). reflexivity.
    + rewrite (IH H). apply orb_true_r.
Qed.

(** A keyword written in lower case that occurs in the text occurs in the
    lowered text. *)
Lemma keyword_survives_lower (keyword text : string) :
  lower keyword = keyword ->
  contains keyword text = true -> contains keyword (lower text) = true.
Proof.
  intros E H. rewrite <- E. apply contains_lower. exact H.
Qed.

Lemma any_in_intro (keywords : list string) (keyword text : string) :
  In keyword keywords -> contains keyword text = true ->
  any_in keywords text = true.
Proof.
  intros Hin H. unfold any_in. apply existsb_exists. exists keyword. auto.
Qed.

(** The loop returns the first set of the table that matches: the sets
    before it do not, whatever the later ones do. *)
Lemma first_match_app (before after : list (string * list string))
  (cond : string) (keywords : list string) (text : string) :
  (forall c k, In (c, k) before -> any_in k text = false) ->
  any_in keywords text = true ->
  Advance.first_match (before ++ (cond, keywords) :: after) text = Some cond.
Proof.
  induction before as [| [c k] before IH]; intros Hb Hm; cbn.
  - rewrite Hm. reflexivity.
  - rewrite (Hb c k) by (left; reflexivity).
    apply IH; [| exact Hm]. intros c' k' Hin. apply (Hb c' k'). right. exact Hin.
Qed.

Lemma first_match_none (conds : list (string * list string)) (text : string) :
  (forall c k, In (c, k) conds -> any_in k text = false) ->
  Advance.first_match conds text = None.
Proof.
  induction conds as [| [c k] conds IH]; intros H; cbn; [reflexivity |].
  rewrite (H c k) by (left; reflexivity).
  apply IH. intros c' k' Hin. apply (H c' k'). right. exact Hin.
Qed.

End Classifier.

Section ClassifierLower.

Lemma plain_lower (keyword : string) : plain keyword = true -> lower keyword = keyword.
Proof.
  unfold plain. induction keyword as [| a k IH]; cbn; [reflexivity |].
  intros H. apply andb_true_iff in H as [Ha Hk]. rewrite (IH Hk). f_equal.
  unfold lower_ascii.
  destruct ((65 <=? N_of_ascii a) && (N_of_ascii a <=? 90))%N eqn:E; [| reflexivity].
  exfalso. apply andb_true_iff in E as [E1 E2].
  apply N.leb_le in E1. apply N.leb_le in E2.
  apply orb_true_iff in Ha as [Ha | Ha].
  - apply N.ltb_lt in Ha. lia.
  - apply andb_true_iff in Ha as [Ha _]. apply N.ltb_lt in Ha. lia.
Qed.

(** The lower-case form on ASCII texts keeps the laws. *)
Lemma sample_unicode_laws : UnicodeLaws Sample.unicode.
Proof.
  constructor; unfold str_lower, Sample.unicode.
  - intros keyword text Hp H. apply keyword_survives_lower; [apply plain_lower, Hp | exact H].
  - intros text1 text2 H. exact H.
Qed.

End ClassifierLower.

Section ClassifierFacts.

Context {u : Unicode}.

(** What the classifier answers once the loop has stopped at a category. *)
Lemma fallback_matched (text cond : string) :
  Advance.first_match Advance.conditions (str_lower text) = Some cond ->
  let r := Advance.create_fallback_analysis text in
  dict_lookup r "condition_category" = Some (PStr cond) /\
  dict_lookup r "confidence_score" =
    Some (PNum (if existsb (String.eqb cond) ["FAIR"; "POOR"] then 70 else 85)) /\
  dict_lookup r "prevention_tips" =
    Some (PList (Advance.orelse (table_lookup Advance.fallback_tips cond)
                   Advance.fallback_tips_default)) /\
  dict_lookup r "action_required" =
    Some (PStr (Advance.orelse (table_lookup Advance.actions cond) "check manually")).
Proof.
  intros H. unfold Advance.create_fallback_analysis. rewrite H.
  repeat split; reflexivity.
Qed.

(** First match wins: a category whose keywords occur in the text, none of
    the categories before it in the table matching, is the answer, with the
    confidence and tips fixed for that category. *)
Lemma fallback_first_match_wins
  (before after : list (string * list string)) (cond : string)
  (keywords : list string) (text : string) :
  Advance.conditions = before ++ (cond, keywords) :: after ->
  (forall c k, In (c, k) before -> any_in k (str_lower text) = false) ->
  any_in keywords (str_lower text) = true ->
  let r := Advance.create_fallback_analysis text in
  dict_lookup r "condition_category" = Some (PStr cond) /\
  dict_lookup r "confidence_score" =
    Some (PNum (if existsb (String.eqb cond) ["FAIR"; "POOR"] then 70 else 85)) /\
  dict_lookup r "prevention_tips" =
    Some (PList (Advance.orelse (table_lookup Advance.fallback_tips cond)
                   Advance.fallback_tips_default)).
Proof.
  intros Htable Hbefore Hmatch.
  assert (H : Advance.first_match Advance.conditions (str_lower text) = Some cond).
  { rewrite Htable. apply first_match_app; assumption. }
  destruct (fallback_matched text cond H) as (H1 & H2 & H3 & _).
  repeat split; assumption.
Qed.

(** The chain of tests of the older classifier is a first match as well. *)
Lemma goodui_first_match (text : string) :
  dict_lookup (GoodUI.create_fallback_analysis text) "condition_category" =
  Some (PStr (Advance.orelse
                (Advance.first_match goodui_keyword_chain (str_lower text)) "POOR")).
Proof.
  unfold GoodUI.create_fallback_analysis, goodui_keyword_chain. cbv zeta.
  cbn [Advance.first_match].
  repeat match goal with
         | |- context [any_in ?k ?t] => destruct (any_in k t)
         end; reflexivity.
Qed.

End ClassifierFacts.

Section ClassifierExample.

#[local] Existing Instance Sample.unicode.

(** C6, as stated, fails on advance_Fruit-Detection.py: on a text with both
    words the category is BAD, but the action is "discard immediately", not
    "discard"; "discard" is the action of goodUI.py. *)
Lemma fallback_action_counterexample :
  let text := "The skin is moldy and the fruit is unsafe." in
  dict_lookup (Advance.create_fallback_analysis text) "condition_category"
    = Some (PStr "BAD") /\
  dict_lookup (Advance.create_fallback_analysis text) "action_required"
    <> Some (PStr "discard") /\
  dict_lookup (GoodUI.create_fallback_analysis text) "action_required"
    = Some (PStr "discard").
Proof.
  cbv zeta. split; [vm_compute; reflexivity |]. split; [| vm_compute; reflexivity].
  vm_compute. discriminate.
Qed.

End ClassifierExample.

(** C6 (amended): a response text that contains "moldy" and "unsafe" is
    classified BAD in both variants, with the confidence 85 and the tips of
    that category; the action is "discard immediately" in
    advance_Fruit-Detection.py and "discard" in goodUI.py.  In both the
    keyword sets are tried on the lower-case form of the text in a fixed
    order, BAD first, and the first set with a keyword in the text decides:
    in the order of the table in the newer variant, each category with its
    fixed confidence and tips, and in the order of the chain of tests in the
    older one, where a text without any keyword is POOR. *)
Theorem fallback_moldy_unsafe {u : Unicode} {laws : UnicodeLaws u} (text : string) :
  contains "moldy" text = true ->
  contains "unsafe" text = true ->
  (let r := Advance.create_fallback_analysis text in
   dict_lookup r "condition_category" = Some (PStr "BAD") /\
   dict_lookup r "action_required" = Some (PStr "discard immediately") /\
   dict_lookup r "confidence_score" = Some (PNum 85) /\
   dict_lookup r "prevention_tips" =
     Some (PList [ "Store fruits in cool, dry place"; "Check daily for spoilage";
                   "Remove bad fruits immediately"; "Improve air circulation";
                   "Use within optimal timeframe" ])) /\
  (let r := GoodUI.create_fallback_analysis text in
   dict_lookup r "condition_category" = Some (PStr "BAD") /\
   dict_lookup r "action_required" = Some (PStr "discard") /\
   dict_lookup r "confidence_score" = Some (PNum 85) /\
   dict_lookup r "prevention_tips" =
     Some (PList [ "Store in cool, dry place"; "Check fruits regularly";
                   "Remove damaged fruits immediately" ])) /\
  (exists keywords rest, Advance.conditions = ("BAD", keywords) :: rest) /\
  (exists keywords rest, goodui_keyword_chain = ("BAD", keywords) :: rest) /\
  (forall before after cond keywords other,
     Advance.conditions = before ++ (cond, keywords) :: after ->
     (forall c k, In (c, k) before -> any_in k (str_lower other) = false) ->
     any_in keywords (str_lower other) = true ->
     let r := Advance.create_fallback_analysis other in
     dict_lookup r "condition_category" = Some (PStr cond) /\
     dict_lookup r "confidence_score" =
       Some (PNum (if existsb (String.eqb cond) ["FAIR"; "POOR"] then 70 else 85)) /\
     dict_lookup r "prevention_tips" =
       Some (PList (Advance.orelse (table_lookup Advance.fallback_tips cond)
                      Advance.fallback_tips_default))) /\
  (forall before after cond keywords other,
     goodui_keyword_chain = before ++ (cond, keywords) :: after ->
     (forall c k, In (c, k) before -> any_in k (str_lower other) = false) ->
     any_in keywords (str_lower other) = true ->
     dict_lookup (GoodUI.create_fallback_analysis other) "condition_category"
       = Some (PStr cond)) /\
  (forall other,
     (forall c k, In (c, k) goodui_keyword_chain -> any_in k (str_lower other) = false) ->
     dict_lookup (GoodUI.create_fallback_analysis other) "condition_category"
       = Some (PStr "POOR")).
Proof.
  intros Hmoldy Hunsafe.
  apply lower_keeps_keywords in Hmoldy; [| reflexivity].
  apply lower_keeps_keywords in Hunsafe; [| reflexivity].
  split; [| split; [| split; [| split; [| split; [| split]]]]].
  - assert (H : Advance.first_match Advance.conditions (str_lower text) = Some "BAD").
    { apply (first_match_app [] _ "BAD").
      - intros c k [].
      - apply (any_in_intro _ "moldy"); [cbn; tauto | exact Hmoldy]. }
    destruct (fallback_matched text "BAD" H) as (H1 & H2 & H3 & H4).
    repeat split; assumption.
  - unfold GoodUI.create_fallback_analysis.
    rewrite (any_in_intro _ "unsafe" (str_lower text)); [| cbn; tauto | exact Hunsafe].
    repeat split; reflexivity.
  - eexists. eexists. reflexivity.
  - eexists. eexists. reflexivity.
  - intros before after cond keywords other. apply fallback_first_match_wins.
  - intros before after cond keywords other Htable Hbefore Hmatch.
    rewrite goodui_first_match, Htable.
    rewrite (first_match_app before after cond keywords _ Hbefore Hmatch). reflexivity.
  - intros other Hnone. rewrite goodui_first_match.
    rewrite (first_match_none _ _ Hnone). reflexivity.
Qed.

Section ClassifierWitness.

#[local] Existing Instance Sample.unicode.

(** C6 on a sentence with both words. *)
Lemma fallback_moldy_unsafe_witness :
  (let r := Advance.create_fallback_analysis "The skin is moldy and the fruit is unsafe." in
   dict_lookup r "condition_category" = Some (PStr "BAD") /\
   dict_lookup r "action_required" = Some (PStr "discard immediately")) /\
  (let r := GoodUI.create_fallback_analysis "The skin is moldy and the fruit is unsafe." in
   dict_lookup r "condition_category" = Some (PStr "BAD") /\
   dict_lookup r "action_required" = Some (PStr "discard")).
Proof.
  destruct (fallback_moldy_unsafe (laws := sample_unicode_laws)
              "The skin is moldy and the fruit is unsafe.")
    as ((H1 & H2 & _) & (G1 & G2 & _) & _); [reflexivity | reflexivity |].
  split; split; assumption.
Defined.

End ClassifierWitness.

(** C10: a response text in whose lower-case form no keyword of any
    category occurs falls in the default bucket: FAIR with confidence 60, the
    action "use within 2-3 days", the assessment "likely safe", and the
    generic tips list, the tips table having no entry for FAIR. *)
Theorem fallback_default_bucket {u : Unicode} (text : string) :
  (forall cond keywords,
     In (cond, keywords) Advance.conditions ->
     any_in keywords (str_lower text) = false) ->
  let r := Advance.create_fallback_analysis text in
  dict_lookup r "condition_category" = Some (PStr "FAIR") /\
  dict_lookup r "confidence_score" = Some (PNum 60) /\
  dict_lookup r "action_required" = Some (PStr "use within 2-3 days") /\
  dict_lookup r "safety_assessment" = Some (PStr "likely safe") /\
  dict_lookup r "prevention_tips" = Some (PList Advance.fallback_tips_default) /\
  table_lookup Advance.fallback_tips "FAIR" = None.
Proof.
  intros Hnone.
  unfold Advance.create_fallback_analysis.
  rewrite (first_match_none _ _ Hnone).
  repeat split; reflexivity.
Qed.

Section DefaultBucketWitness.

#[local] Existing Instance Sample.unicode.

(** C10 on a sentence without any keyword. *)
Lemma fallback_default_bucket_witness :
  let r := Advance.create_fallback_analysis "An apple on a wooden table." in
  dict_lookup r "condition_category" = Some (PStr "FAIR") /\
  dict_lookup r "confidence_score" = Some (PNum 60) /\
  dict_lookup r "action_required" = Some (PStr "use within 2-3 days") /\
  dict_lookup r "safety_assessment" = Some (PStr "likely safe") /\
  dict_lookup r "prevention_tips" = Some (PList Advance.fallback_tips_default) /\
  table_lookup Advance.fallback_tips "FAIR" = None.
Proof.
  apply (fallback_default_bucket "An apple on a wooden table.").
  intros cond keywords Hin.
  cbn in Hin.
  repeat (destruct Hin as [Hin | Hin]; [inversion Hin; subst; reflexivity |]).
  destruct Hin.
Defined.

End DefaultBucketWitness.
(** ** The local analysis *)

Section NumFacts.

Lemma div_some (a b : Q) : ~ b == 0 -> Py.div a b = Some (a / b).
Proof.
  intros H. unfold Py.div. destruct (Qeq_bool b 0) eqn:E; [| reflexivity].
  apply Qeq_bool_eq in E. contradiction.
Qed.

Lemma min_100_range (x : Q) : 0 <= x -> 0 <= Py.min 100 x <= 100.
Proof.
  intros H. destruct (min_spec 100 x) as (M1 & M2 & [E | E]); rewrite E; lra.
Qed.

Lemma round_range (x : Q) (n : nat) : 0 <= x <= 100 -> 0 <= Py.round x n <= 100.
Proof.
  intros [H0 H1]. split.
  - apply (round_ge_int x n 0). exact H0.
  - apply (round_le_int x n 100). exact H1.
Qed.

Lemma round_nonneg (x : Q) (n : nat) : 0 <= x -> 0 <= Py.round x n.
Proof. intros H. apply (round_ge_int x n 0). exact H. Qed.

Lemma sum_nonneg (l : list Q) : Forall (fun x => 0 <= x) l -> 0 <= np.sum l.
Proof.
  unfold np.sum. induction 1 as [| x l Hx _ IH]; cbn [fold_right]; lra.
Qed.

Lemma mean_nonneg (l : list Q) : Forall (fun x => 0 <= x) l -> 0 <= np.mean l.
Proof.
  intros H. unfold np.mean. apply Qmult_le_0_compat; [apply sum_nonneg, H |].
  apply Qinv_le_0_compat. change 0 with (inject_Z 0). rewrite <- Zle_Qle. lia.
Qed.

Lemma var_nonneg (l : list Q) : 0 <= np.var l.
Proof.
  unfold np.var. apply mean_nonneg. apply Forall_map, Forall_forall.
  intros x _. generalize (x - np.mean l). intros y.
  destruct (Qlt_le_dec y 0) as [N | P].
  - setoid_replace (y * y) with ((- y) * (- y)) by ring.
    apply Qmult_le_0_compat; lra.
  - apply Qmult_le_0_compat; lra.
Qed.

(** The ratio of a count to a positive total. *)
Lemma ratio_range (count total : Z) :
  (0 <= count <= total)%Z -> (0 < total)%Z ->
  exists ratio,
    Py.div (inject_Z count) (inject_Z total) = Some ratio /\
    0 <= ratio <= 1.
Proof.
  intros Hc Ht.
  assert (Hpos : 0 < inject_Z total).
  { change 0 with (inject_Z 0). rewrite <- Zlt_Qlt. exact Ht. }
  exists (inject_Z count / inject_Z total). split.
  - apply div_some. lra.
  - assert (H0 : 0 <= inject_Z count).
    { change 0 with (inject_Z 0). rewrite <- Zle_Qle. lia. }
    assert (H1 : inject_Z count <= inject_Z total) by (rewrite <- Zle_Qle; lia).
    split.
    + apply Qle_shift_div_l; [exact Hpos | lra].
    + apply Qle_shift_div_r; [exact Hpos | lra].
Qed.

End NumFacts.

Section GridForall.

Context {A : Type}.

Lemma Forall2_diag (P : A -> Prop) (l : list A) :
  Forall2 (fun a _ => P a) l l -> Forall P l.
Proof.
  induction l as [| a l IH]; intros H; inversion H; subst; constructor; auto.
Qed.

Lemma Forall2_diag_grid (P : A -> Prop) (g : Grid A) :
  Forall2 (Forall2 (fun a _ => P a)) g g -> Forall P (gflat g).
Proof.
  unfold gflat. induction g as [| row g IH]; intros H; cbn; [constructor |].
  inversion H; subst. apply Forall_app. split; [apply Forall2_diag | apply IH]; assumption.
Qed.

(** A property of every place holds of every entry. *)
Lemma gflat_Forall (P : A -> Prop) (d : A) (g : Grid A) :
  (forall r c, inb g r c = true -> P (gget d g r c)) -> Forall P (gflat g).
Proof.
  intros H. apply Forall2_diag_grid.
  apply (grid_Forall2 (fun a _ => P a) g g d d eq_refl). exact H.
Qed.

End GridForall.

Lemma gflat_gtab_Forall {A B : Type} (P : B -> Prop) (f : Z -> Z -> B) (g : Grid A)
  (d : B) :
  (forall r c, P (f r c)) -> Forall P (gflat (gtab f g)).
Proof.
  intros H. apply (gflat_Forall P d). intros r c Hin.
  rewrite gget_gtab. rewrite (inb_shape _ g r c (shape_gtab f g)) in Hin.
  rewrite Hin. apply H.
Qed.

Lemma gflat_gmap_Forall {A B : Type} (P : B -> Prop) (f : A -> B) (g : Grid A) :
  (forall a, P (f a)) -> Forall P (gflat (gmap f g)).
Proof.
  intros H. unfold gflat, gmap. apply Forall_concat. apply Forall_map.
  apply Forall_forall. intros row _. apply Forall_map, Forall_forall. intros a _. apply H.
Qed.

Lemma gflat_gmap {A B : Type} (f : A -> B) (g : Grid A) :
  gflat (gmap f g) = map f (gflat g).
Proof. unfold gflat, gmap. symmetry. apply concat_map. Qed.

Lemma cvtColor_some {B : Type} (conversion : Image -> B) (image : Image) (h w : nat) :
  has_shape h w image -> (0 < h)%nat -> (0 < w)%nat ->
  cvtColor conversion image = Some (conversion image).
Proof.
  intros Hs Hh Hw. unfold cvtColor. rewrite (has_shape_size h w image Hs).
  destruct (h * w =? 0)%nat eqn:E; [| reflexivity].
  apply Nat.eqb_eq in E. nia.
Qed.

Lemma cvtColor_empty {B : Type} (conversion : Image -> B) (image : Image) :
  gsize image = 0%nat -> cvtColor conversion image = None.
Proof. intros H. unfold cvtColor. rewrite H. reflexivity. Qed.

Section LocalAnalysisFacts.

Context {cv : OpenCV} {laws : OpenCVLaws cv}.

Import Advance.

Lemma shape_brown_rot_mask (hsv lab : Image) :
  shape (brown_rot_mask hsv lab) = shape hsv.
Proof.
  unfold brown_rot_mask. cbv zeta. rewrite shape_close, shape_open.
  unfold cv2.bitwise_or. rewrite shape_gmap2. apply shape_gmap.
Qed.

Lemma shape_draw_significant (contours : list Contour) (m : Grid Z) :
  shape (draw_significant contours m) = shape m.
Proof.
  unfold draw_significant. revert m.
  induction contours as [| k ks IH]; intros m; cbn [fold_left]; [reflexivity |].
  rewrite IH. destruct (Py.ltb 20 (contourArea k)); [apply shape_gtab | reflexivity].
Qed.

Lemma shape_black_combined_mask (hsv : Image) (gray : Grid Z) :
  shape (black_combined_mask hsv gray) = shape hsv.
Proof.
  unfold black_combined_mask, cv2.bitwise_and. cbv zeta.
  rewrite shape_gmap2. apply shape_gmap.
Qed.

Lemma shape_black_spots_mask (hsv : Image) (gray : Grid Z) :
  shape (black_spots_mask hsv gray) = shape hsv.
Proof.
  unfold black_spots_mask. cbv zeta. rewrite shape_draw_significant.
  unfold cv2.zeros_like. rewrite shape_gmap, shape_open.
  apply shape_black_combined_mask.
Qed.

(** The share of a mask in an image of its shape is a percentage. *)
Lemma mask_percentage (mask : Grid Z) (img : Image) (h w : nat) :
  has_shape h w img -> (0 < h)%nat -> (0 < w)%nat -> shape mask = shape img ->
  exists ratio,
    Py.div (inject_Z (cv2.countNonZero mask))
           (inject_Z (Z.of_nat (rows img) * Z.of_nat (cols img))) = Some ratio /\
    0 <= ratio <= 1.
Proof.
  intros Hs Hh Hw E.
  pose proof (countNonZero_bounds mask) as Hc.
  rewrite (gsize_shape mask img E), (has_shape_size h w img Hs) in Hc.
  rewrite (has_shape_rows h w img Hs), (has_shape_cols h w img Hs Hh).
  apply ratio_range; nia.
Qed.

Lemma detect_brown_rot_range (hsv lab : Image) (h w : nat) :
  has_shape h w hsv -> (0 < h)%nat -> (0 < w)%nat ->
  exists p, detect_brown_rot_enhanced hsv lab = Some p /\ 0 <= p <= 100.
Proof.
  intros Hs Hh Hw. unfold detect_brown_rot_enhanced. cbv zeta.
  destruct (mask_percentage _ hsv h w Hs Hh Hw (shape_brown_rot_mask hsv lab))
    as (ratio & -> & Hr).
  cbn [bind]. eexists. split; [reflexivity |]. apply round_range. lra.
Qed.

Lemma detect_black_spots_range (hsv : Image) (gray : Grid Z) (h w : nat) :
  has_shape h w hsv -> (0 < h)%nat -> (0 < w)%nat ->
  exists p, detect_black_spots_enhanced hsv gray = Some p /\ 0 <= p <= 100.
Proof.
  intros Hs Hh Hw. unfold detect_black_spots_enhanced. cbv zeta.
  destruct (mask_percentage _ hsv h w Hs Hh Hw (shape_black_spots_mask hsv gray))
    as (ratio & -> & Hr).
  cbn [bind]. eexists. split; [reflexivity |]. apply round_range. lra.
Qed.

Lemma std_nonneg (l : list Q) : 0 <= np_std l.
Proof. apply sqrt_nonneg, var_nonneg. Qed.

Lemma color_uniformity_nonneg (image : Image) : 0 <= analyze_color_uniformity image.
Proof.
  unfold analyze_color_uniformity. cbv zeta. apply round_nonneg.
  pose proof (std_nonneg (np.of_plane (channel0 (cvtColor_BGR2LAB image)))).
  pose proof (std_nonneg (np.of_plane (channel1 (cvtColor_BGR2LAB image)))).
  pose proof (std_nonneg (np.of_plane (channel2 (cvtColor_BGR2LAB image)))).
  lra.
Qed.

Lemma texture_range (image : Image) : 0 <= analyze_texture_quality image <= 100.
Proof.
  unfold analyze_texture_quality. cbv zeta. apply round_range, min_100_range.
  pose proof (var_nonneg (gflat (Laplacian (cvtColor_BGR2GRAY image)))) as H1.
  assert (H2 : 0 <= np.mean (gflat (gmap2 0 0 (fun x y => sqrt (x * x + y * y))
                 (Sobel (cvtColor_BGR2GRAY image) 1 0)
                 (Sobel (cvtColor_BGR2GRAY image) 0 1)))).
  { apply mean_nonneg. unfold gmap2. apply (gflat_gtab_Forall _ _ _ 0).
    intros r c. apply sqrt_nonneg.
    assert (forall y : Q, 0 <= y * y).
    { intros y. destruct (Qlt_le_dec y 0).
      - setoid_replace (y * y) with ((- y) * (- y)) by ring.
        apply Qmult_le_0_compat; lra.
      - apply Qmult_le_0_compat; lra. }
    pose proof (H (gget 0 (Sobel (cvtColor_BGR2GRAY image) 1 0) r c)).
    pose proof (H (gget 0 (Sobel (cvtColor_BGR2GRAY image) 0 1) r c)).
    lra. }
  assert (H3 : 0 <= np.mean (gflat (np.abs
                 (filter2D (cvtColor_BGR2GRAY image) sharpen_kernel)))).
  { apply mean_nonneg. unfold np.abs. apply gflat_gmap_Forall.
    intros a. apply Qabs_nonneg. }
  lra.
Qed.

(** [max(contours, key=cv2.contourArea)] is a contour of the list, of the
    largest area. *)
Lemma largest_spec (k0 : Contour) (ks : list Contour) :
  In (largest k0 ks) (k0 :: ks) /\
  forall k, In k (k0 :: ks) -> contourArea k <= contourArea (largest k0 ks).
Proof.
  unfold largest. revert k0. induction ks as [| k1 ks IH]; intros k0; cbn [fold_left].
  - split; [left; reflexivity |]. intros k [<- | []]. lra.
  - destruct (Py.ltb (contourArea k0) (contourArea k1)) eqn:E.
    + destruct (IH k1) as [Hin Hmax]. split; [right; exact Hin |].
      apply ltb_iff in E.
      intros k [<- | Hk]; [| apply Hmax, Hk].
      specialize (Hmax k1 (or_introl eq_refl)). lra.
    + destruct (IH k0) as [Hin Hmax]. split.
      * destruct Hin as [Hin | Hin]; [left; exact Hin | right; right; exact Hin].
      * assert (Hle : contourArea k1 <= contourArea k0).
        { destruct (Qlt_le_dec (contourArea k0) (contourArea k1)) as [L | L];
            [| exact L].
          apply ltb_true in L. congruence. }
        intros k [<- | [<- | Hk]].
        -- apply Hmax. left; reflexivity.
        -- specialize (Hmax k0 (or_introl eq_refl)). lra.
        -- apply Hmax. right; exact Hk.
Qed.

Lemma blend_nonneg (area perimeter hull_area : Q) :
  0 <= area -> 0 < perimeter -> 0 <= blend area perimeter hull_area.
Proof.
  intros Ha Hp. unfold blend. cbv zeta.
  assert (Hpp : 0 < perimeter * perimeter) by nra.
  assert (Hpi : 0 < np.pi) by reflexivity.
  assert (H1 : 0 <= 4 * np.pi * area / (perimeter * perimeter)).
  { apply Qle_shift_div_l; [exact Hpp |]. nra. }
  assert (H2 : 0 <= (if Py.ltb 0 hull_area then area / hull_area else 0)).
  { destruct (Py.ltb 0 hull_area) eqn:E; [| lra].
    apply ltb_iff in E. apply Qle_shift_div_l; [exact E | lra]. }
  nra.
Qed.

(** [analyze_fruit_shape], from the contours on, never raises. *)
Lemma shape_of_contours_spec (contours : list Contour) :
  exists v,
    shape_of_contours contours = Some v /\
    match contours with
    | [] => v = 50
    | k0 :: ks =>
        let k := largest k0 ks in
        if Py.ltb 0 (arcLength k)
        then v = Py.min 100
                   (Py.round (blend (contourArea k) (arcLength k)
                                (contourArea (convexHull k))) 2)
        else v = 50
    end.
Proof.
  destruct contours as [| k0 ks]; [exists 50; split; reflexivity |].
  unfold shape_of_contours. cbv zeta.
  destruct (Py.ltb 0 (arcLength (largest k0 ks))) eqn:Ep;
    [| exists 50; split; reflexivity].
  apply ltb_iff in Ep.
  rewrite div_some by nra. cbn [bind].
  destruct (Py.ltb 0 (contourArea (convexHull (largest k0 ks)))) eqn:Eh.
  - pose proof (proj1 (ltb_iff _ _) Eh) as Eh'. rewrite div_some by lra. cbn [bind].
    eexists. split; [reflexivity |]. unfold blend. rewrite Eh. reflexivity.
  - cbn [bind]. eexists. split; [reflexivity |]. unfold blend. rewrite Eh. reflexivity.
Qed.

Lemma shape_of_contours_range (contours : list Contour) :
  exists v, shape_of_contours contours = Some v /\ 0 <= v <= 100.
Proof.
  destruct (shape_of_contours_spec contours) as (v & Hv & Hspec).
  exists v. split; [exact Hv |].
  destruct contours as [| k0 ks]; [subst v; lra |].
  cbv zeta in Hspec.
  destruct (Py.ltb 0 (arcLength (largest k0 ks))) eqn:Ep; [| subst v; lra].
  apply ltb_iff in Ep. subst v.
  apply min_100_range, round_nonneg, blend_nonneg; [apply area_nonneg | exact Ep].
Qed.

Lemma channel_nonneg (img : Image) (f : Pixel -> Z) :
  uint8_image img ->
  (forall p, uint8 p -> (0 <= f p)%Z) ->
  Forall (fun x => 0 <= x) (np.of_plane (gmap f img)).
Proof.
  intros Hu Hf. unfold np.of_plane. rewrite gflat_gmap.
  apply Forall_map, Forall_map.
  apply (gflat_Forall _ (0, 0, 0)%Z). intros r c _.
  change 0 with (inject_Z 0). rewrite <- Zle_Qle. apply Hf, Hu.
Qed.

Lemma freshness_range (hsv lab bgr : Image) (h w : nat) :
  uint8_image hsv -> uint8_image lab ->
  has_shape h w bgr -> (0 < h)%nat -> (0 < w)%nat ->
  exists f,
    calculate_freshness_score_enhanced hsv lab bgr = Some f /\ 0 <= f <= 100.
Proof.
  intros Hhsv Hlab Hs Hh Hw. unfold calculate_freshness_score_enhanced. cbv zeta.
  assert (Hb : 0 <= np.mean (np.of_plane (channel0 lab))).
  { apply mean_nonneg, channel_nonneg; [exact Hlab |].
    intros [[x y] z] U. cbn in U. lia. }
  assert (Hsat : 0 <= np.mean (np.of_plane (channel1 hsv))).
  { apply mean_nonneg, channel_nonneg; [exact Hhsv |].
    intros [[x y] z] U. cbn in U. lia. }
  pose proof (std_nonneg (np.of_plane (channel2 bgr))) as Hr.
  pose proof (std_nonneg (np.of_plane (channel1 bgr))) as Hg.
  pose proof (std_nonneg (np.of_plane (channel0 bgr))) as Hbl.
  set (edges := Canny (cvtColor_BGR2GRAY bgr)).
  assert (He : shape edges = shape bgr).
  { unfold edges. rewrite canny_shape. apply gray_shape. }
  pose proof (countNonZero_bounds edges) as Hc.
  assert (Hsize : gsize edges = (h * w)%nat).
  { rewrite (gsize_shape edges bgr He). apply has_shape_size, Hs. }
  destruct (ratio_range (cv2.countNonZero edges) (Z.of_nat (gsize edges)))
    as (ratio & -> & Hratio); [lia | nia |].
  cbn [bind]. eexists. split; [reflexivity |].
  pose proof (min_100_range
                (np.mean (np.of_plane (channel0 lab)) / 255 * 120)) as B.
  pose proof (min_100_range
                (np.mean (np.of_plane (channel1 hsv)) / 255 * 110)) as S.
  pose proof (min_100_range
                ((np_std (np.of_plane (channel2 bgr)) +
                  np_std (np.of_plane (channel1 bgr)) +
                  np_std (np.of_plane (channel0 bgr))) * (7 # 10))) as V.
  pose proof (min_100_range (ratio * 100 * 10)) as E.
  apply round_range.
  assert (0 <= np.mean (np.of_plane (channel0 lab)) / 255)
    by (apply Qle_shift_div_l; lra).
  assert (0 <= np.mean (np.of_plane (channel1 hsv)) / 255)
    by (apply Qle_shift_div_l; lra).
  assert (0 <= np.mean (np.of_plane (channel0 lab)) / 255 * 120) by lra.
  assert (0 <= np.mean (np.of_plane (channel1 hsv)) / 255 * 110) by lra.
  specialize (B ltac:(assumption)). specialize (S ltac:(assumption)).
  specialize (V ltac:(lra)). specialize (E ltac:(lra)).
  lra.
Qed.

End LocalAnalysisFacts.

(** C5: on every image of a non-zero area the local analysis succeeds, and
    the record it assembles has its two defect percentages, its texture
    score, its shape integrity and its freshness score within 0 and 100 and a
    colour variance that is not negative, whatever the height and the width
    of the image. *)
Theorem local_metrics_in_range {cv : OpenCV} {laws : OpenCVLaws cv}
  (image : Image) (h w : nat) :
  (0 < h)%nat -> (0 < w)%nat -> has_shape h w image ->
  exists m,
    Advance.perform_local_analysis image = Some m /\
    0 <= brown_rot_percentage m <= 100 /\
    0 <= black_spots_percentage m <= 100 /\
    0 <= texture_score m <= 100 /\
    0 <= shape_integrity m <= 100 /\
    0 <= freshness_score m <= 100 /\
    0 <= color_variance m.
Proof.
  intros Hh Hw Hs.
  assert (Hhsv : has_shape h w (cvtColor_BGR2HSV image)).
  { unfold has_shape. rewrite hsv_shape. exact Hs. }
  unfold Advance.perform_local_analysis. cbv zeta.
  destruct (detect_brown_rot_range (cvtColor_BGR2HSV image)
              (cvtColor_BGR2LAB image) h w Hhsv Hh Hw) as (brown & -> & Hbrown).
  destruct (detect_black_spots_range (cvtColor_BGR2HSV image)
              (cvtColor_BGR2GRAY image) h w Hhsv Hh Hw) as (black & -> & Hblack).
  unfold Advance.analyze_fruit_shape. cbv zeta.
  rewrite (cvtColor_some _ image h w Hs Hh Hw). cbn [bind].
  destruct (shape_of_contours_range
              (findContours (adaptiveThreshold (GaussianBlur (cvtColor_BGR2GRAY image)))))
    as (si & -> & Hsi).
  destruct (freshness_range (cvtColor_BGR2HSV image) (cvtColor_BGR2LAB image) image
              h w (hsv_uint8 image) (lab_uint8 image) Hs Hh Hw) as (fr & -> & Hfr).
  cbn [bind]. eexists. split; [reflexivity |].
  cbn [brown_rot_percentage black_spots_percentage texture_score shape_integrity
       freshness_score color_variance].
  split; [exact Hbrown |]. split; [exact Hblack |].
  split; [apply texture_range |]. split; [exact Hsi |].
  split; [exact Hfr | apply color_uniformity_nonneg].
Qed.

(** The stand-in library keeps the laws. *)
Lemma u8_range (z : Z) : (0 <= Sample.u8 z <= 255)%Z.
Proof. unfold Sample.u8. lia. Qed.

Lemma sample_correlate_shape (kernel src : Grid Z) :
  shape (Sample.correlate kernel src) = shape src.
Proof. apply shape_gtab. Qed.

Lemma sample_laws : OpenCVLaws Sample.cv.
Proof.
  constructor;
    unfold cvtColor_BGR2HSV, cvtColor_BGR2LAB, cvtColor_BGR2GRAY, Canny, sqrt,
      contourArea, Contour, Sample.cv.
  - intros img. apply shape_gmap.
  - intros img. apply shape_gmap.
  - intros img. apply shape_gmap.
  - intros img r c. rewrite (gget_gmap _ (0, 0, 0)%Z).
    destruct (inb _ r c); [| unfold uint8; lia].
    destruct (gget (0, 0, 0)%Z img r c) as [[b g] x].
    unfold Sample.hsv_px. cbv zeta. cbn [uint8].
    repeat split; apply u8_range.
  - intros img r c. rewrite (gget_gmap _ (0, 0, 0)%Z).
    destruct (inb _ r c); [| unfold uint8; lia].
    destruct (gget (0, 0, 0)%Z img r c) as [[b g] x].
    unfold Sample.lab_px. cbn [uint8].
    repeat split; try apply u8_range; lia.
  - intros g. unfold Sample.edges_above. rewrite shape_gmap2.
    apply sample_correlate_shape.
  - intros x _. unfold Sample.root, Qle. cbn.
    pose proof (Z.sqrt_nonneg (Qnum x * 100000000 / Z.pos (Qden x))). lia.
  - intros k. unfold Sample.area. destruct k as [| p k]; [lra |].
    unfold Qle. cbn. lia.
Qed.

(** C5 on the image of a brown square, with the stand-in library. *)
Lemma local_metrics_in_range_witness :
  exists m,
    Advance.perform_local_analysis (cv := Sample.cv) Sample.brown_square = Some m /\
    0 <= brown_rot_percentage m <= 100 /\
    0 <= black_spots_percentage m <= 100 /\
    0 <= texture_score m <= 100 /\
    0 <= shape_integrity m <= 100 /\
    0 <= freshness_score m <= 100 /\
    0 <= color_variance m.
Proof.
  apply (local_metrics_in_range (laws := sample_laws) Sample.brown_square 13 13).
  - lia.
  - lia.
  - reflexivity.
Defined.

(** ** The shape-integrity detector *)

Section ShapeExample.

#[local] Existing Instance Sample.cv.

(** C9, as stated, fails: the score is rounded to two decimals before it is
    capped.  For the contour of a square of side 4, whose area, length and
    hull area are the polygon's (16, 16 and 16, as [cv2.contourArea],
    [cv2.arcLength] and [cv2.convexHull] give them), the circularity is pi/4
    and the convexity 1: the blend is 15 pi + 40 = 87.1238..., and the
    detector answers 87.12. *)
Lemma shape_score_rounded_counterexample :
  let square : Contour := [(0, 0); (4, 0); (4, 4); (0, 4)]%Z in
  contourArea square == 16 /\
  arcLength square == 16 /\
  contourArea (convexHull square) == 16 /\
  exists v,
    Advance.shape_of_contours [square] = Some v /\
    v == 8712 # 100 /\
    ~ v == Py.min 100 (Advance.blend 16 16 16).
Proof.
  cbv zeta.
  split; [vm_compute; reflexivity |].
  split; [vm_compute; reflexivity |].
  split; [vm_compute; reflexivity |].
  eexists.
  split; [vm_compute; reflexivity |].
  split; [vm_compute; reflexivity |].
  vm_compute. discriminate.
Qed.

End ShapeExample.

(** C9 (amended): on an image of a non-zero area the shape-integrity
    detector never raises.  Without a contour it answers the neutral 50;
    otherwise it takes the first contour of the largest area and, when its
    perimeter is positive, answers the blend
    (circularity * 0.6 + convexity * 0.4) * 100 rounded to two decimals and
    then capped at 100, where circularity is 4 pi area / perimeter^2 and
    convexity is area / hull area (0 when the hull area is not positive); a
    perimeter that is not positive gives 50.  An array without pixels is no
    image: the colour conversion raises on it. *)
Theorem shape_integrity_total {cv : OpenCV} (image : Image) (h w : nat) :
  (0 < h)%nat -> (0 < w)%nat -> has_shape h w image ->
  (exists v,
     Advance.analyze_fruit_shape image = Some v /\
     match findContours
             (adaptiveThreshold (GaussianBlur (cvtColor_BGR2GRAY image))) with
     | [] => v = 50
     | k0 :: ks =>
         let k := Advance.largest k0 ks in
         In k (k0 :: ks) /\
         (forall k', In k' (k0 :: ks) -> contourArea k' <= contourArea k) /\
         (0 < arcLength k ->
          v = Py.min 100
                (Py.round (Advance.blend (contourArea k) (arcLength k)
                             (contourArea (convexHull k))) 2)) /\
         (arcLength k <= 0 -> v = 50)
     end) /\
  (forall empty : Image, gsize empty = 0%nat -> Advance.analyze_fruit_shape empty = None).
Proof.
  intros Hh Hw Hs. split.
  - unfold Advance.analyze_fruit_shape. cbv zeta.
    rewrite (cvtColor_some _ image h w Hs Hh Hw). cbn [bind].
    destruct (shape_of_contours_spec
                (findContours (adaptiveThreshold (GaussianBlur (cvtColor_BGR2GRAY image)))))
      as (v & Hv & Hspec).
    exists v. split; [exact Hv |].
    destruct (findContours _) as [| k0 ks]; [exact Hspec |].
    cbv zeta in Hspec |- *.
    destruct (largest_spec k0 ks) as [Hin Hmax].
    split; [exact Hin |]. split; [exact Hmax |].
    destruct (Py.ltb 0 (arcLength (Advance.largest k0 ks))) eqn:E.
    + split; [intros _; exact Hspec |]. apply ltb_iff in E. intros H. lra.
    + split; [| intros _; exact Hspec].
      intros H. apply ltb_true in H. congruence.
  - intros empty He. unfold Advance.analyze_fruit_shape.
    rewrite (cvtColor_empty _ empty He). reflexivity.
Qed.

(** C9 on the image of a brown square, with the stand-in library, and on
    the array without rows. *)
Lemma shape_integrity_total_witness :
  (exists v, Advance.analyze_fruit_shape (cv := Sample.cv) Sample.brown_square = Some v) /\
  Advance.analyze_fruit_shape (cv := Sample.cv) [] = None.
Proof.
  destruct (shape_integrity_total (cv := Sample.cv) Sample.brown_square 13 13)
    as ((v & Hv & _) & Hempty); [lia | lia | reflexivity |].
  split; [exists v; exact Hv | apply Hempty; reflexivity].
Defined.
(** ** The overlay renderer *)

Section OverlayExample.

#[local] Existing Instance Sample.cv.

(** C7, as stated, fails.  On a white image with a brown square the
    renderer paints the whole square orange, its corner included, while the
    mask of the brown/rot detector, opened and closed with the 5 x 5
    ellipse, has lost that corner.  On an image with a band of dim pixels
    (value 40, grey level 22) the black-spot detector counts the band, and
    the renderer, whose dark band stops at the value 30, paints none of it
    red. *)
Lemma overlay_masks_differ_counterexample :
  (exists m r,
     Advance.perform_local_analysis Sample.brown_square = Some m /\
     Advance.combine_analysis_results None m = Some r /\
     gget (0, 0, 0)%Z (Advance.highlighted Sample.brown_square r) 4 4
       = Advance.ORANGE /\
     gget 0%Z (Advance.brown_rot_mask (cvtColor_BGR2HSV Sample.brown_square)
                 (cvtColor_BGR2LAB Sample.brown_square)) 4 4 = 0%Z) /\
  (exists m r,
     Advance.perform_local_analysis (Sample.dim_band 7) = Some m /\
     Advance.combine_analysis_results None m = Some r /\
     gget (0, 0, 0)%Z (Advance.highlighted (Sample.dim_band 7) r) 3 3
       = Sample.DIM /\
     gget 0%Z (Advance.black_spots_mask (cvtColor_BGR2HSV (Sample.dim_band 7))
                 (cvtColor_BGR2GRAY (Sample.dim_band 7))) 3 3 = 255%Z).
Proof.
  split.
  - eexists. eexists.
    split; [vm_compute; reflexivity |].
    split; [vm_compute; reflexivity |].
    split; vm_compute; reflexivity.
  - eexists. eexists.
    split; [vm_compute; reflexivity |].
    split; [vm_compute; reflexivity |].
    split; vm_compute; reflexivity.
Qed.

End OverlayExample.

Section Overlay.

Context {cv : OpenCV} {laws : OpenCVLaws cv}.

Lemma gget_paint (overlay : Image) (mask : Grid Z) (colour : Pixel) (r c : Z) :
  gget (0, 0, 0)%Z (Advance.paint overlay mask colour) r c =
  if inb overlay r c
  then (if (gget 0 mask r c >? 0)%Z then colour else gget (0, 0, 0)%Z overlay r c)
  else (0, 0, 0)%Z.
Proof. unfold Advance.paint. rewrite gget_gtab. reflexivity. Qed.

Lemma shape_paint (overlay : Image) (mask : Grid Z) (colour : Pixel) :
  shape (Advance.paint overlay mask colour) = shape overlay.
Proof. apply shape_gtab. Qed.

Lemma shape_paint_inb (overlay : Image) (mask : Grid Z) (colour : Pixel) (r c : Z) :
  inb (Advance.paint overlay mask colour) r c = inb overlay r c.
Proof. apply inb_shape, shape_paint. Qed.

(** A mask of the renderer at a place of the image. *)
Lemma overlay_mask_at (image : Image) (lo hi : Pixel) (r c : Z) :
  inb image r c = true ->
  (gget 0 (cv2.inRange (cvtColor_BGR2HSV image) lo hi) r c >? 0)%Z =
  cv2.in_range lo hi (gget (0, 0, 0)%Z (cvtColor_BGR2HSV image) r c).
Proof.
  intros Hin. rewrite gget_inRange.
  rewrite (inb_shape _ image r c (hsv_shape image)), Hin.
  destruct (cv2.in_range _ _ _); reflexivity.
Qed.

End Overlay.

(** C7 (amended): at every place of the image the renderer paints red where
    [black_spots_percentage] is positive and the HSV pixel lies in the band
    (0,0,0)..(180,255,30), else orange where [brown_rot_percentage] is
    positive and the HSV pixel lies in the band (8,50,20)..(20,255,200), the
    HSV band of the brown/rot detector, and leaves the pixel elsewhere; it
    then blends each channel as 0.6 original + 0.4 painted, to the nearest
    integer.  The dark band of the renderer lies within the HSV dark band of
    the black-spot detector. *)
Theorem overlay_rendering {cv : OpenCV} {laws : OpenCVLaws cv}
  (image : Image) (result : AnalysisResult) (r c : Z) :
  inb image r c = true ->
  let hsv := gget (0, 0, 0)%Z (cvtColor_BGR2HSV image) r c in
  let original := gget (0, 0, 0)%Z image r c in
  let painted := gget (0, 0, 0)%Z (Advance.highlighted image result) r c in
  painted =
    (if Py.ltb 0 (black_spots_percentage (local_analysis result)) &&
        cv2.in_range (0, 0, 0)%Z (180, 255, 30)%Z hsv
     then Advance.RED
     else if Py.ltb 0 (brown_rot_percentage (local_analysis result)) &&
             cv2.in_range Advance.brown_lower1 Advance.brown_upper1 hsv
     then Advance.ORANGE
     else original) /\
  gget (0, 0, 0)%Z (Advance.create_enhanced_analysis_overlay image result) r c =
    (let '(a0, a1, a2) := original in
     let '(b0, b1, b2) := painted in
     (cv2.saturate (inject_Z a0 * (6 # 10) + inject_Z b0 * (4 # 10) + 0),
      cv2.saturate (inject_Z a1 * (6 # 10) + inject_Z b1 * (4 # 10) + 0),
      cv2.saturate (inject_Z a2 * (6 # 10) + inject_Z b2 * (4 # 10) + 0))) /\
  (cv2.in_range (0, 0, 0)%Z (180, 255, 30)%Z hsv = true ->
   cv2.in_range Advance.black_lower Advance.black_upper hsv = true).
Proof.
  intros Hin hsv original painted. split; [| split].
  - subst painted. unfold Advance.highlighted. cbv zeta.
    unfold Advance.overlay_brown_mask, Advance.overlay_black_mask.
    destruct (Py.ltb 0 (brown_rot_percentage (local_analysis result)));
      destruct (Py.ltb 0 (black_spots_percentage (local_analysis result)));
      cbn [andb].
    + rewrite gget_paint, shape_paint_inb, Hin, overlay_mask_at by exact Hin.
      fold hsv. destruct (cv2.in_range _ _ hsv); [reflexivity |].
      rewrite gget_paint, Hin, overlay_mask_at by exact Hin. reflexivity.
    + rewrite gget_paint, Hin, overlay_mask_at by exact Hin. reflexivity.
    + rewrite gget_paint, Hin, overlay_mask_at by exact Hin. reflexivity.
    + reflexivity.
  - unfold Advance.create_enhanced_analysis_overlay, cv2.addWeighted. cbv zeta.
    rewrite gget_gmap2. pose proof Hin as Hin'. unfold Pixel in Hin'.
    rewrite Hin'. subst original painted.
    destruct (gget (0, 0, 0)%Z image r c) as [[a0 a1] a2].
    destruct (gget (0, 0, 0)%Z (Advance.highlighted image result) r c) as [[b0 b1] b2].
    reflexivity.
  - destruct hsv as [[h s] v]. unfold cv2.in_range, Advance.black_lower, Advance.black_upper.
    intros H. lia.
Qed.

(** C7 at a corner of the brown square: it is painted orange. *)
Lemma overlay_rendering_witness :
  gget (0, 0, 0)%Z
    (Advance.highlighted (cv := Sample.cv) Sample.brown_square
       (report (measured (2593 # 100) 0 70))) 4 4
  = Advance.ORANGE.
Proof.
  destruct (overlay_rendering (laws := sample_laws) Sample.brown_square
              (report (measured (2593 # 100) 0 70)) 4 4 eq_refl) as (H & _ & _).
  rewrite H. reflexivity.
Defined.

(** ** The dark mask of the black-spot detector *)

Section BlackSpots.

Context {cv : OpenCV}.

Import Advance.

(** The joined dark mask, entry by entry. *)
Lemma gget_black_combined (hsv : Image) (gray : Grid Z) (r c : Z) :
  shape gray = shape hsv ->
  gget 0%Z (black_combined_mask hsv gray) r c =
  if inb hsv r c
  then (if dark_pixel (gget (0, 0, 0)%Z hsv r c) (gget 0%Z gray r c)
        then 255%Z else 0%Z)
  else 0%Z.
Proof.
  intros E. unfold black_combined_mask. cbv zeta.
  rewrite gget_bitwise_and, gget_inRange, gget_threshold.
  rewrite (inb_shape (cv2.inRange hsv black_lower black_upper) hsv r c)
    by apply shape_gmap.
  rewrite (inb_shape gray hsv r c E).
  destruct (inb hsv r c); [| reflexivity].
  unfold dark_pixel.
  destruct (cv2.in_range black_lower black_upper _), (_ >? 30)%Z; reflexivity.
Qed.

Lemma binary_black_combined (hsv : Image) (gray : Grid Z) :
  binary (black_combined_mask hsv gray).
Proof.
  unfold black_combined_mask. cbv zeta.
  apply binary_and; [apply binary_inRange | apply binary_threshold].
Qed.

(** Turning pixels dark, the others kept, enlarges the joined mask. *)
Lemma black_combined_mono (hsv1 hsv2 : Image) (gray1 gray2 : Grid Z) :
  shape hsv2 = shape hsv1 -> shape gray1 = shape hsv1 -> shape gray2 = shape hsv1 ->
  (forall r c, inb hsv1 r c = true ->
     (gget (0, 0, 0)%Z hsv2 r c = gget (0, 0, 0)%Z hsv1 r c /\
      gget 0%Z gray2 r c = gget 0%Z gray1 r c) \/
     dark_pixel (gget (0, 0, 0)%Z hsv2 r c) (gget 0%Z gray2 r c) = true) ->
  mask_le (black_combined_mask hsv1 gray1) (black_combined_mask hsv2 gray2).
Proof.
  intros E2 Eg1 Eg2 H. split.
  - rewrite !shape_black_combined_mask. symmetry. exact E2.
  - intros r c.
    rewrite (gget_black_combined hsv1 gray1 r c Eg1).
    rewrite (gget_black_combined hsv2 gray2 r c) by congruence.
    rewrite (inb_shape hsv2 hsv1 r c E2).
    destruct (inb hsv1 r c) eqn:Hin; [| lia].
    destruct (H r c Hin) as [[-> ->] | ->].
    + lia.
    + destruct (dark_pixel _ _); lia.
Qed.

(** The joined dark mask grows through the opening too. *)
Lemma black_opened_mono (hsv1 hsv2 : Image) (gray1 gray2 : Grid Z) :
  shape hsv2 = shape hsv1 -> shape gray1 = shape hsv1 -> shape gray2 = shape hsv1 ->
  (forall r c, inb hsv1 r c = true ->
     (gget (0, 0, 0)%Z hsv2 r c = gget (0, 0, 0)%Z hsv1 r c /\
      gget 0%Z gray2 r c = gget 0%Z gray1 r c) \/
     dark_pixel (gget (0, 0, 0)%Z hsv2 r c) (gget 0%Z gray2 r c) = true) ->
  mask_le (cv2.morphologyEx_OPEN (black_combined_mask hsv1 gray1) cv2.MORPH_ELLIPSE_3x3)
          (cv2.morphologyEx_OPEN (black_combined_mask hsv2 gray2) cv2.MORPH_ELLIPSE_3x3).
Proof.
  intros E2 Eg1 Eg2 H. apply open_mono, black_combined_mono; assumption.
Qed.

End BlackSpots.

Lemma gget_gmap_same {A B : Type} (f : A -> B) (d : B) (d' : A)
  (g1 g2 : Grid A) (r c : Z) :
  shape g2 = shape g1 -> gget d' g2 r c = gget d' g1 r c ->
  gget d (gmap f g2) r c = gget d (gmap f g1) r c.
Proof.
  intros E H. rewrite !(gget_gmap d d'), (inb_shape g2 g1 r c E), H. reflexivity.
Qed.

(** ** Checking a property at every place of an image *)

Section Places.

Context {A : Type}.

Lemma at_every_place_spec (g : Grid A) (check : Z -> Z -> bool) (r c : Z) :
  at_every_place g check = true -> inb g r c = true -> check r c = true.
Proof.
  unfold at_every_place, inb. intros Hall Hin.
  apply andb_true_iff in Hin as [Hin Hlt]. apply andb_true_iff in Hin as [Hr Hc].
  apply Nat.ltb_lt in Hlt.
  rewrite forallb_forall in Hall.
  assert (Hrow : (Z.to_nat r < rows g)%nat).
  { unfold rows. rewrite <- (length_map (@Datatypes.length A) g).
    destruct (Nat.lt_ge_cases (Z.to_nat r) (Datatypes.length (shape g))) as [L | G];
      [exact L |].
    unfold shape in *. rewrite (nth_overflow _ _ G) in Hlt. lia. }
  specialize (Hall (Z.to_nat r)).
  rewrite forallb_forall in Hall.
  specialize (Hall ltac:(apply in_seq; lia) (Z.to_nat c) ltac:(apply in_seq; lia)).
  rewrite !Z2Nat.id in Hall by lia. exact Hall.
Qed.

End Places.

Lemma pixel_eqb_eq (p q : Pixel) : pixel_eqb p q = true -> p = q.
Proof.
  destruct p as [[a b] c], q as [[x y] z]. unfold pixel_eqb. intros H.
  apply andb_true_iff in H as [H H3]. apply andb_true_iff in H as [H1 H2].
  apply Z.eqb_eq in H1, H2, H3. congruence.
Qed.
(** * Further properties *)

(** ** The fusion with a remote verdict *)

Section FusionMore.


(** The result of the branch with a remote verdict, field by field, for a
    verdict whose category is a string and whose confidence is a number,
    given or by default. *)
Lemma combine_remote (g : dict) (l : LocalMetrics) (cat : string) (c : Q) :
  g <> [] ->
  dict_get g "condition_category" (PStr "FAIR") = PStr cat ->
  dict_get g "confidence_score" (PNum 50) = PNum c ->
  exists r,
    combine_analysis_results (Some g) l = Some r /\
    condition r = adjusted_condition (local_bad_score l) cat /\
    confidence r = Py.round (adjusted_confidence (local_bad_score l) cat c) 1 /\
    prevention_tips r =
      dict_get g "prevention_tips" (PList (get_default_prevention_tips (condition r))) /\
    action_required r =
      dict_get g "action_required" (PStr (get_default_action (condition r))) /\
    storage_advice r = dict_get g "storage_method" (PStr "Store in cool, dry place") /\
    local_analysis r = l /\
    gemini_analysis r = Some g.
Proof.
  intros Hne Hcat Hconf.
  unfold combine_analysis_results.
  destruct g as [| kv g']; [congruence |]. cbn [truthy].
  rewrite Hcat, Hconf.
  unfold adjusted_condition, adjusted_confidence.
  cbn [table_get bind as_num].
  destruct (Py.ltb 20 (local_bad_score l) && in_strs (PStr cat) ["EXCELLENT"; "GOOD"]).
  - eexists; repeat split.
  - destruct (Py.ltb (local_bad_score l) 5 && in_strs (PStr cat) ["BAD"; "POOR"]);
      eexists; repeat split.
Qed.

Lemma table_lookup_in {A : Type} (t : list (string * A)) (k : string) (v : A) :
  table_lookup t k = Some v -> In v (map snd t).
Proof.
  induction t as [| [k' v'] t IH]; cbn; [discriminate |].
  destruct (String.eqb k' k); intros H.
  - left. congruence.
  - right. apply IH, H.
Qed.

Lemma combine_local_only (g : option dict) (l : LocalMetrics) :
  g = None \/ g = Some [] ->
  exists r,
    combine_analysis_results g l = Some r /\
    gemini_analysis r = g /\ local_analysis r = l /\
    primary_source r = "Computer Vision Analysis" /\
    prevention_tips r = PList (get_default_prevention_tips (condition r)) /\
    action_required r = PStr (get_default_action (condition r)) /\
    let s := local_bad_score_fallback l in
    let f := freshness_score l in
    (condition r, confidence r) =
      if Py.ltb 25 s || Py.ltb f 30
      then ("🚫 BAD CONDITION - DO NOT CONSUME", Py.round 75 1)
      else if Py.ltb 15 s || Py.ltb f 50
      then ("⚠️ POOR CONDITION - USE IMMEDIATELY", Py.round 70 1)
      else if Py.ltb 8 s || Py.ltb f 70
      then ("⚠️ FAIR CONDITION - MONITOR CLOSELY", Py.round 65 1)
      else if Py.ltb 85 f && Py.ltb s 3
      then ("🌟 EXCELLENT CONDITION - PREMIUM QUALITY", Py.round 80 1)
      else ("✅ GOOD CONDITION - FRESH & HEALTHY", Py.round 75 1).
Proof.
  intros Hg.
  assert (Ht : truthy g = None) by (destruct Hg as [-> | ->]; reflexivity).
  unfold combine_analysis_results. rewrite Ht. cbv zeta.
  destruct (Py.ltb 25 (local_bad_score_fallback l) || Py.ltb (freshness_score l) 30);
    [eexists; repeat split |].
  destruct (Py.ltb 15 (local_bad_score_fallback l) || Py.ltb (freshness_score l) 50);
    [eexists; repeat split |].
  destruct (Py.ltb 8 (local_bad_score_fallback l) || Py.ltb (freshness_score l) 70);
    [eexists; repeat split |].
  destruct (Py.ltb 85 (freshness_score l) && Py.ltb (local_bad_score_fallback l) 3);
    eexists; repeat split.
Qed.

Lemma in_strs_app (v : pyval) (l1 l2 : list string) :
  in_strs v (l1 ++ l2) = in_strs v l1 || in_strs v l2.
Proof. destruct v; cbn; try reflexivity. apply existsb_app. Qed.

End FusionMore.

Import Advance.

(** X1: the local measurements weigh on an EXCELLENT, GOOD, BAD or POOR
    verdict only.  For every other category (FAIR, INSECT_DAMAGED, or one the
    table does not know) the fused condition is the display condition of the
    category, or the UNCLEAR label, and the fused confidence is
    [min(c + 5, 95)], the sum taken in floats, rounded to one decimal,
    whatever was measured. *)
Theorem fusion_neutral_category (g : dict) (l : LocalMetrics) (cat : string) (c : Q) :
  dict_lookup g "condition_category" = Some (PStr cat) ->
  dict_lookup g "confidence_score" = Some (PNum c) ->
  in_strs (PStr cat) ["EXCELLENT"; "GOOD"; "BAD"; "POOR"] = false ->
  exists r,
    combine_analysis_results (Some g) l = Some r /\
    condition r = orelse (table_lookup condition_mapping cat) UNCLEAR /\
    confidence r = Py.round (Py.min (Py.fadd c 5) 95) 1.
Proof.
  intros Hcat Hconf Hnot.
  destruct (combine_present g l cat c Hcat Hconf) as (r & Hr & Hcond & Hcf & _).
  change ["EXCELLENT"; "GOOD"; "BAD"; "POOR"]
    with (["EXCELLENT"; "GOOD"] ++ ["BAD"; "POOR"]) in Hnot.
  rewrite in_strs_app in Hnot. apply orb_false_iff in Hnot as [H1 H2].
  unfold adjusted_condition in Hcond. unfold adjusted_confidence in Hcf.
  rewrite H1, H2, !andb_false_r in *.
  exists r. split; [exact Hr |]. split; [| exact Hcf].
  rewrite Hcond. unfold orelse, UNCLEAR. reflexivity.
Qed.

(** X1 on an INSECT_DAMAGED verdict of confidence 90, over a rotten image. *)
Lemma fusion_neutral_category_witness :
  exists r,
    combine_analysis_results (Some (verdict "INSECT_DAMAGED" 90)) (measured 40 10 20)
      = Some r /\
    condition r = orelse (table_lookup condition_mapping "INSECT_DAMAGED") UNCLEAR /\
    confidence r = Py.round (Py.min (Py.fadd 90 5) 95) 1.
Proof.
  apply (fusion_neutral_category (verdict "INSECT_DAMAGED" 90) (measured 40 10 20)
           "INSECT_DAMAGED" 90); reflexivity.
Defined.

(** X2: a verdict that is not empty and has neither a category nor a
    confidence is read as FAIR with confidence 50: the fused result is the
    FAIR condition with confidence 55, whatever was measured. *)
Theorem fusion_missing_keys (g : dict) (l : LocalMetrics) :
  g <> [] ->
  dict_lookup g "condition_category" = None ->
  dict_lookup g "confidence_score" = None ->
  exists r,
    combine_analysis_results (Some g) l = Some r /\
    condition r = "⚠️ FAIR CONDITION - MONITOR CLOSELY" /\
    confidence r == 55.
Proof.
  intros Hne Hcat Hconf.
  destruct (combine_remote g l "FAIR" 50 Hne) as (r & Hr & Hcond & Hcf & _).
  - unfold dict_get. rewrite Hcat. reflexivity.
  - unfold dict_get. rewrite Hconf. reflexivity.
  - exists r. split; [exact Hr |].
    unfold adjusted_condition in Hcond. unfold adjusted_confidence in Hcf.
    change (in_strs (PStr "FAIR") ["EXCELLENT"; "GOOD"]) with false in Hcond, Hcf.
    change (in_strs (PStr "FAIR") ["BAD"; "POOR"]) with false in Hcond, Hcf.
    rewrite !andb_false_r in Hcf. rewrite !andb_false_r in Hcond.
    split; [rewrite Hcond; reflexivity |].
    rewrite Hcf. vm_compute. reflexivity.
Qed.

Lemma fusion_missing_keys_witness :
  exists r,
    combine_analysis_results (Some [("fruit_type", PStr "pear")]) (measured 40 10 20)
      = Some r /\
    condition r = "⚠️ FAIR CONDITION - MONITOR CLOSELY" /\
    confidence r == 55.
Proof.
  apply (fusion_missing_keys [("fruit_type", PStr "pear")] (measured 40 10 20));
    [discriminate | reflexivity | reflexivity].
Defined.

(** X3: with a remote verdict whose category is a string and whose
    confidence is a number between 0 and 100, the fusion answers with one of
    eight display conditions (the six of the table, the conflict label or the
    unclear label) and a confidence between 5 and 95: it never reports more
    than 95. *)
Theorem fusion_remote_range (g : dict) (l : LocalMetrics) (cat : string) (c : Q) :
  g <> [] ->
  dict_get g "condition_category" (PStr "FAIR") = PStr cat ->
  dict_get g "confidence_score" (PNum 50) = PNum c ->
  0 <= c <= 100 ->
  exists r,
    combine_analysis_results (Some g) l = Some r /\
    In (condition r) remote_conditions /\
    5 <= confidence r <= 95.
Proof.
  intros Hne Hcat Hconf Hc.
  destruct (combine_remote g l cat c Hne Hcat Hconf) as (r & Hr & Hcond & Hcf & _).
  exists r. split; [exact Hr |]. split.
  - rewrite Hcond. unfold adjusted_condition, remote_conditions.
    apply in_or_app.
    destruct (Py.ltb 20 (local_bad_score l) && in_strs (PStr cat) ["EXCELLENT"; "GOOD"]).
    + right. left. reflexivity.
    + destruct (table_lookup condition_mapping cat) as [s |] eqn:E.
      * left. apply (table_lookup_in _ cat). exact E.
      * right. right. left. reflexivity.
  - rewrite Hcf. unfold adjusted_confidence.
    pose proof (max_spec (c - 15) 50) as (A1 & A2 & A3).
    pose proof (max_spec (c - 10) 60) as (B1 & B2 & B3).
    pose proof (min_spec (Py.fadd c 5) 95) as (C1 & C2 & C3).
    assert (C4 : 5 <= Py.fadd c 5).
    { pose proof (fl_mono 5 (c + 5) ltac:(lra)) as M.
      rewrite (fl_int 5) in M by lia. exact M. }
    destruct (Py.ltb 20 (local_bad_score l) && in_strs (PStr cat) ["EXCELLENT"; "GOOD"]);
      [| destruct (Py.ltb (local_bad_score l) 5 && in_strs (PStr cat) ["BAD"; "POOR"])].
    + split; [apply (round_ge_int _ 1 5) | apply (round_le_int _ 1 95)];
        unfold inject_Z; destruct A3 as [E | E]; lra.
    + split; [apply (round_ge_int _ 1 5) | apply (round_le_int _ 1 95)];
        unfold inject_Z; destruct B3 as [E | E]; lra.
    + split; [apply (round_ge_int _ 1 5) | apply (round_le_int _ 1 95)];
        unfold inject_Z; destruct C3 as [E | E]; lra.
Qed.

Lemma fusion_remote_range_witness :
  exists r,
    combine_analysis_results (Some (verdict "GOOD" 100)) (measured 0 0 90) = Some r /\
    In (condition r) remote_conditions /\
    5 <= confidence r <= 95.
Proof.
  apply (fusion_remote_range (verdict "GOOD" 100) (measured 0 0 90) "GOOD" 100);
    [discriminate | reflexivity | reflexivity | lra].
Defined.

(** X4: a remote verdict whose confidence is not a number (a string, a list
    or null) or whose category is a list makes the fusion raise: every branch
    of the adjustment does arithmetic on the confidence, and a list cannot be
    looked up in the table of conditions. *)
Theorem fusion_type_error (g : dict) (l : LocalMetrics) :
  g <> [] ->
  (exists v, dict_lookup g "confidence_score" = Some v /\ as_num v = None) \/
  (exists tags, dict_lookup g "condition_category" = Some (PList tags)) ->
  combine_analysis_results (Some g) l = None.
Proof.
  intros Hne H. unfold combine_analysis_results.
  destruct g as [| kv g']; [congruence |]. cbn [truthy].
  destruct H as [(v & Hv & Hnum) | (tags & Ht)].
  - unfold dict_get. rewrite Hv.
    destruct (table_get condition_mapping _ _); [| reflexivity].
    destruct (table_get color_mapping _ _); [| reflexivity].
    cbn [bind]. rewrite Hnum. reflexivity.
  - unfold dict_get. rewrite Ht. reflexivity.
Qed.

Lemma fusion_type_error_witness :
  combine_analysis_results
    (Some [("condition_category", PStr "GOOD"); ("confidence_score", PStr "85")])
    (measured 0 0 90) = None.
Proof.
  apply (fusion_type_error
           [("condition_category", PStr "GOOD"); ("confidence_score", PStr "85")]
           (measured 0 0 90)); [discriminate |].
  left. exists (PStr "85"). split; reflexivity.
Defined.

(** X5: without a remote verdict, absent or empty, the fusion answers from
    the measurements alone with one of five bands: the display condition, the
    confidence (65, 70, 75 or 80) and the default tips and action of the
    band's key; the conflict label is never given. *)
Theorem local_only_ladder (g : option dict) (l : LocalMetrics) :
  g = None \/ g = Some [] ->
  exists r band,
    combine_analysis_results g l = Some r /\
    In band ladder_bands /\
    condition r = fst (fst band) /\
    confidence r == snd (fst band) /\
    prevention_tips r = PList (orelse (table_lookup default_tips (snd band)) []) /\
    action_required r = PStr (orelse (table_lookup default_actions (snd band)) "none") /\
    condition r <> CONFLICTING /\
    gemini_analysis r = g /\ local_analysis r = l.
Proof.
  intros Hg.
  destruct (combine_local_only g l Hg) as (r & Hr & Hgem & Hloc & _ & Htips & Hact & Hband).
  cbv zeta in Hband. exists r.
  destruct (Py.ltb 25 (local_bad_score_fallback l) || Py.ltb (freshness_score l) 30);
    [| destruct (Py.ltb 15 (local_bad_score_fallback l) || Py.ltb (freshness_score l) 50);
       [| destruct (Py.ltb 8 (local_bad_score_fallback l) || Py.ltb (freshness_score l) 70);
          [| destruct (Py.ltb 85 (freshness_score l) &&
                       Py.ltb (local_bad_score_fallback l) 3)]]];
    injection Hband as Hc Hf; rewrite Htips, Hact, Hc, Hf.
  - exists (nth 0 ladder_bands ("none", 0, "none")).
    split; [exact Hr |]. split; [cbn; tauto |].
    repeat split; try reflexivity; try discriminate; assumption.
  - exists (nth 1 ladder_bands ("none", 0, "none")).
    split; [exact Hr |]. split; [cbn; tauto |].
    repeat split; try reflexivity; try discriminate; assumption.
  - exists (nth 2 ladder_bands ("none", 0, "none")).
    split; [exact Hr |]. split; [cbn; tauto |].
    repeat split; try reflexivity; try discriminate; assumption.
  - exists (nth 3 ladder_bands ("none", 0, "none")).
    split; [exact Hr |]. split; [cbn; tauto |].
    repeat split; try reflexivity; try discriminate; assumption.
  - exists (nth 4 ladder_bands ("none", 0, "none")).
    split; [exact Hr |]. split; [cbn; tauto |].
    repeat split; try reflexivity; try discriminate; assumption.
Qed.

Lemma local_only_ladder_witness :
  exists r band,
    combine_analysis_results (Some []) (measured 3 1 60) = Some r /\
    In band ladder_bands /\
    condition r = fst (fst band) /\
    confidence r == snd (fst band) /\
    prevention_tips r = PList (orelse (table_lookup default_tips (snd band)) []) /\
    action_required r = PStr (orelse (table_lookup default_actions (snd band)) "none") /\
    condition r <> CONFLICTING /\
    gemini_analysis r = Some [] /\ local_analysis r = measured 3 1 60.
Proof.
  apply (local_only_ladder (Some []) (measured 3 1 60)). right. reflexivity.
Defined.

Section Ladder.

Lemma ltb_false_inv (a b : Q) : Py.ltb a b = false -> b <= a.
Proof.
  intros H. destruct (Qlt_le_dec a b) as [L | G]; [| exact G].
  rewrite (ltb_true _ _ L) in H. discriminate.
Qed.

End Ladder.

(** Every comparison of a hypothesis is decided, and replaced by the
    inequality it stands for. *)
Ltac decide_comparisons H :=
  repeat match type of H with
         | context [Py.ltb ?a ?b] =>
             let E := fresh "E" in
             destruct (Py.ltb a b) eqn:E;
             [apply ltb_iff in E | apply ltb_false_inv in E];
             cbn [orb andb] in H
         end.

(** X6: without a remote verdict the answer follows the measurements: of
    two images, the one with no less brown rot, no less black spots and no
    more freshness never gets the better band, the bands going from BAD over
    POOR, FAIR and GOOD to EXCELLENT. *)
Theorem local_only_monotone (l1 l2 : LocalMetrics) :
  brown_rot_percentage l1 <= brown_rot_percentage l2 ->
  black_spots_percentage l1 <= black_spots_percentage l2 ->
  freshness_score l2 <= freshness_score l1 ->
  exists r1 r2,
    combine_analysis_results None l1 = Some r1 /\
    combine_analysis_results None l2 = Some r2 /\
    (band_rank (condition r2) <= band_rank (condition r1))%nat.
Proof.
  intros Hbrown Hblack Hfresh.
  destruct (combine_local_only None l1 (or_introl eq_refl)) as (r1 & Hr1 & _ & _ & _ & _ & _ & H1).
  destruct (combine_local_only None l2 (or_introl eq_refl)) as (r2 & Hr2 & _ & _ & _ & _ & _ & H2).
  exists r1, r2. split; [exact Hr1 |]. split; [exact Hr2 |].
  cbv zeta in H1, H2.
  assert (Hs : local_bad_score_fallback l1 <= local_bad_score_fallback l2).
  { unfold local_bad_score_fallback.
    apply fadd_mono; apply fmul_mono; (assumption || lra). }
  decide_comparisons H1; injection H1 as -> _;
    decide_comparisons H2; injection H2 as -> _;
    first [ vm_compute; lia | exfalso; lra ].
Qed.

Lemma local_only_monotone_witness :
  exists r1 r2,
    combine_analysis_results None (measured 0 0 90) = Some r1 /\
    combine_analysis_results None (measured 2 1 60) = Some r2 /\
    (band_rank (condition r2) <= band_rank (condition r1))%nat.
Proof.
  apply (local_only_monotone (measured 0 0 90) (measured 2 1 60));
    cbn [brown_rot_percentage black_spots_percentage freshness_score measured]; lra.
Defined.

(** X7: the conflict label and the unclear label contain none of the keys
    of the tables of default advice.  So a result in conflict (a remote
    EXCELLENT or GOOD against a badness score above 20) whose verdict brings
    no tips and no action gets the tips of FAIR and the action "Monitor
    condition closely", and so does a verdict of a category the table of
    conditions does not know. *)
Theorem unmapped_label_default_advice (g : dict) (l : LocalMetrics) (cat : string) (c : Q) :
  dict_lookup g "condition_category" = Some (PStr cat) ->
  dict_lookup g "confidence_score" = Some (PNum c) ->
  dict_lookup g "prevention_tips" = None ->
  dict_lookup g "action_required" = None ->
  (20 < local_bad_score l /\ In cat ["EXCELLENT"; "GOOD"]) \/
  table_lookup condition_mapping cat = None ->
  exists r,
    combine_analysis_results (Some g) l = Some r /\
    In (condition r) [CONFLICTING; UNCLEAR] /\
    Some (prevention_tips r) = option_map PList (table_lookup default_tips "FAIR") /\
    action_required r = PStr "Monitor condition closely".
Proof.
  intros Hcat Hconf Htips Hact Hcase.
  assert (Hne : g <> []) by (intros ->; discriminate).
  destruct (combine_remote g l cat c Hne) as (r & Hr & Hcond & _ & Ht & Ha & _).
  - apply dict_get_lookup, Hcat.
  - apply dict_get_lookup, Hconf.
  - exists r. split; [exact Hr |].
    unfold dict_get in Ht, Ha. rewrite Htips in Ht. rewrite Hact in Ha.
    rewrite Ht, Ha, Hcond. unfold adjusted_condition.
    destruct Hcase as [[Hs Hin] | Hnone].
    + rewrite (ltb_true _ _ Hs).
      assert (Hb : in_strs (PStr cat) ["EXCELLENT"; "GOOD"] = true).
      { cbn in Hin. destruct Hin as [<- | [<- | []]]; reflexivity. }
      rewrite Hb. cbn [andb]. repeat split. left. reflexivity.
    + assert (Hb : in_strs (PStr cat) ["EXCELLENT"; "GOOD"] = false).
      { cbn [in_strs existsb]. unfold condition_mapping in Hnone.
        cbn [table_lookup] in Hnone.
        rewrite (String.eqb_sym cat "EXCELLENT"), (String.eqb_sym cat "GOOD").
        destruct (String.eqb "EXCELLENT" cat); [discriminate |].
        destruct (String.eqb "GOOD" cat); [discriminate |]. reflexivity. }
      rewrite Hb, andb_false_r, Hnone. repeat split. right. left. reflexivity.
Qed.

Lemma unmapped_label_default_advice_witness :
  exists r,
    combine_analysis_results (Some (verdict "GOOD" 90)) (measured 10 0 80) = Some r /\
    In (condition r) [CONFLICTING; UNCLEAR] /\
    Some (prevention_tips r) = option_map PList (table_lookup default_tips "FAIR") /\
    action_required r = PStr "Monitor condition closely".
Proof.
  apply (unmapped_label_default_advice (verdict "GOOD" 90) (measured 10 0 80) "GOOD" 90);
    try reflexivity.
  left. split; [reflexivity | right; left; reflexivity].
Defined.

(** X8: a verdict of a category of the table, not in conflict with the
    measurements, that brings no tips and no action gets the default tips and
    the default action of its own category, found by their key in the display
    condition: the key is the category, or INSECT for INSECT_DAMAGED. *)
Theorem mapped_label_default_advice (g : dict) (l : LocalMetrics) (cat : string) (c : Q) :
  dict_lookup g "condition_category" = Some (PStr cat) ->
  dict_lookup g "confidence_score" = Some (PNum c) ->
  dict_lookup g "prevention_tips" = None ->
  dict_lookup g "action_required" = None ->
  table_lookup condition_mapping cat <> None ->
  local_bad_score l <= 20 \/ ~ In cat ["EXCELLENT"; "GOOD"] ->
  exists r key tips action,
    combine_analysis_results (Some g) l = Some r /\
    String.prefix key cat = true /\
    table_lookup default_tips key = Some tips /\
    table_lookup default_actions key = Some action /\
    prevention_tips r = PList tips /\
    action_required r = PStr action.
Proof.
  intros Hcat Hconf Htips Hact Hmapped Hcase.
  assert (Hne : g <> []) by (intros ->; discriminate).
  destruct (combine_remote g l cat c Hne) as (r & Hr & Hcond & _ & Ht & Ha & _).
  - apply dict_get_lookup, Hcat.
  - apply dict_get_lookup, Hconf.
  - exists r.
    unfold dict_get in Ht, Ha. rewrite Htips in Ht. rewrite Hact in Ha.
    assert (Hb : Py.ltb 20 (local_bad_score l) &&
                 in_strs (PStr cat) ["EXCELLENT"; "GOOD"] = false).
    { destruct Hcase as [Hs | Hn].
      - rewrite (ltb_false _ _ Hs). reflexivity.
      - apply andb_false_iff. right. cbn [in_strs existsb].
        destruct (String.eqb cat "EXCELLENT") eqn:E1;
          [apply String.eqb_eq in E1; subst; exfalso; apply Hn; left; reflexivity |].
        destruct (String.eqb cat "GOOD") eqn:E2;
          [apply String.eqb_eq in E2; subst; exfalso; apply Hn; right; left; reflexivity |].
        reflexivity. }
    unfold adjusted_condition in Hcond. rewrite Hb in Hcond.
    rewrite Ht, Ha, Hcond. clear Hcond Ht Ha Hb Hcase.
    unfold condition_mapping in Hmapped |- *. cbn [table_lookup] in Hmapped |- *.
    destruct (String.eqb "EXCELLENT" cat) eqn:E1;
      [apply String.eqb_eq in E1; subst cat;
       exists "EXCELLENT"; do 2 eexists; (split; [exact Hr |]); repeat split; reflexivity |].
    destruct (String.eqb "GOOD" cat) eqn:E2;
      [apply String.eqb_eq in E2; subst cat;
       exists "GOOD"; do 2 eexists; (split; [exact Hr |]); repeat split; reflexivity |].
    destruct (String.eqb "FAIR" cat) eqn:E3;
      [apply String.eqb_eq in E3; subst cat;
       exists "FAIR"; do 2 eexists; (split; [exact Hr |]); repeat split; reflexivity |].
    destruct (String.eqb "POOR" cat) eqn:E4;
      [apply String.eqb_eq in E4; subst cat;
       exists "POOR"; do 2 eexists; (split; [exact Hr |]); repeat split; reflexivity |].
    destruct (String.eqb "BAD" cat) eqn:E5;
      [apply String.eqb_eq in E5; subst cat;
       exists "BAD"; do 2 eexists; (split; [exact Hr |]); repeat split; reflexivity |].
    destruct (String.eqb "INSECT_DAMAGED" cat) eqn:E6;
      [apply String.eqb_eq in E6; subst cat;
       exists "INSECT"; do 2 eexists; (split; [exact Hr |]); repeat split; reflexivity |].
    congruence.
Qed.

Lemma mapped_label_default_advice_witness :
  exists r key tips action,
    combine_analysis_results (Some (verdict "INSECT_DAMAGED" 80)) (measured 10 0 80)
      = Some r /\
    String.prefix key "INSECT_DAMAGED" = true /\
    table_lookup default_tips key = Some tips /\
    table_lookup default_actions key = Some action /\
    prevention_tips r = PList tips /\
    action_required r = PStr action.
Proof.
  apply (mapped_label_default_advice (verdict "INSECT_DAMAGED" 80) (measured 10 0 80)
           "INSECT_DAMAGED" 80); try reflexivity.
  - discriminate.
  - right. cbn. intros [H | [H | []]]; discriminate.
Defined.

(** ** The keyword classifier, and the fusion of its verdicts *)

Section ClassifierMore.

Context {u : Unicode}.

Lemma first_match_in (conds : list (string * list string)) (text cond : string) :
  first_match conds text = Some cond -> In cond (map fst conds).
Proof.
  induction conds as [| [c k] conds IH]; cbn; [discriminate |].
  destruct (any_in k text); intros H.
  - left. congruence.
  - right. apply IH, H.
Qed.

Lemma lower_idem (s : string) : lower (lower s) = lower s.
Proof.
  induction s as [| a s IH]; cbn; [reflexivity |].
  rewrite lower_ascii_idem, IH. reflexivity.
Qed.

(** The category and the confidence of the classifier, on every text. *)
Lemma fallback_cases (text : string) :
  exists cat c,
    In (cat, c) [ ("BAD", 85); ("INSECT_DAMAGED", 85); ("POOR", 70); ("FAIR", 70);
                  ("GOOD", 85); ("EXCELLENT", 85); ("FAIR", 60) ] /\
    create_fallback_analysis text =
      [ ("fruit_type", PStr "unknown fruit");
        ("condition_category", PStr cat);
        ("confidence_score", PNum c);
        ("detailed_analysis", PStr (String.append (take 200 text) "..."));
        ("defects_found", PList []);
        ("ripeness", PStr "unknown");
        ("freshness_score", PNum 50);
        ("recommendations",
         PStr (String.append "Based on visual analysis: "
                 (orelse (table_lookup actions cat) "monitor closely")));
        ("key_observations", PList ["AI analysis incomplete - based on limited data"]);
        ("safety_assessment",
         PStr (if existsb (String.eqb cat) ["BAD"; "POOR"]
               then "questionable" else "likely safe"));
        ("prevention_tips",
         PList (orelse (table_lookup fallback_tips cat) fallback_tips_default));
        ("storage_advice", PStr "Store properly based on fruit type");
        ("action_required",
         PStr (orelse (table_lookup actions cat) "check manually")) ].
Proof.
  unfold create_fallback_analysis. cbv zeta.
  destruct (first_match conditions (str_lower text)) as [cond |] eqn:E.
  - apply first_match_in in E. cbn in E.
    exists cond. eexists. split; [| reflexivity].
    destruct E as [<- | [<- | [<- | [<- | [<- | [<- | []]]]]]]; cbn; tauto.
  - exists "FAIR", 60. split; [cbn; tauto | reflexivity].
Qed.

End ClassifierMore.

(** X9: on every response text the keyword classifier answers with one of
    the six categories, a confidence of 60, 70 or 85 (85 for BAD,
    INSECT_DAMAGED, GOOD and EXCELLENT only), five prevention tips, the
    assessment "questionable" exactly for BAD and POOR, and the action of the
    category in the table of actions: the default "check manually" is never
    given. *)
Theorem fallback_verdict_invariants {u : Unicode} (text : string) :
  let v := create_fallback_analysis text in
  exists cat c tips action,
    dict_lookup v "condition_category" = Some (PStr cat) /\
    In cat (map fst conditions) /\
    dict_lookup v "confidence_score" = Some (PNum c) /\
    In c [60; 70; 85] /\
    (c = 85 <-> In cat ["BAD"; "INSECT_DAMAGED"; "GOOD"; "EXCELLENT"]) /\
    dict_lookup v "prevention_tips" = Some (PList tips) /\
    Datatypes.length tips = 5%nat /\
    (dict_lookup v "safety_assessment" = Some (PStr "questionable") <->
     In cat ["BAD"; "POOR"]) /\
    dict_lookup v "action_required" = Some (PStr action) /\
    table_lookup actions cat = Some action.
Proof.
  intros v. subst v.
  destruct (fallback_cases text) as (cat & c & Hin & ->).
  exists cat, c. cbn [dict_lookup String.eqb Ascii.eqb Bool.eqb].
  cbn in Hin.
  destruct Hin as [H | [H | [H | [H | [H | [H | [H | []]]]]]]];
    injection H as <- <-; cbn; do 2 eexists;
    repeat match goal with |- _ /\ _ => split end;
    try reflexivity; try tauto;
    split; intros H; try discriminate H; try tauto;
    repeat (destruct H as [H | H]; try discriminate H); contradiction.
Qed.

(** X10: the classifier reads its text up to the case of the letters: two
    texts that differ in the case of ASCII letters only get the same verdict,
    apart from the excerpt of the text kept under "detailed_analysis". *)
Theorem fallback_case_insensitive {u : Unicode} {laws : UnicodeLaws u}
  (text1 text2 key : string) :
  lower text1 = lower text2 ->
  key <> "detailed_analysis" ->
  dict_lookup (create_fallback_analysis text1) key =
  dict_lookup (create_fallback_analysis text2) key.
Proof.
  intros Hlow Hkey. apply lower_ascii_case in Hlow.
  unfold create_fallback_analysis. cbv zeta. rewrite Hlow.
  destruct (match first_match conditions (str_lower text2) with
            | Some cond =>
                (cond, if existsb (String.eqb cond) ["FAIR"; "POOR"] then 70 else 85)
            | None => ("FAIR", 60)
            end) as [cat c].
  cbn [dict_lookup].
  destruct (String.eqb "fruit_type" key); [reflexivity |].
  destruct (String.eqb "condition_category" key); [reflexivity |].
  destruct (String.eqb "confidence_score" key); [reflexivity |].
  destruct (String.eqb "detailed_analysis" key) eqn:E;
    [apply String.eqb_eq in E; congruence |].
  reflexivity.
Qed.

Lemma fallback_case_insensitive_witness :
  dict_lookup (create_fallback_analysis (u := Sample.unicode) "ROTTEN core")
    "condition_category" =
  dict_lookup (create_fallback_analysis (u := Sample.unicode) "rotten CORE")
    "condition_category".
Proof.
  apply (fallback_case_insensitive (laws := sample_unicode_laws)
           "ROTTEN core" "rotten CORE" "condition_category");
    [reflexivity | discriminate].
Defined.

(** X11: the fusion of a verdict of the keyword classifier never raises; it
    keeps the classifier's tips and action, gives a confidence of 60, 65, 70,
    75 or 90, describes the result by the first 200 characters of the text
    and "...", and, reading the storage advice under the key
    "storage_method" where the classifier wrote it under "storage_advice",
    falls back to "Store in cool, dry place". *)
Theorem fusion_of_fallback {u : Unicode} (text : string) (l : LocalMetrics) :
  let v := create_fallback_analysis text in
  exists r q,
    combine_analysis_results (Some v) l = Some r /\
    In q [60; 65; 70; 75; 90] /\ confidence r == q /\
    dict_lookup v "prevention_tips" = Some (prevention_tips r) /\
    dict_lookup v "action_required" = Some (action_required r) /\
    dict_lookup v "storage_advice" = Some (PStr "Store properly based on fruit type") /\
    storage_advice r = PStr "Store in cool, dry place" /\
    description r = PStr (String.append (take 200 text) "...").
Proof.
  intros v. subst v.
  destruct (fallback_cases text) as (cat & c & Hin & ->).
  match goal with
  | |- context [combine_analysis_results (Some ?d) l] => set (v := d)
  end.
  destruct (combine_remote v l cat c) as (r & Hr & _ & Hcf & Ht & Ha & Hs & _);
    [discriminate | reflexivity | reflexivity |].
  exists r.
  assert (Hd : description r = PStr (String.append (take 200 text) "...")).
  { unfold combine_analysis_results in Hr. cbn [truthy v] in Hr.
    unfold v in Hr. cbn [dict_get dict_lookup String.eqb Ascii.eqb Bool.eqb] in Hr.
    cbn [table_get bind as_num] in Hr.
    destruct (Py.ltb 20 (local_bad_score l) && in_strs (PStr cat) ["EXCELLENT"; "GOOD"]);
      [| destruct (Py.ltb (local_bad_score l) 5 && in_strs (PStr cat) ["BAD"; "POOR"])];
      injection Hr as <-; reflexivity. }
  assert (Hq : exists q, In q [60; 65; 70; 75; 90] /\ confidence r == q).
  { rewrite Hcf. unfold adjusted_confidence. cbn in Hin.
    destruct Hin as [H | [H | [H | [H | [H | [H | [H | []]]]]]]];
      injection H as <- <-; cbn [in_strs existsb String.eqb Ascii.eqb Bool.eqb orb];
      rewrite ?andb_false_r, ?andb_true_r;
      repeat match goal with
             | |- context [Py.ltb ?a ?b] => destruct (Py.ltb a b)
             end;
      first [ exists 60; split; [cbn; tauto | vm_compute; reflexivity] |
              exists 65; split; [cbn; tauto | vm_compute; reflexivity] |
              exists 70; split; [cbn; tauto | vm_compute; reflexivity] |
              exists 75; split; [cbn; tauto | vm_compute; reflexivity] |
              exists 90; split; [cbn; tauto | vm_compute; reflexivity] ]. }
  destruct Hq as (q & Hq1 & Hq2). exists q.
  split; [exact Hr |]. split; [exact Hq1 |]. split; [exact Hq2 |].
  rewrite Ht, Ha, Hs, Hd. repeat split.
Qed.

(** ** goodUI.py: the fusion and the keyword classifier *)

Section GoodUIFusion.

Lemma length_take (n : nat) (s : string) : (len (take n s) <= n)%nat.
Proof.
  revert n. induction s as [| a s IH]; intros n; cbn [take len]; [lia |].
  destruct (continuation a) eqn:E.
  - cbn [len]. rewrite E. apply IH.
  - destruct n as [| n]; cbn [len]; [lia |]. rewrite E. specialize (IH n). lia.
Qed.

Lemma length_append (s1 s2 : string) :
  len (String.append s1 s2) = (len s1 + len s2)%nat.
Proof.
  induction s1 as [| a s1 IH]; cbn [String.append len]; [reflexivity |].
  rewrite IH. destruct (continuation a); reflexivity.
Qed.

(** The branch of the older fusion with a remote verdict, field by field. *)
Lemma goodui_remote (g : dict) (l : LocalMetrics) (cat s : string) (c : Q) :
  g <> [] ->
  dict_get g "condition_category" (PStr "FAIR") = PStr cat ->
  dict_get g "confidence_score" (PNum 50) = PNum c ->
  dict_get g "detailed_analysis" (PStr "AI analysis completed") = PStr s ->
  exists r,
    GoodUI.combine_analysis_results (Some g) l = Some r /\
    GoodUI.condition r =
      Advance.orelse (table_lookup GoodUI.condition_mapping cat) "❓ UNCLEAR" /\
    GoodUI.confidence r =
      Py.round (if Py.ltb 15 (GoodUI.local_bad_score l) &&
                   in_strs (PStr cat) ["EXCELLENT"; "GOOD"]
                then Py.max (c - 10) 60 else c) 1 /\
    GoodUI.description r =
      PStr (if (200 <? len s)%nat
            then String.append (take 200 s) "..." else s) /\
    GoodUI.prevention_tips r = dict_get g "prevention_tips" (PList []) /\
    GoodUI.action_required r = dict_get g "action_required" (PStr "unknown") /\
    GoodUI.storage_advice r = dict_get g "storage_advice" (PStr EmptyString).
Proof.
  intros Hne Hcat Hconf Hdesc.
  unfold GoodUI.combine_analysis_results, GoodUI.make_final_decision_gemini_priority.
  destruct g as [| kv g']; [congruence |]. cbn [truthy].
  rewrite Hcat, Hconf, Hdesc.
  cbn [table_get bind as_num GoodUI.shorten].
  destruct (Py.ltb 15 (GoodUI.local_bad_score l) &&
            in_strs (PStr cat) ["EXCELLENT"; "GOOD"]);
    cbn [bind as_num]; eexists; repeat split.
Qed.

End GoodUIFusion.

(** X12: in the older variant the remote verdict has priority: whatever was
    measured, the condition is the one of the remote's category (there is no
    conflict label), and only the confidence of an EXCELLENT or GOOD verdict
    is touched, when the badness score (the float value of
    [brown * 2 + black * 3]) exceeds 15; the description is cut to at most
    203 characters. *)
Theorem goodui_remote_priority (g : dict) (l : LocalMetrics) (cat s : string) (c : Q) :
  g <> [] ->
  dict_get g "condition_category" (PStr "FAIR") = PStr cat ->
  dict_get g "confidence_score" (PNum 50) = PNum c ->
  dict_get g "detailed_analysis" (PStr "AI analysis completed") = PStr s ->
  exists r d,
    GoodUI.combine_analysis_results (Some g) l = Some r /\
    GoodUI.condition r =
      Advance.orelse (table_lookup GoodUI.condition_mapping cat) "❓ UNCLEAR" /\
    (GoodUI.local_bad_score l <= 15 \/ ~ In cat ["EXCELLENT"; "GOOD"] ->
     GoodUI.confidence r = Py.round c 1) /\
    (15 < GoodUI.local_bad_score l -> In cat ["EXCELLENT"; "GOOD"] ->
     GoodUI.confidence r = Py.round (Py.max (c - 10) 60) 1) /\
    GoodUI.description r = PStr d /\
    (len d <= 203)%nat.
Proof.
  intros Hne Hcat Hconf Hdesc.
  destruct (goodui_remote g l cat s c Hne Hcat Hconf Hdesc)
    as (r & Hr & Hcond & Hcf & Hd & _).
  exists r. eexists. split; [exact Hr |]. split; [exact Hcond |].
  assert (Hmem : in_strs (PStr cat) ["EXCELLENT"; "GOOD"] = true <->
                 In cat ["EXCELLENT"; "GOOD"]).
  { cbn [in_strs]. rewrite existsb_exists. split.
    - intros (x & Hx & E). apply String.eqb_eq in E. subst x. exact Hx.
    - intros H. exists cat. split; [exact H | apply String.eqb_refl]. }
  split; [| split; [| split; [exact Hd |]]].
  - intros [Hs | Hn]; rewrite Hcf.
    + rewrite (ltb_false _ _ Hs). reflexivity.
    + destruct (in_strs (PStr cat) ["EXCELLENT"; "GOOD"]) eqn:E.
      * exfalso. apply Hn, Hmem. reflexivity.
      * rewrite andb_false_r. reflexivity.
  - intros Hs Hin. rewrite Hcf, (ltb_true _ _ Hs), (proj2 Hmem Hin). reflexivity.
  - destruct (200 <? len s)%nat eqn:E.
    + apply Nat.ltb_lt in E. rewrite length_append.
      pose proof (length_take 200 s) as Ht. change (len "...") with 3%nat. lia.
    + apply Nat.ltb_ge in E. lia.
Qed.

Lemma goodui_remote_priority_witness :
  exists r d,
    GoodUI.combine_analysis_results
      (Some (verdict "POOR" 80)) (measured 40 10 20) = Some r /\
    GoodUI.condition r =
      Advance.orelse (table_lookup GoodUI.condition_mapping "POOR") "❓ UNCLEAR" /\
    (GoodUI.local_bad_score (measured 40 10 20) <= 15 \/
     ~ In "POOR" ["EXCELLENT"; "GOOD"] ->
     GoodUI.confidence r = Py.round 80 1) /\
    (15 < GoodUI.local_bad_score (measured 40 10 20) ->
     In "POOR" ["EXCELLENT"; "GOOD"] ->
     GoodUI.confidence r = Py.round (Py.max (80 - 10) 60) 1) /\
    GoodUI.description r = PStr d /\
    (len d <= 203)%nat.
Proof.
  apply (goodui_remote_priority (verdict "POOR" 80) (measured 40 10 20) "POOR"
           "AI analysis completed" 80); [discriminate | reflexivity ..].
Defined.



(** X14: the older fusion of a verdict of the older keyword classifier
    never raises; the category is one of the six of the table, the
    confidence is 60, 70, 75, 80, 85 or 90, the full text of the response is
    cut to at most 203 characters, and, both sides using the key
    "storage_advice", the classifier's storage advice is kept. *)
Theorem goodui_fusion_of_fallback {u : Unicode} (text : string) (l : LocalMetrics) :
  let v := GoodUI.create_fallback_analysis text in
  exists r cat q d,
    GoodUI.combine_analysis_results (Some v) l = Some r /\
    dict_lookup v "condition_category" = Some (PStr cat) /\
    table_lookup GoodUI.condition_mapping cat = Some (GoodUI.condition r) /\
    In q [60; 70; 75; 80; 85; 90] /\ GoodUI.confidence r == q /\
    GoodUI.description r = PStr d /\
    (len d <= 203)%nat /\
    dict_lookup v "prevention_tips" = Some (GoodUI.prevention_tips r) /\
    dict_lookup v "action_required" = Some (GoodUI.action_required r) /\
    GoodUI.storage_advice r = PStr "Store properly".
Proof.
  intros v.
  assert (Hv : exists cat c, In (cat, c)
                 [ ("BAD", 85); ("INSECT_DAMAGED", 80); ("EXCELLENT", 90);
                   ("GOOD", 85); ("FAIR", 70); ("POOR", 60) ] /\
               dict_get v "condition_category" (PStr "FAIR") = PStr cat /\
               dict_get v "confidence_score" (PNum 50) = PNum c /\
               dict_get v "detailed_analysis" (PStr "AI analysis completed") = PStr text /\
               dict_lookup v "condition_category" = Some (PStr cat) /\
               dict_lookup v "prevention_tips" =
                 Some (dict_get v "prevention_tips" (PList [])) /\
               dict_lookup v "action_required" =
                 Some (dict_get v "action_required" (PStr "unknown")) /\
               dict_get v "storage_advice" (PStr EmptyString) = PStr "Store properly" /\
               v <> []).
  { subst v. unfold GoodUI.create_fallback_analysis. cbv zeta.
    repeat match goal with
           | |- context [any_in ?k ?t] => destruct (any_in k t)
           end;
      do 2 eexists; (split; [| repeat split; try reflexivity; discriminate]);
      cbn; tauto. }
  destruct Hv as (cat & c & Hin & Hcat & Hconf & Hdesc & Hc & Ht & Ha & Hs & Hne).
  destruct (goodui_remote v l cat text c Hne Hcat Hconf Hdesc)
    as (r & Hr & Hcond & Hcf & Hd & Htips & Hact & Hsto).
  exists r, cat.
  assert (Hq : exists q, In q [60; 70; 75; 80; 85; 90] /\ GoodUI.confidence r == q).
  { rewrite Hcf. clear - Hin. cbn in Hin.
    destruct Hin as [H | [H | [H | [H | [H | [H | []]]]]]];
      injection H as <- <-; cbn [in_strs existsb String.eqb Ascii.eqb Bool.eqb orb];
      rewrite ?andb_false_r, ?andb_true_r;
      repeat match goal with
             | |- context [Py.ltb ?a ?b] => destruct (Py.ltb a b)
             end;
      first [ exists 60; split; [cbn; tauto | vm_compute; reflexivity] |
              exists 70; split; [cbn; tauto | vm_compute; reflexivity] |
              exists 75; split; [cbn; tauto | vm_compute; reflexivity] |
              exists 80; split; [cbn; tauto | vm_compute; reflexivity] |
              exists 85; split; [cbn; tauto | vm_compute; reflexivity] |
              exists 90; split; [cbn; tauto | vm_compute; reflexivity] ]. }
  destruct Hq as (q & Hq1 & Hq2). exists q. eexists.
  split; [exact Hr |]. split; [exact Hc |].
  split.
  { rewrite Hcond. clear - Hin. cbn in Hin.
    destruct Hin as [H | [H | [H | [H | [H | [H | []]]]]]];
      injection H as <- _; reflexivity. }
  split; [exact Hq1 |]. split; [exact Hq2 |]. split; [exact Hd |].
  split.
  { destruct (200 <? len text)%nat eqn:E.
    - rewrite length_append. pose proof (length_take 200 text). change (len "...") with 3%nat. lia.
    - apply Nat.ltb_ge in E. lia. }
  rewrite Htips, Hact, Hsto. repeat split; assumption.
Qed.

(** ** The detectors *)

Section MorphologyMore.

Lemma close_mono (m1 m2 k : Grid Z) :
  mask_le m1 m2 -> mask_le (cv2.morphologyEx_CLOSE m1 k) (cv2.morphologyEx_CLOSE m2 k).
Proof.
  intros L. unfold cv2.morphologyEx_CLOSE. apply erode_mono, dilate_mono, L.
Qed.

Lemma binary_close (m k : Grid Z) : binary m -> binary (cv2.morphologyEx_CLOSE m k).
Proof. intros Hb. apply binary_erode, binary_dilate, Hb. Qed.

Lemma shape_or (m1 m2 : Grid Z) : shape (cv2.bitwise_or m1 m2) = shape m1.
Proof. unfold cv2.bitwise_or. apply shape_gmap2. Qed.

Lemma binary_or (m1 m2 : Grid Z) :
  binary m1 -> binary m2 -> binary (cv2.bitwise_or m1 m2).
Proof.
  intros H1 H2 r c. rewrite gget_bitwise_or.
  destruct (inb m1 r c); [| left; reflexivity].
  destruct (H1 r c) as [-> | ->], (H2 r c) as [-> | ->]; cbn; auto.
Qed.

Lemma fold_max_ge {P : Type} (f : P -> Z) (l : list P) (d : Z) (p : P) :
  In p l -> (f p <= fold_right Z.max d (map f l))%Z.
Proof.
  induction l as [| q l IH]; cbn; [contradiction |].
  intros [-> | H]; [lia |]. specialize (IH H). lia.
Qed.

Lemma fold_min_le {P : Type} (f : P -> Z) (l : list P) (d : Z) (p : P) :
  In p l -> (fold_right Z.min d (map f l) <= f p)%Z.
Proof.
  induction l as [| q l IH]; cbn; [contradiction |].
  intros [-> | H]; [lia |]. specialize (IH H). lia.
Qed.

Lemma fold_min_ge {P : Type} (f : P -> Z) (l : list P) (d b : Z) :
  (forall p, In p l -> (b <= f p)%Z) -> (b <= d)%Z ->
  (b <= fold_right Z.min d (map f l))%Z.
Proof.
  intros H Hd. induction l as [| q l IH]; cbn; [exact Hd |].
  pose proof (H q (or_introl eq_refl)).
  assert (b <= fold_right Z.min d (map f l))%Z by (apply IH; intros; apply H; right; auto).
  lia.
Qed.

Lemma fold_max_le {P : Type} (f : P -> Z) (l : list P) (d b : Z) :
  (forall p, In p l -> (f p <= b)%Z) -> (d <= b)%Z ->
  (fold_right Z.max d (map f l) <= b)%Z.
Proof.
  intros H Hd. induction l as [| q l IH]; cbn; [exact Hd |].
  pose proof (H q (or_introl eq_refl)).
  assert (fold_right Z.max d (map f l) <= b)%Z by (apply IH; intros; apply H; right; auto).
  lia.
Qed.

(** With a kernel that has, with every offset, the opposite one, the closing
    gives back at least the mask. *)
Lemma close_extensive (m k : Grid Z) :
  binary m ->
  (forall dr dc, In (dr, dc) (cv2.offsets k) -> In (- dr, - dc)%Z (cv2.offsets k)) ->
  mask_le m (cv2.morphologyEx_CLOSE m k).
Proof.
  intros Hb Hsym. split; [symmetry; apply shape_close |].
  intros r c. unfold cv2.morphologyEx_CLOSE, cv2.erode. rewrite gget_gtab.
  rewrite (inb_shape _ m r c (shape_dilate m k)).
  destruct (inb m r c) eqn:Hin; [| rewrite (gget_outside 0%Z m r c Hin); lia].
  apply fold_min_ge; [| destruct (Hb r c) as [-> | ->]; lia].
  intros [dr dc] Hoff.
  destruct (inb m (r + dr) (c + dc)) eqn:Hin2.
  - rewrite (gget_default 255%Z 0%Z (cv2.dilate m k))
      by (rewrite (inb_shape _ m _ _ (shape_dilate m k)); exact Hin2).
    unfold cv2.dilate. rewrite gget_gtab, Hin2.
    pose proof (fold_max_ge
                  (fun '(dr', dc') => gget 0%Z m (r + dr + dr') (c + dc + dc'))
                  (cv2.offsets k) 0%Z (- dr, - dc)%Z (Hsym dr dc Hoff)) as H.
    cbv beta iota in H.
    replace (r + dr + - dr)%Z with r in H by lia.
    replace (c + dc + - dc)%Z with c in H by lia.
    exact H.
  - rewrite (gget_outside 255%Z (cv2.dilate m k))
      by (rewrite (inb_shape _ m _ _ (shape_dilate m k)); exact Hin2).
    destruct (Hb r c) as [-> | ->]; lia.
Qed.

(** A mask without foreground stays so under erosion, when the kernel holds
    its centre, and under dilation. *)
Lemma erode_empty (m k : Grid Z) :
  (forall r c, gget 0%Z m r c = 0%Z) -> In (0, 0)%Z (cv2.offsets k) ->
  forall r c, gget 0%Z (cv2.erode m k) r c = 0%Z.
Proof.
  intros Hz Hk r c. unfold cv2.erode. rewrite gget_gtab.
  destruct (inb m r c) eqn:Hin; [| reflexivity].
  apply Z.le_antisymm.
  - pose proof (fold_min_le (fun '(dr, dc) => gget 255%Z m (r + dr) (c + dc))
                  (cv2.offsets k) 255%Z (0, 0)%Z Hk) as H.
    cbv beta iota in H. rewrite !Z.add_0_r in H.
    rewrite (gget_default 255%Z 0%Z m r c Hin), Hz in H. exact H.
  - apply fold_min_ge; [| lia]. intros [dr dc] _.
    destruct (inb m (r + dr) (c + dc)) eqn:Hin2.
    + rewrite (gget_default 255%Z 0%Z m _ _ Hin2), Hz. lia.
    + rewrite (gget_outside 255%Z m _ _ Hin2). lia.
Qed.

Lemma dilate_empty (m k : Grid Z) :
  (forall r c, gget 0%Z m r c = 0%Z) ->
  forall r c, gget 0%Z (cv2.dilate m k) r c = 0%Z.
Proof.
  intros Hz r c. unfold cv2.dilate. rewrite gget_gtab.
  destruct (inb m r c); [| reflexivity].
  apply Z.le_antisymm.
  - apply fold_max_le; [| lia]. intros [dr dc] _. rewrite Hz. lia.
  - induction (cv2.offsets k) as [| [dr dc] l IH]; cbn; [lia |]. lia.
Qed.

Lemma countNonZero_empty (m : Grid Z) :
  (forall r c, gget 0%Z m r c = 0%Z) -> cv2.countNonZero m = 0%Z.
Proof.
  intros Hz.
  pose proof (countNonZero_mono m (cv2.zeros_like m)) as H.
  assert (E : cv2.countNonZero (cv2.zeros_like m) = 0%Z).
  { unfold cv2.countNonZero, cv2.zeros_like. rewrite gflat_gmap.
    induction (gflat m) as [| a l IH]; cbn; [reflexivity | exact IH]. }
  rewrite E in H. pose proof (countNonZero_bounds m).
  assert (cv2.countNonZero m <= 0)%Z; [| lia].
  apply H.
  - unfold cv2.zeros_like. symmetry. apply shape_gmap.
  - intros r c N. rewrite Hz in N. congruence.
Qed.

(** The percentage of a mask grows with its count. *)
Lemma percentage_mono (count1 count2 total : Z) :
  (count1 <= count2)%Z -> (0 < total)%Z ->
  exists p1 p2,
    (ratio <- Py.div (inject_Z count1) (inject_Z total) ;;
     Some (Py.round (ratio * 100) 2)) = Some p1 /\
    (ratio <- Py.div (inject_Z count2) (inject_Z total) ;;
     Some (Py.round (ratio * 100) 2)) = Some p2 /\
    p1 <= p2.
Proof.
  intros Hc Ht.
  assert (Hpos : 0 < inject_Z total).
  { change 0 with (inject_Z 0). rewrite <- Zlt_Qlt. exact Ht. }
  rewrite !div_some by lra. cbn [bind].
  eexists. eexists. split; [reflexivity |]. split; [reflexivity |].
  apply round_mono. apply Qmult_le_compat_r; [| lra].
  unfold Qdiv. apply Qmult_le_compat_r.
  - rewrite <- Zle_Qle. exact Hc.
  - apply Qinv_le_0_compat. lra.
Qed.

End MorphologyMore.

Section BrownRot.

Import Advance.

Lemma gget_brown_mask_lab (lab : Image) (r c : Z) :
  gget 0%Z (brown_mask_lab lab) r c =
  if inb lab r c
  then (if lab_brown (gget (0, 0, 0)%Z lab r c) then 255%Z else 0%Z)
  else 0%Z.
Proof.
  unfold brown_mask_lab. rewrite (gget_gmap _ (0, 0, 0)%Z).
  destruct (inb _ r c); [| reflexivity].
  destruct (gget (0, 0, 0)%Z lab r c) as [[l a] b]. reflexivity.
Qed.

Lemma binary_brown_mask_lab (lab : Image) : binary (brown_mask_lab lab).
Proof.
  intros r c. rewrite gget_brown_mask_lab.
  destruct (inb _ r c); [destruct (lab_brown _) |]; auto.
Qed.

Lemma binary_brown_rot_mask (hsv lab : Image) : binary (brown_rot_mask hsv lab).
Proof.
  unfold brown_rot_mask. cbv zeta.
  apply binary_close, binary_open, binary_or;
    [apply binary_inRange | apply binary_brown_mask_lab].
Qed.

Lemma shape_brown_mask (hsv lab : Image) : shape (brown_rot_mask hsv lab) = shape hsv.
Proof.
  unfold brown_rot_mask. cbv zeta. rewrite shape_close, shape_open, shape_or.
  apply shape_gmap.
Qed.

End BrownRot.

(** X15: the brown/rot percentage follows the image: when some pixels of
    the HSV view move into the HSV band of brown and the other pixels keep
    their HSV and Lab values, the percentage does not fall, through the two
    thresholds, the opening and the closing. *)
Theorem brown_rot_monotone (hsv1 hsv2 lab1 lab2 : Image) (h w : nat) :
  (0 < h)%nat -> (0 < w)%nat -> has_shape h w hsv1 ->
  shape hsv2 = shape hsv1 -> shape lab2 = shape lab1 ->
  (forall r c, inb hsv1 r c = true ->
     (gget (0, 0, 0)%Z hsv2 r c = gget (0, 0, 0)%Z hsv1 r c /\
      gget (0, 0, 0)%Z lab2 r c = gget (0, 0, 0)%Z lab1 r c) \/
     cv2.in_range brown_lower1 brown_upper1 (gget (0, 0, 0)%Z hsv2 r c) = true) ->
  exists p1 p2,
    detect_brown_rot_enhanced hsv1 lab1 = Some p1 /\
    detect_brown_rot_enhanced hsv2 lab2 = Some p2 /\
    p1 <= p2.
Proof.
  intros Hh Hw Hs1 E2 El H.
  assert (Hs2 : has_shape h w hsv2) by (unfold has_shape; rewrite E2; exact Hs1).
  assert (Hle : mask_le
                  (cv2.bitwise_or (cv2.inRange hsv1 brown_lower1 brown_upper1)
                     (brown_mask_lab lab1))
                  (cv2.bitwise_or (cv2.inRange hsv2 brown_lower1 brown_upper1)
                     (brown_mask_lab lab2))).
  { split.
    - rewrite !shape_or. unfold cv2.inRange. rewrite !shape_gmap. symmetry. exact E2.
    - intros r c. rewrite !gget_bitwise_or.
      rewrite (inb_shape (cv2.inRange hsv1 _ _) hsv1 r c (shape_gmap _ _)).
      rewrite (inb_shape (cv2.inRange hsv2 _ _) hsv1 r c
                 (eq_trans (shape_gmap _ _) E2)).
      destruct (inb hsv1 r c) eqn:Hin; [| lia].
      destruct (H r c Hin) as [[Eh Elab] | Hb].
      + assert (E1 : gget 0%Z (cv2.inRange hsv2 brown_lower1 brown_upper1) r c =
                     gget 0%Z (cv2.inRange hsv1 brown_lower1 brown_upper1) r c).
        { apply (gget_gmap_same _ _ (0, 0, 0)%Z); assumption. }
        assert (E3 : gget 0%Z (brown_mask_lab lab2) r c =
                     gget 0%Z (brown_mask_lab lab1) r c).
        { apply (gget_gmap_same _ _ (0, 0, 0)%Z); assumption. }
        rewrite E1, E3. lia.
      + rewrite (gget_inRange hsv2), (inb_shape hsv2 hsv1 r c E2), Hin, Hb.
        destruct (binary_inRange hsv1 brown_lower1 brown_upper1 r c) as [-> | ->],
                 (binary_brown_mask_lab lab1 r c) as [-> | ->],
                 (binary_brown_mask_lab lab2 r c) as [-> | ->]; cbn; lia. }
  apply (open_mono _ _ cv2.MORPH_ELLIPSE_5x5) in Hle.
  apply (close_mono _ _ cv2.MORPH_ELLIPSE_5x5) in Hle.
  assert (Hcount : (cv2.countNonZero (brown_rot_mask hsv1 lab1) <=
                    cv2.countNonZero (brown_rot_mask hsv2 lab2))%Z).
  { apply countNonZero_mono; [apply Hle |].
    intros r c N. destruct Hle as [_ Hle]. specialize (Hle r c).
    fold (brown_rot_mask hsv1 lab1) in Hle. fold (brown_rot_mask hsv2 lab2) in Hle.
    destruct (binary_brown_rot_mask hsv1 lab1 r c) as [E | E]; [congruence |].
    rewrite E in Hle. lia. }
  unfold detect_brown_rot_enhanced. cbv zeta.
  rewrite (has_shape_rows h w hsv1 Hs1), (has_shape_cols h w hsv1 Hs1 Hh).
  rewrite (has_shape_rows h w hsv2 Hs2), (has_shape_cols h w hsv2 Hs2 Hh).
  apply percentage_mono; [exact Hcount | nia].
Qed.

Section BrownRotExample.

(** X15 on a plain view and the view with a block of brown: 0 and about 86
    percent. *)
Lemma brown_rot_monotone_witness :
  exists p1 p2,
    detect_brown_rot_enhanced hsv_plain lab_plain = Some p1 /\
    detect_brown_rot_enhanced hsv_brown_block lab_plain = Some p2 /\
    p1 <= p2.
Proof.
  apply (brown_rot_monotone hsv_plain hsv_brown_block lab_plain lab_plain 7 7).
  - lia.
  - lia.
  - reflexivity.
  - reflexivity.
  - reflexivity.
  - intros r c Hin.
    assert (Hall : at_every_place hsv_plain
      (fun r c =>
         pixel_eqb (gget (0, 0, 0)%Z hsv_brown_block r c)
                   (gget (0, 0, 0)%Z hsv_plain r c) ||
         cv2.in_range brown_lower1 brown_upper1
           (gget (0, 0, 0)%Z hsv_brown_block r c)) = true)
      by (vm_compute; reflexivity).
    pose proof (at_every_place_spec _ _ r c Hall Hin) as H.
    cbv beta in H. apply orb_true_iff in H as [H | H].
    + left. split; [apply pixel_eqb_eq, H | reflexivity].
    + right. exact H.
Defined.

End BrownRotExample.

(** X16: a view without a pixel in the HSV band or in the Lab band of brown
    has a brown/rot percentage of zero: the opening and the closing make no
    foreground of their own. *)
Theorem brown_rot_clean (hsv lab : Image) (h w : nat) :
  (0 < h)%nat -> (0 < w)%nat -> has_shape h w hsv ->
  (forall r c, inb hsv r c = true ->
     cv2.in_range brown_lower1 brown_upper1 (gget (0, 0, 0)%Z hsv r c) = false /\
     lab_brown (gget (0, 0, 0)%Z lab r c) = false) ->
  exists p, detect_brown_rot_enhanced hsv lab = Some p /\ p == 0.
Proof.
  intros Hh Hw Hs H.
  assert (Hz : forall r c,
             gget 0%Z (cv2.bitwise_or (cv2.inRange hsv brown_lower1 brown_upper1)
                         (brown_mask_lab lab)) r c = 0%Z).
  { intros r c. rewrite gget_bitwise_or.
    rewrite (inb_shape (cv2.inRange hsv _ _) hsv r c (shape_gmap _ _)).
    destruct (inb hsv r c) eqn:Hin; [| reflexivity].
    destruct (H r c Hin) as [H1 H2].
    rewrite gget_inRange, Hin, H1, gget_brown_mask_lab, H2.
    destruct (inb lab r c); reflexivity. }
  assert (Hk : In (0, 0)%Z (cv2.offsets cv2.MORPH_ELLIPSE_5x5))
    by (vm_compute; tauto).
  assert (Hmask : forall r c, gget 0%Z (brown_rot_mask hsv lab) r c = 0%Z).
  { unfold brown_rot_mask, cv2.morphologyEx_CLOSE, cv2.morphologyEx_OPEN. cbv zeta.
    apply erode_empty; [| exact Hk]. apply dilate_empty, dilate_empty.
    apply erode_empty; [exact Hz | exact Hk]. }
  unfold detect_brown_rot_enhanced. cbv zeta.
  rewrite (countNonZero_empty _ Hmask).
  rewrite (has_shape_rows h w hsv Hs), (has_shape_cols h w hsv Hs Hh).
  assert (Hpos : 0 < inject_Z (Z.of_nat h * Z.of_nat w)).
  { change 0 with (inject_Z 0). rewrite <- Zlt_Qlt. nia. }
  rewrite div_some by lra. cbn [bind]. eexists. split; [reflexivity |].
  rewrite (round_comp _ 0); [apply (round_int 0) |].
  change (inject_Z 0) with 0. field. lra.
Qed.

Section BrownRotCleanExample.

Lemma brown_rot_clean_witness :
  exists p, detect_brown_rot_enhanced hsv_plain lab_plain = Some p /\ p == 0.
Proof.
  apply (brown_rot_clean hsv_plain lab_plain 7 7).
  - lia.
  - lia.
  - reflexivity.
  - intros r c Hin.
    assert (Hall : at_every_place hsv_plain
      (fun r c =>
         negb (cv2.in_range brown_lower1 brown_upper1 (gget (0, 0, 0)%Z hsv_plain r c)) &&
         negb (lab_brown (gget (0, 0, 0)%Z lab_plain r c))) = true)
      by (vm_compute; reflexivity).
    pose proof (at_every_place_spec _ _ r c Hall Hin) as H.
    cbv beta in H. apply andb_true_iff in H as [H1 H2].
    apply negb_true_iff in H1. apply negb_true_iff in H2. split; assumption.
Defined.

End BrownRotCleanExample.

(** ** goodUI.py: the local analysis and the overlay *)

Section GoodUIVision.

Context {cv : OpenCV} {laws : OpenCVLaws cv}.

Lemma shape_goodui_brown_mask (hsv : Image) : shape (GoodUI.brown_mask hsv) = shape hsv.
Proof. unfold GoodUI.brown_mask. cbv zeta. rewrite shape_or. apply shape_gmap. Qed.

Lemma shape_goodui_black_mask (hsv : Image) : shape (GoodUI.black_mask hsv) = shape hsv.
Proof. unfold GoodUI.black_mask. cbv zeta. rewrite shape_close. apply shape_gmap. Qed.

Lemma goodui_brown_range (hsv : Image) (h w : nat) :
  has_shape h w hsv -> (0 < h)%nat -> (0 < w)%nat ->
  exists p, GoodUI.detect_brown_rot hsv = Some p /\ 0 <= p <= 100.
Proof.
  intros Hs Hh Hw. unfold GoodUI.detect_brown_rot. cbv zeta.
  destruct (mask_percentage _ hsv h w Hs Hh Hw (shape_goodui_brown_mask hsv))
    as (ratio & -> & Hr).
  cbn [bind]. eexists. split; [reflexivity |]. apply round_range. lra.
Qed.

Lemma goodui_black_range (hsv : Image) (h w : nat) :
  has_shape h w hsv -> (0 < h)%nat -> (0 < w)%nat ->
  exists p, GoodUI.detect_black_spots hsv = Some p /\ 0 <= p <= 100.
Proof.
  intros Hs Hh Hw. unfold GoodUI.detect_black_spots. cbv zeta.
  destruct (mask_percentage _ hsv h w Hs Hh Hw (shape_goodui_black_mask hsv))
    as (ratio & -> & Hr).
  cbn [bind]. eexists. split; [reflexivity |]. apply round_range. lra.
Qed.

Lemma goodui_shape_range (contours : list Contour) :
  exists v, GoodUI.shape_of_contours contours = Some v /\ 0 <= v <= 100.
Proof.
  destruct contours as [| k0 ks]; [exists 50; split; [reflexivity | lra] |].
  unfold GoodUI.shape_of_contours. cbv zeta.
  destruct (Py.ltb 0 (arcLength (Advance.largest k0 ks))) eqn:Ep;
    [| exists 50; split; [reflexivity | lra]].
  apply ltb_iff in Ep.
  rewrite div_some by nra. cbn [bind].
  eexists. split; [reflexivity |].
  apply min_100_range, round_nonneg.
  pose proof (area_nonneg (Advance.largest k0 ks)) as Ha.
  assert (Hpp : 0 < arcLength (Advance.largest k0 ks) * arcLength (Advance.largest k0 ks))
    by nra.
  assert (Hpi : 0 < np.pi) by reflexivity.
  assert (H1 : 0 <= 4 * np.pi * contourArea (Advance.largest k0 ks) /
                      (arcLength (Advance.largest k0 ks) *
                       arcLength (Advance.largest k0 ks))).
  { apply Qle_shift_div_l; [exact Hpp |]. nra. }
  nra.
Qed.

Lemma goodui_freshness_range (hsv lab : Image) :
  uint8_image hsv -> uint8_image lab ->
  0 <= GoodUI.calculate_freshness_score hsv lab <= 100.
Proof.
  intros Hhsv Hlab. unfold GoodUI.calculate_freshness_score. cbv zeta.
  assert (Hb : 0 <= np.mean (np.of_plane (channel0 lab))).
  { apply mean_nonneg, channel_nonneg; [exact Hlab |].
    intros [[x y] z] U. cbn in U. lia. }
  assert (Hsat : 0 <= np.mean (np.of_plane (channel1 hsv))).
  { apply mean_nonneg, channel_nonneg; [exact Hhsv |].
    intros [[x y] z] U. cbn in U. lia. }
  assert (Hb' : 0 <= np.mean (np.of_plane (channel0 lab)) / 255)
    by (apply Qle_shift_div_l; lra).
  assert (Hs' : 0 <= np.mean (np.of_plane (channel1 hsv)) / 255)
    by (apply Qle_shift_div_l; lra).
  pose proof (min_100_range (np.mean (np.of_plane (channel0 lab)) / 255 * 100)
                ltac:(lra)) as B.
  pose proof (min_100_range (np.mean (np.of_plane (channel1 hsv)) / 255 * 100)
                ltac:(lra)) as S.
  apply round_range.
  split.
  - apply Qle_shift_div_l; lra.
  - apply Qle_shift_div_r; lra.
Qed.

Lemma goodui_color_nonneg (image : Image) : 0 <= GoodUI.analyze_color_uniformity image.
Proof.
  unfold GoodUI.analyze_color_uniformity. cbv zeta. apply round_nonneg.
  pose proof (std_nonneg (np.of_plane (channel0 (cvtColor_BGR2LAB image)))).
  pose proof (std_nonneg (np.of_plane (channel1 (cvtColor_BGR2LAB image)))).
  pose proof (std_nonneg (np.of_plane (channel2 (cvtColor_BGR2LAB image)))).
  apply Qle_shift_div_l; lra.
Qed.

Lemma goodui_texture_nonneg (image : Image) : 0 <= GoodUI.analyze_texture_quality image.
Proof.
  unfold GoodUI.analyze_texture_quality. cbv zeta. apply round_nonneg.
  apply mean_nonneg. unfold np.abs. apply gflat_gmap_Forall.
  intros a. apply Qabs_nonneg.
Qed.

End GoodUIVision.

(** X17: in the older variant too, on every image of a non-zero area the
    local analysis succeeds, with the two defect percentages, the shape
    integrity and the freshness score within 0 and 100, and a colour variance
    and a texture score that are not negative; the texture score has no cap
    there. *)
Theorem goodui_local_metrics_in_range {cv : OpenCV} {laws : OpenCVLaws cv}
  (image : Image) (h w : nat) :
  (0 < h)%nat -> (0 < w)%nat -> has_shape h w image ->
  exists m,
    GoodUI.perform_local_analysis image = Some m /\
    0 <= brown_rot_percentage m <= 100 /\
    0 <= black_spots_percentage m <= 100 /\
    0 <= shape_integrity m <= 100 /\
    0 <= freshness_score m <= 100 /\
    0 <= color_variance m /\
    0 <= texture_score m.
Proof.
  intros Hh Hw Hs.
  assert (Hhsv : has_shape h w (cvtColor_BGR2HSV image)).
  { unfold has_shape. rewrite hsv_shape. exact Hs. }
  unfold GoodUI.perform_local_analysis. cbv zeta.
  destruct (goodui_brown_range (cvtColor_BGR2HSV image) h w Hhsv Hh Hw)
    as (brown & -> & Hbrown).
  destruct (goodui_black_range (cvtColor_BGR2HSV image) h w Hhsv Hh Hw)
    as (black & -> & Hblack).
  unfold GoodUI.analyze_fruit_shape. cbv zeta.
  rewrite (cvtColor_some _ image h w Hs Hh Hw). cbn [bind].
  destruct (goodui_shape_range
              (findContours (Canny (GaussianBlur (cvtColor_BGR2GRAY image)))))
    as (si & -> & Hsi).
  cbn [bind]. eexists. split; [reflexivity |].
  cbn [brown_rot_percentage black_spots_percentage texture_score shape_integrity
       freshness_score color_variance].
  split; [exact Hbrown |]. split; [exact Hblack |]. split; [exact Hsi |].
  split; [apply goodui_freshness_range; [apply hsv_uint8 | apply lab_uint8] |].
  split; [apply goodui_color_nonneg | apply goodui_texture_nonneg].
Qed.

Lemma goodui_local_metrics_in_range_witness :
  exists m,
    GoodUI.perform_local_analysis (cv := Sample.cv) Sample.brown_square = Some m /\
    0 <= brown_rot_percentage m <= 100 /\
    0 <= black_spots_percentage m <= 100 /\
    0 <= shape_integrity m <= 100 /\
    0 <= freshness_score m <= 100 /\
    0 <= color_variance m /\
    0 <= texture_score m.
Proof.
  apply (goodui_local_metrics_in_range (laws := sample_laws) Sample.brown_square 13 13).
  - lia.
  - lia.
  - reflexivity.
Defined.

(** X18: in the older variant every pixel the overlay paints is a pixel a
    detector counts: the orange mask of the overlay lies under the joined
    mask of the brown/rot detector, and its red mask under the closed mask of
    the black-spot detector, the closing with the full 3 x 3 kernel only
    adding pixels. *)
Theorem goodui_overlay_within_detection {cv : OpenCV} (image : Image) :
  mask_le (GoodUI.overlay_brown_mask image)
          (GoodUI.brown_mask (cvtColor_BGR2HSV image)) /\
  mask_le (GoodUI.overlay_black_mask image)
          (GoodUI.black_mask (cvtColor_BGR2HSV image)).
Proof.
  split.
  - unfold GoodUI.overlay_brown_mask, GoodUI.brown_mask. cbv zeta. split.
    + symmetry. apply shape_or.
    + intros r c. rewrite gget_bitwise_or.
      destruct (inb _ r c) eqn:Hin.
      * destruct (binary_inRange (cvtColor_BGR2HSV image) (8, 50, 20)%Z
                    (20, 255, 200)%Z r c) as [-> | ->],
                 (binary_inRange (cvtColor_BGR2HSV image) (10, 30, 10)%Z
                    (25, 255, 100)%Z r c) as [-> | ->]; cbn; lia.
      * rewrite (gget_outside _ _ r c Hin). lia.
  - unfold GoodUI.overlay_black_mask, GoodUI.black_mask. cbv zeta.
    apply close_extensive; [apply binary_inRange |].
    intros dr dc Hin. vm_compute in Hin. vm_compute.
    repeat (destruct Hin as [Hin | Hin]; [injection Hin as <- <-; tauto |]).
    destruct Hin.
Qed.

(** ** What is shown of a result *)

Section OverlayMore.

Context {cv : OpenCV} {laws : OpenCVLaws cv}.

(** A pixel of the painted image, from the measurements and the HSV pixel. *)
Lemma highlighted_pixel (image : Image) (result : AnalysisResult) (r c : Z) :
  inb image r c = true ->
  gget (0, 0, 0)%Z (highlighted image result) r c =
    (if Py.ltb 0 (black_spots_percentage (local_analysis result)) &&
        cv2.in_range (0, 0, 0)%Z (180, 255, 30)%Z
          (gget (0, 0, 0)%Z (cvtColor_BGR2HSV image) r c)
     then RED
     else if Py.ltb 0 (brown_rot_percentage (local_analysis result)) &&
             cv2.in_range brown_lower1 brown_upper1
               (gget (0, 0, 0)%Z (cvtColor_BGR2HSV image) r c)
     then ORANGE
     else gget (0, 0, 0)%Z image r c).
Proof.
  intros Hin. unfold highlighted. cbv zeta.
  unfold overlay_brown_mask, overlay_black_mask.
  destruct (Py.ltb 0 (brown_rot_percentage (local_analysis result)));
    destruct (Py.ltb 0 (black_spots_percentage (local_analysis result)));
    cbn [andb].
  - rewrite gget_paint, shape_paint_inb, Hin, overlay_mask_at by exact Hin.
    destruct (cv2.in_range _ _ _); [reflexivity |].
    rewrite gget_paint, Hin, overlay_mask_at by exact Hin. reflexivity.
  - rewrite gget_paint, Hin, overlay_mask_at by exact Hin. reflexivity.
  - rewrite gget_paint, Hin, overlay_mask_at by exact Hin. reflexivity.
  - reflexivity.
Qed.

(** Blending a [uint8] value with itself gives it back. *)
Lemma saturate_blend_same (a : Z) :
  (0 <= a <= 255)%Z ->
  cv2.saturate (inject_Z a * (6 # 10) + inject_Z a * (4 # 10) + 0) = a.
Proof.
  intros Ha. unfold cv2.saturate.
  assert (E : Py.round_half_even (inject_Z a * (6 # 10) + inject_Z a * (4 # 10) + 0) = a).
  { apply Z.le_antisymm.
    - apply round_half_even_le. lra.
    - apply round_half_even_ge. lra. }
  rewrite E. lia.
Qed.

End OverlayMore.

(** X19: the blend changes painted pixels only.  At a place of a [uint8]
    image where no colour is painted (for each of the two defects, either its
    percentage is not positive or the HSV pixel is off its band) the blended
    image [result_image], on which the banner, the caption and the legend
    are put afterwards, has the pixel of the image, the weights 0.6 and 0.4
    adding to one. *)
Theorem overlay_keeps_other_pixels {cv : OpenCV} {laws : OpenCVLaws cv}
  (image : Image) (result : AnalysisResult) (r c : Z) :
  inb image r c = true ->
  uint8 (gget (0, 0, 0)%Z image r c) ->
  brown_rot_percentage (local_analysis result) <= 0 \/
  cv2.in_range brown_lower1 brown_upper1
    (gget (0, 0, 0)%Z (cvtColor_BGR2HSV image) r c) = false ->
  black_spots_percentage (local_analysis result) <= 0 \/
  cv2.in_range (0, 0, 0)%Z (180, 255, 30)%Z
    (gget (0, 0, 0)%Z (cvtColor_BGR2HSV image) r c) = false ->
  gget (0, 0, 0)%Z (create_enhanced_analysis_overlay image result) r c =
  gget (0, 0, 0)%Z image r c.
Proof.
  intros Hin Hu Hbrown Hblack.
  assert (Hp : gget (0, 0, 0)%Z (highlighted image result) r c =
               gget (0, 0, 0)%Z image r c).
  { rewrite (highlighted_pixel image result r c Hin).
    assert (B1 : Py.ltb 0 (black_spots_percentage (local_analysis result)) &&
                 cv2.in_range (0, 0, 0)%Z (180, 255, 30)%Z
                   (gget (0, 0, 0)%Z (cvtColor_BGR2HSV image) r c) = false).
    { destruct Hblack as [H | H].
      - rewrite (ltb_false _ _ H). reflexivity.
      - rewrite H. apply andb_false_r. }
    assert (B2 : Py.ltb 0 (brown_rot_percentage (local_analysis result)) &&
                 cv2.in_range brown_lower1 brown_upper1
                   (gget (0, 0, 0)%Z (cvtColor_BGR2HSV image) r c) = false).
    { destruct Hbrown as [H | H].
      - rewrite (ltb_false _ _ H). reflexivity.
      - rewrite H. apply andb_false_r. }
    rewrite B1, B2. reflexivity. }
  unfold create_enhanced_analysis_overlay, cv2.addWeighted. cbv zeta.
  rewrite gget_gmap2. pose proof Hin as Hin'. unfold Pixel in Hin'.
  rewrite Hin', Hp.
  destruct (gget (0, 0, 0)%Z image r c) as [[a0 a1] a2].
  cbn in Hu. destruct Hu as (H0 & H1 & H2).
  rewrite !saturate_blend_same by assumption. reflexivity.
Qed.

(** X19 at a white pixel of the image of a brown square. *)
Lemma overlay_keeps_other_pixels_witness :
  gget (0, 0, 0)%Z
    (create_enhanced_analysis_overlay (cv := Sample.cv) Sample.brown_square
       (report (measured (2593 # 100) 0 70))) 0 0
  = gget (0, 0, 0)%Z Sample.brown_square 0 0.
Proof.
  apply (overlay_keeps_other_pixels (cv := Sample.cv) (laws := sample_laws)
           Sample.brown_square (report (measured (2593 # 100) 0 70)) 0 0).
  - reflexivity.
  - vm_compute. repeat split; discriminate.
  - right. vm_compute. reflexivity.
  - left. vm_compute. discriminate.
Defined.

(** X20: a result without a remote verdict cannot be shown in detail: the
    fusion stores the absent verdict as it is, and the defects section, which
    reads the stored verdict and asks it for its defects, raises.  On the
    empty verdict, which the fusion treats the same way, the section does not
    raise, and it is hidden exactly when the brown/rot percentage is at most
    5 and the black-spot percentage at most 2. *)
Theorem defects_section_raises_local_only (l : LocalMetrics) :
  (exists r,
     combine_analysis_results None l = Some r /\
     create_defects_section r = None) /\
  (exists r s,
     combine_analysis_results (Some []) l = Some r /\
     create_defects_section r = Some s /\
     (s = None <->
      brown_rot_percentage l <= 5 /\ black_spots_percentage l <= 2)).
Proof.
  split.
  - destruct (combine_local_only None l (or_introl eq_refl))
      as (r & Hr & Hg & _).
    exists r. split; [exact Hr |].
    unfold create_defects_section. rewrite Hg. reflexivity.
  - destruct (combine_local_only (Some []) l (or_intror eq_refl))
      as (r & Hr & Hg & Hl & _).
    exists r. unfold create_defects_section. rewrite Hg, Hl. cbn [bind dict_get dict_lookup truth orb].
    destruct (Py.ltb 5 (brown_rot_percentage l)) eqn:E1;
      [| destruct (Py.ltb 2 (black_spots_percentage l)) eqn:E2]; cbn [orb bind].
    + apply ltb_iff in E1. eexists. split; [exact Hr |]. split; [reflexivity |].
      split; [discriminate | intros [H _]; lra].
    + apply ltb_iff in E2. eexists. split; [exact Hr |]. split; [reflexivity |].
      split; [discriminate | intros [_ H]; lra].
    + apply ltb_false_inv in E1. apply ltb_false_inv in E2.
      eexists. split; [exact Hr |]. split; [reflexivity |].
      split; [intros _; split; assumption | reflexivity].
Qed.

(** X21: the defects section of a result with a remote verdict whose
    defects are a list, or are missing: it is hidden exactly when no defect
    is listed, the brown/rot percentage is at most 5 and the black-spot
    percentage at most 2; when shown it has one label for each listed defect
    and the two severity rows, a row being Low below 5 percent of brown/rot
    and below 2 percent of black spots; and a section shown without a listed
    defect has a row that is not Low. *)
Theorem defects_section_levels (g : dict) (l : LocalMetrics) (cat : string) (c : Q)
  (ds : list string) :
  g <> [] ->
  dict_get g "condition_category" (PStr "FAIR") = PStr cat ->
  dict_get g "confidence_score" (PNum 50) = PNum c ->
  dict_get g "defects_found" (PList []) = PList ds ->
  exists r s,
    combine_analysis_results (Some g) l = Some r /\
    create_defects_section r = Some s /\
    (s = None <->
     ds = [] /\ brown_rot_percentage l <= 5 /\ black_spots_percentage l <= 2) /\
    (forall sec, s = Some sec ->
       defect_labels sec = map (String.append "⚠️ ") ds /\
       exists brown_level black_level,
         severity_data sec =
           [ ("Brown/Rot Areas", brown_rot_percentage l, brown_level);
             ("Black Spots", black_spots_percentage l, black_level) ] /\
         (brown_level = "Low" <-> brown_rot_percentage l < 5) /\
         (black_level = "Low" <-> black_spots_percentage l < 2) /\
         (ds = [] -> brown_level <> "Low" \/ black_level <> "Low")).
Proof.
  intros Hne Hcat Hconf Hdef.
  destruct (combine_remote g l cat c Hne Hcat Hconf) as (r & Hr & _ & _ & _ & _ & _ & Hl & Hg).
  exists r. unfold create_defects_section. rewrite Hg, Hl. cbn [bind]. rewrite Hdef.
  assert (Hlevels :
    exists brown_level black_level,
      [ ("Brown/Rot Areas", brown_rot_percentage l,
         if Py.ltb (brown_rot_percentage l) 5 then "Low"
         else if Py.ltb (brown_rot_percentage l) 15 then "Medium" else "High");
        ("Black Spots", black_spots_percentage l,
         if Py.ltb (black_spots_percentage l) 2 then "Low"
         else if Py.ltb (black_spots_percentage l) 10 then "Medium" else "High") ] =
      [ ("Brown/Rot Areas", brown_rot_percentage l, brown_level);
        ("Black Spots", black_spots_percentage l, black_level) ] /\
      (brown_level = "Low" <-> brown_rot_percentage l < 5) /\
      (black_level = "Low" <-> black_spots_percentage l < 2)).
  { do 2 eexists. split; [reflexivity |]. split.
    - destruct (Py.ltb (brown_rot_percentage l) 5) eqn:E.
      + apply ltb_iff in E. tauto.
      + apply ltb_false_inv in E.
        destruct (Py.ltb (brown_rot_percentage l) 15);
          (split; [discriminate | intros; lra]).
    - destruct (Py.ltb (black_spots_percentage l) 2) eqn:E.
      + apply ltb_iff in E. tauto.
      + apply ltb_false_inv in E.
        destruct (Py.ltb (black_spots_percentage l) 10);
          (split; [discriminate | intros; lra]). }
  destruct Hlevels as (bl & kl & Hrows & Hbl & Hkl). rewrite Hrows.
  destruct ds as [| d ds].
  - cbn [truth orb items map].
    destruct (Py.ltb 5 (brown_rot_percentage l)) eqn:E1;
      [| destruct (Py.ltb 2 (black_spots_percentage l)) eqn:E2]; cbn [orb bind].
    + apply ltb_iff in E1. eexists. split; [exact Hr |]. split; [reflexivity |].
      split; [split; [discriminate | intros (_ & H & _); lra] |].
      intros sec Hsec. injection Hsec as <-. cbn [defect_labels severity_data].
      split; [reflexivity |]. exists bl, kl. split; [reflexivity |].
      split; [exact Hbl |]. split; [exact Hkl |].
      intros _. left. intros H. apply Hbl in H. lra.
    + apply ltb_iff in E2. eexists. split; [exact Hr |]. split; [reflexivity |].
      split; [split; [discriminate | intros (_ & _ & H); lra] |].
      intros sec Hsec. injection Hsec as <-. cbn [defect_labels severity_data].
      split; [reflexivity |]. exists bl, kl. split; [reflexivity |].
      split; [exact Hbl |]. split; [exact Hkl |].
      intros _. right. intros H. apply Hkl in H. lra.
    + apply ltb_false_inv in E1. apply ltb_false_inv in E2.
      eexists. split; [exact Hr |]. split; [reflexivity |].
      split; [split; [intros _; repeat split; assumption | reflexivity] |].
      intros sec Hsec. discriminate Hsec.
  - cbn [truth orb items bind].
    eexists. split; [exact Hr |]. split; [reflexivity |].
    split; [split; [discriminate | intros (H & _); discriminate H] |].
    intros sec Hsec. injection Hsec as <-. cbn [defect_labels severity_data].
    split; [reflexivity |]. exists bl, kl. split; [reflexivity |].
    split; [exact Hbl |]. split; [exact Hkl |].
    intros H. discriminate H.
Qed.

Lemma defects_section_levels_witness :
  exists r s,
    combine_analysis_results (Some (verdict "GOOD" 90)) (measured 6 1 80) = Some r /\
    create_defects_section r = Some s /\
    (s = None <->
     @nil string = [] /\ brown_rot_percentage (measured 6 1 80) <= 5 /\
     black_spots_percentage (measured 6 1 80) <= 2) /\
    (forall sec, s = Some sec ->
       defect_labels sec = map (String.append "⚠️ ") (@nil string) /\
       exists brown_level black_level,
         severity_data sec =
           [ ("Brown/Rot Areas", brown_rot_percentage (measured 6 1 80), brown_level);
             ("Black Spots", black_spots_percentage (measured 6 1 80), black_level) ] /\
         (brown_level = "Low" <-> brown_rot_percentage (measured 6 1 80) < 5) /\
         (black_level = "Low" <-> black_spots_percentage (measured 6 1 80) < 2) /\
         (@nil string = [] -> brown_level <> "Low" \/ black_level <> "Low")).
Proof.
  apply (defects_section_levels (verdict "GOOD" 90) (measured 6 1 80) "GOOD" 90 []);
    [discriminate | reflexivity ..].
Defined.

Section Display.

Lemma remote_condition_in (l : LocalMetrics) (cat : string) :
  In (adjusted_condition (local_bad_score l) cat) remote_conditions.
Proof.
  unfold adjusted_condition, remote_conditions. apply in_or_app.
  destruct (Py.ltb 20 (local_bad_score l) && in_strs (PStr cat) ["EXCELLENT"; "GOOD"]).
  - right. left. reflexivity.
  - destruct (table_lookup condition_mapping cat) as [s |] eqn:E.
    + left. apply (table_lookup_in _ cat). exact E.
    + right. right. left. reflexivity.
Qed.

End Display.

(** X22: what is shown for the answer to a remote verdict.  The closing
    notification is missing exactly for the conflict label and the unclear
    label, which contain none of its keywords; the banner of the overlay is
    grey for these two and for the insect-damage condition, which the banner
    has no colour for, although its notification is an error. *)
Theorem display_of_fusion (g : dict) (l : LocalMetrics) (cat : string) (c : Q) :
  g <> [] ->
  dict_get g "condition_category" (PStr "FAIR") = PStr cat ->
  dict_get g "confidence_score" (PNum 50) = PNum c ->
  exists r,
    combine_analysis_results (Some g) l = Some r /\
    (notification (condition r) = None <->
     In (condition r) [CONFLICTING; UNCLEAR]) /\
    (fst (banner_colors (condition r)) = (128, 128, 128)%Z <->
     In (condition r) [CONFLICTING; UNCLEAR; "🐛 INSECT DAMAGE - REMOVE FROM BATCH"]) /\
    (contains "INSECT" (condition r) = true ->
     option_map snd (notification (condition r)) = Some "error").
Proof.
  intros Hne Hcat Hconf.
  destruct (combine_remote g l cat c Hne Hcat Hconf) as (r & Hr & Hcond & _).
  exists r. split; [exact Hr |]. rewrite Hcond.
  pose proof (remote_condition_in l cat) as Hin.
  cbn in Hin.
  repeat (destruct Hin as [Hin | Hin];
          [rewrite <- Hin; vm_compute;
           repeat split; intros H; try discriminate H; try tauto;
           repeat (destruct H as [H | H]; try discriminate H); contradiction |]).
  destruct Hin.
Qed.

Lemma display_of_fusion_witness :
  exists r,
    combine_analysis_results (Some (verdict "INSECT_DAMAGED" 80)) (measured 1 0 80)
      = Some r /\
    (notification (condition r) = None <->
     In (condition r) [CONFLICTING; UNCLEAR]) /\
    (fst (banner_colors (condition r)) = (128, 128, 128)%Z <->
     In (condition r) [CONFLICTING; UNCLEAR; "🐛 INSECT DAMAGE - REMOVE FROM BATCH"]) /\
    (contains "INSECT" (condition r) = true ->
     option_map snd (notification (condition r)) = Some "error").
Proof.
  apply (display_of_fusion (verdict "INSECT_DAMAGED" 80) (measured 1 0 80)
           "INSECT_DAMAGED" 80); [discriminate | reflexivity | reflexivity].
Defined.
